(** * OBD-II diagnostic link: the protocol core of [obd_diagnostic_app.py]

    A shallow embedding of class [OBDConnection]: the command framer
    ([send_command]), the session initialiser ([connect_obd]), the metric
    decoder ([parse_pid_response]), the trouble-code decoder ([read_dtc],
    [clear_dtc]) and the polling loop ([run]).

    Conventions of the model.
    - A Python [str] is a Rocq [string]: a sequence of code points below
      256.  Case mapping, white space and integer parsing follow Python on
      that range.  The adapter protocol is 7-bit ASCII; on such data the
      permissive UTF-8 decoding of [send_command] is the identity, and bytes
      above 0x7F are outside the model.
    - A Python number is a [pyval]: an [int] is a [Z], a [float] is a
      binary64 primitive float.  [x / y] on two small [int]s is the
      correctly rounded quotient of the two converted operands.
    - The socket, the clock and the other threads are an explicit [world]:
      scripts of what each call will answer, and a trace of what the code
      did.  A computation that asks for more than the script holds has no
      result ([None]). *)

From Stdlib Require Import ZArith Bool List Ascii String Lia.
From Stdlib Require Import PrimFloat Uint63.
From stdpp Require Import base option list gmap strings.

Local Open Scope string_scope.
Local Open Scope Z_scope.

(** Concatenation of strings computes under [simpl], as on lists. *)
Local Arguments String.append !s1 s2 : simpl nomatch.

(** ** Constants of the module *)

Definition TIMEOUT : float := 2%float.

Definition PID_SPEED := "010D".
Definition PID_RPM := "010C".
Definition PID_ENGINE_TEMP := "0105".
Definition PID_FUEL_LEVEL := "012F".
Definition PID_INTAKE_PRESSURE := "010B".

Definition PID_FIAT_TURBO_PRESSURE := "015F".
Definition PID_FIAT_CLUTCH_STATUS := "0160".
Definition PID_TOYOTA_FUEL_CONSUMPTION := "015E".
Definition PID_TOYOTA_HYBRID_BATTERY := "01A2".
Definition PID_VAG_BOOST_PRESSURE := "01A6".
Definition PID_VAG_OIL_TEMP := "015C".

Definition CMD_RESET := "ATZ".
Definition CMD_VERSION := "ATI".
Definition CMD_ECHO_OFF := "ATE0".
Definition CMD_HEADERS_OFF := "ATH0".
Definition CMD_LINEFEEDS_OFF := "ATL0".
Definition CMD_AUTO_PROTOCOL := "ATSP0".
Definition CMD_KWP2000 := "ATSP4".
Definition CMD_ISO9141 := "ATSP3".
Definition CMD_CAN_11BIT_500K := "ATSP6".
Definition CMD_KWP1281 := "ATSP5".
Definition CMD_READ_DTC := "03".
Definition CMD_CLEAR_DTC := "04".

(** ** Python strings *)

Module Py.

(** [needle in s]. *)
Fixpoint contains (needle s : string) : bool :=
  String.prefix needle s
  || match s with
     | EmptyString => false
     | String _ s' => contains needle s'
     end.

(** [s.replace(old, new)] for a one-character [old]. *)
Fixpoint replace (old : ascii) (new s : string) : string :=
  match s with
  | EmptyString => EmptyString
  | String c s' =>
      if Ascii.eqb c old then new ++ replace old new s'
      else String c (replace old new s')
  end.

Definition code (c : ascii) : Z := Z.of_N (N_of_ascii c).

(** [c.isspace()] below 256: what [str.strip] removes. *)
Definition isspace (c : ascii) : bool :=
  let n := code c in
  ((9 <=? n) && (n <=? 13)) || ((28 <=? n) && (n <=? 32))
  || (n =? 133) || (n =? 160).

Fixpoint lstrip (s : string) : string :=
  match s with
  | EmptyString => EmptyString
  | String c s' => if isspace c then lstrip s' else s
  end.

Fixpoint rstrip (s : string) : string :=
  match s with
  | EmptyString => EmptyString
  | String c s' =>
      let r := rstrip s' in
      if isspace c && String.eqb r "" then "" else String c r
  end.

Definition strip (s : string) : string := rstrip (lstrip s).

(** [c.lower()] below 256: A-Z, and the Latin-1 capitals but the
    multiplication sign. *)
Definition lower_char (c : ascii) : ascii :=
  let n := code c in
  if ((65 <=? n) && (n <=? 90))
     || ((192 <=? n) && (n <=? 222) && negb (n =? 215))
  then ascii_of_N (Z.to_N (n + 32)) else c.

Fixpoint lower (s : string) : string :=
  match s with
  | EmptyString => EmptyString
  | String c s' => String (lower_char c) (lower s')
  end.

Definition len (s : string) : Z := Z.of_nat (String.length s).

(** Bounds of a slice: a negative index counts from the end, and every
    index is clipped to the string. *)
Definition clip (n i : Z) : Z :=
  if i <? 0 then Z.max 0 (i + n) else Z.min i n.

(** [s[lo:hi]]; [None] is an omitted bound. *)
Definition slice (s : string) (lo hi : option Z) : string :=
  let n := len s in
  let l := match lo with Some i => clip n i | None => 0 end in
  let h := match hi with Some j => clip n j | None => n end in
  substring (Z.to_nat l) (Z.to_nat (h - l)) s.

Definition startswith (s p : string) : bool := String.prefix p s.

(** *** [int(s, 16)] *)

Definition digit16 (c : ascii) : option Z :=
  let n := code c in
  if (48 <=? n) && (n <=? 57) then Some (n - 48)
  else if (97 <=? n) && (n <=? 102) then Some (n - 87)
  else if (65 <=? n) && (n <=? 70) then Some (n - 55)
  else None.

(** White space the integer parser skips at both ends. *)
Definition int_space (c : ascii) : bool :=
  let n := code c in
  ((9 <=? n) && (n <=? 13)) || (n =? 32) || (n =? 133) || (n =? 160).

Fixpoint skip_space (s : string) : string :=
  match s with
  | EmptyString => EmptyString
  | String c s' => if int_space c then skip_space s' else s
  end.

Definition take_sign (s : string) : Z * string :=
  match s with
  | String "+" r => (1, r)
  | String "-" r => (-1, r)
  | _ => (1, s)
  end.

(** An optional [0x] or [0X], after which one underscore may stand. *)
Definition skip_prefix16 (s : string) : string :=
  match s with
  | String "0" (String x r) =>
      if Ascii.eqb x "x" || Ascii.eqb x "X" then
        match r with
        | String "_" r' => r'
        | _ => r
        end
      else s
  | _ => s
  end.

(** Digits with single underscores between them: the value, the number of
    digits and the rest; no result on a doubled or a trailing underscore. *)
Fixpoint scan16 (s : string) (prev_us : bool) (acc : Z) (n : nat)
  : option (Z * nat * string) :=
  match s with
  | EmptyString => if prev_us then None else Some (acc, n, s)
  | String c r =>
      if Ascii.eqb c "_" then
        if prev_us then None else scan16 r true acc n
      else
        match digit16 c with
        | Some d => scan16 r false (16 * acc + d) (S n)
        | None => if prev_us then None else Some (acc, n, s)
        end
  end.

(** [int(s, 16)]; [None] is [ValueError]. *)
Definition int16 (s : string) : option Z :=
  let '(sg, s2) := take_sign (skip_space s) in
  let s3 := skip_prefix16 s2 in
  match s3 with
  | String "_" _ => None
  | _ =>
      match scan16 s3 false 0 0 with
      | Some (v, n, rest) =>
          if Nat.eqb n 0 then None
          else if String.eqb (skip_space rest) "" then Some (sg * v)
          else None
      | None => None
      end
  end.

End Py.

(** ** Python numbers *)

Inductive pyval : Type :=
| PyInt (z : Z)
| PyFloat (f : float).

Definition float_of_Z (z : Z) : float :=
  if z <? 0 then PrimFloat.opp (PrimFloat.of_uint63 (Uint63.of_Z (- z)))
  else PrimFloat.of_uint63 (Uint63.of_Z z).

(** [x / y] on two [int]s below 2^53 in size. *)
Definition truediv (x y : Z) : float :=
  PrimFloat.div (float_of_Z x) (float_of_Z y).

(** ** The metric decoder *)

(** The body shared by the one-byte branches: the length guard, then
    [int(response[-2:], 16)] under [try], then the branch's formula. *)
Definition one_byte (response : string) (formula : Z -> pyval)
  : option pyval :=
  if 4 <=? Py.len response then
    match Py.int16 (Py.slice response (Some (-2)) None) with
    | Some data_byte => Some (formula data_byte)
    | None => None
    end
  else None.

Definition parse_pid_response (response pid : string) : option pyval :=
  if Py.contains "NO DATA" response || Py.contains "ERROR" response
     || String.eqb response ""
  then None
  else
    let response := Py.replace " " "" response in
    if Py.contains (Py.lower (Py.slice pid (Some 2) (Some 4)))
                   (Py.lower response)
    then
      if String.eqb pid PID_SPEED then
        one_byte response (fun data_byte => PyInt data_byte)
      else if String.eqb pid PID_RPM then
        if 6 <=? Py.len response then
          match Py.int16 (Py.slice response (Some (-4)) (Some (-2))) with
          | Some a =>
              match Py.int16 (Py.slice response (Some (-2)) None) with
              | Some b => Some (PyFloat (truediv (256 * a + b) 4))
              | None => None
              end
          | None => None
          end
        else None
      else if String.eqb pid PID_ENGINE_TEMP then
        one_byte response (fun data_byte => PyInt (data_byte - 40))
      else if String.eqb pid PID_FUEL_LEVEL then
        one_byte response (fun data_byte => PyFloat (truediv (data_byte * 100) 255))
      else if String.eqb pid PID_INTAKE_PRESSURE then
        one_byte response (fun data_byte => PyInt data_byte)
      else if String.eqb pid PID_FIAT_TURBO_PRESSURE
              || String.eqb pid PID_VAG_BOOST_PRESSURE then
        one_byte response (fun data_byte => PyInt (data_byte * 2))
      else if String.eqb pid PID_FIAT_CLUTCH_STATUS then
        one_byte response (fun data_byte => PyInt data_byte)
      else if String.eqb pid PID_TOYOTA_FUEL_CONSUMPTION then
        one_byte response (fun data_byte => PyFloat (truediv data_byte 10))
      else if String.eqb pid PID_TOYOTA_HYBRID_BATTERY then
        one_byte response (fun data_byte => PyFloat (truediv (data_byte * 100) 255))
      else if String.eqb pid PID_VAG_OIL_TEMP then
        one_byte response (fun data_byte => PyInt (data_byte - 40))
      else None
    else None.

(** ** The trouble-code table and the vehicle profiles *)

Definition DTC_CODES : gmap string string :=
  list_to_map
    [ ("P0100", "Mass or Volume Air Flow Circuit Malfunction");
      ("P0101", "Mass or Volume Air Flow Circuit Range/Performance Problem");
      ("P0102", "Mass or Volume Air Flow Circuit Low Input");
      ("P0103", "Mass or Volume Air Flow Circuit High Input");
      ("P0104", "Mass or Volume Air Flow Circuit Intermittent");
      ("P0105", "Manifold Absolute Pressure/Barometric Pressure Circuit Malfunction");
      ("P0106", "Manifold Absolute Pressure/Barometric Pressure Circuit Range/Performance Problem");
      ("P0107", "Manifold Absolute Pressure/Barometric Pressure Circuit Low Input");
      ("P0108", "Manifold Absolute Pressure/Barometric Pressure Circuit High Input");
      ("P0109", "Manifold Absolute Pressure/Barometric Pressure Circuit Intermittent");
      ("P0110", "Intake Air Temperature Circuit Malfunction");
      ("P0111", "Intake Air Temperature Circuit Range/Performance Problem");
      ("P0112", "Intake Air Temperature Circuit Low Input");
      ("P0113", "Intake Air Temperature Circuit High Input");
      ("P0114", "Intake Air Temperature Circuit Intermittent");
      ("P0115", "Engine Coolant Temperature Circuit Malfunction");
      ("P0116", "Engine Coolant Temperature Circuit Range/Performance Problem");
      ("P0117", "Engine Coolant Temperature Circuit Low Input");
      ("P0118", "Engine Coolant Temperature Circuit High Input");
      ("P0119", "Engine Coolant Temperature Circuit Intermittent");
      ("P0120", "Throttle Position Sensor/Switch A Circuit Malfunction");
      ("P0121", "Throttle Position Sensor/Switch A Circuit Range/Performance Problem");
      ("P0122", "Throttle Position Sensor/Switch A Circuit Low Input");
      ("P0123", "Throttle Position Sensor/Switch A Circuit High Input");
      ("P0124", "Throttle Position Sensor/Switch A Circuit Intermittent");
      ("P0125", "Insufficient Coolant Temperature for Closed Loop Fuel Control");
      ("P0126", "Insufficient Coolant Temperature for Stable Operation");
      ("P0128", "Coolant Thermostat (Coolant Temperature Below Thermostat Regulating Temperature)");
      ("P0130", "O2 Sensor Circuit Malfunction (Bank 1 Sensor 1)");
      ("P0131", "O2 Sensor Circuit Low Voltage (Bank 1 Sensor 1)");
      ("P0132", "O2 Sensor Circuit High Voltage (Bank 1 Sensor 1)");
      ("P0133", "O2 Sensor Circuit Slow Response (Bank 1 Sensor 1)");
      ("P0134", "O2 Sensor Circuit No Activity Detected (Bank 1 Sensor 1)");
      ("P0135", "O2 Sensor Heater Circuit Malfunction (Bank 1 Sensor 1)");
      ("P0171", "System Too Lean (Bank 1)");
      ("P0172", "System Too Rich (Bank 1)");
      ("P0300", "Random/Multiple Cylinder Misfire Detected");
      ("P0301", "Cylinder 1 Misfire Detected");
      ("P0302", "Cylinder 2 Misfire Detected");
      ("P0303", "Cylinder 3 Misfire Detected");
      ("P0304", "Cylinder 4 Misfire Detected") ].

(** One entry of [VEHICLE_PROFILES]; [specific_pids] keeps the order of
    the dictionary literal, which is the order [items()] yields. *)
Record profile : Type := Profile {
  protocol_cmd : string;
  fallback_cmd : string;
  specific_pids : list (string * string)
}.

Definition VEHICLE_PROFILES : gmap string profile :=
  list_to_map
    [ ("Fiat 500 Series 1",
       Profile CMD_KWP2000 CMD_ISO9141
         [ ("Turbo Pressure", PID_FIAT_TURBO_PRESSURE);
           ("Clutch Status", PID_FIAT_CLUTCH_STATUS) ]);
      ("Toyota C-HR/Corolla",
       Profile CMD_CAN_11BIT_500K CMD_AUTO_PROTOCOL
         [ ("Fuel Consumption", PID_TOYOTA_FUEL_CONSUMPTION);
           ("Hybrid Battery", PID_TOYOTA_HYBRID_BATTERY) ]);
      ("Volkswagen Group",
       Profile CMD_CAN_11BIT_500K CMD_KWP1281
         [ ("Boost Pressure", PID_VAG_BOOST_PRESSURE);
           ("Oil Temperature", PID_VAG_OIL_TEMP) ]) ].

(** ** The trouble-code decoder *)

Definition trouble_code : Type := string * string.

(** The category letter chosen by the first character of a group; the
    empty string is the initial value of [first_char], kept when no branch
    of the chain applies. *)
Definition first_char_of (c : option ascii) : string :=
  match c with
  | Some "0"%char => "P"
  | Some "1"%char => "C"
  | Some "2"%char => "B"
  | Some "3"%char => "U"
  | _ => ""
  end.

(** The body of the [while] loop of [read_dtc] for the group at [i]:
    the codes collected so far, extended or not. *)
Definition dtc_step (response : string) (i : Z) (dtc_codes : list trouble_code)
  : list trouble_code :=
  let code_bytes := Py.slice response (Some i) (Some (i + 4)) in
  if negb (String.eqb code_bytes "0000") then
    let first_char := first_char_of (String.get 0 code_bytes) in
    let code_number := Py.slice code_bytes (Some 1) (Some 4) in
    let full_code := first_char ++ code_number in
    let description := default "Unknown code" (DTC_CODES !! full_code) in
    dtc_codes ++ [(full_code, description)]
  else dtc_codes.

(** [while i < len(response) - 3: ...; i += 4].  The loop ends within
    [len(response)] rounds, which is the fuel [parse_dtc] gives it. *)
Fixpoint dtc_loop (fuel : nat) (response : string) (i : Z)
    (dtc_codes : list trouble_code) : list trouble_code :=
  match fuel with
  | O => dtc_codes
  | S fuel' =>
      if i <? Py.len response - 3 then
        dtc_loop fuel' response (i + 4) (dtc_step response i dtc_codes)
      else dtc_codes
  end.

(** What [read_dtc] makes of the adapter's response, between the exchange
    and the emission of the list. *)
Definition parse_dtc (response : string) : list trouble_code :=
  if negb (Py.contains "NO DATA" response)
     && negb (Py.contains "ERROR" response)
     && negb (String.eqb response "")
  then
    let response := Py.replace " " "" response in
    dtc_loop (String.length response) response 0 []
  else [].

(** ** The connection object and its environment *)

(** A live socket object; [socket self = None] is Python's [None]. *)
Inductive sock : Type := Sock.

(** The attributes of an [OBDConnection] that the protocol core reads or
    writes ([ip] and [port] only reach [socket.connect]). *)
Record obd : Type := OBD {
  socket : option sock;
  is_connected : bool;
  running : bool;
  vehicle_profile : option string;
  protocol_detected : option string
}.

Definition set_socket (s : option sock) (self : obd) : obd :=
  OBD s (is_connected self) (running self) (vehicle_profile self)
      (protocol_detected self).
Definition set_is_connected (b : bool) (self : obd) : obd :=
  OBD (socket self) b (running self) (vehicle_profile self)
      (protocol_detected self).
Definition set_running (b : bool) (self : obd) : obd :=
  OBD (socket self) (is_connected self) b (vehicle_profile self)
      (protocol_detected self).
Definition set_protocol_detected (p : option string) (self : obd) : obd :=
  OBD (socket self) (is_connected self) (running self) (vehicle_profile self) p.

(** [__init__]. *)
Definition init_obd : obd := OBD None false false None None.

(** A snapshot: the [data] dictionary of one polling cycle, in insertion
    order; [None] is Python's [None]. *)
Definition snapshot : Type := list (string * option pyval).

(** What the code does to the outside, in order. *)
Inductive event : Type :=
| EvConnect                              (* socket.connect((ip, port)) *)
| EvSend (data : string)                 (* socket.send(data) *)
| EvClose                                (* socket.close() *)
| EvConnected (ok : bool) (msg : string) (* connected.emit(ok, msg) *)
| EvData (data : snapshot)               (* data_received.emit(data) *)
| EvDtc (codes : list trouble_code)      (* dtc_received.emit(codes) *)
| EvSleep (seconds : float)              (* time.sleep(seconds) *)
| EvPrint (text : string).               (* print(text) *)

(** What opening the connection will do: succeed, or raise in
    [socket.socket] or in [connect] with the text of the exception. *)
Inductive connect_result : Type :=
| Connects
| SocketRaises (msg : string)
| ConnectRaises (msg : string).

(** What a [recv] will do: deliver bytes (none when the peer has closed),
    or raise; the socket's own time-out raises "timed out". *)
Inductive recv_result : Type :=
| Chunk (data : string)
| RecvRaises (msg : string).

(** The environment: the answers still to come to each kind of call, and
    the trace so far.  [sends]: [None] when [send] succeeds, the text of
    the exception otherwise.  [clock]: the readings of [time.time()].
    [others]: at each test of the polling loop, whether another thread has
    called [disconnect_obd] since the last one. *)
Record world : Type := World {
  connects : list connect_result;
  sends : list (option string);
  recvs : list recv_result;
  clock : list float;
  others : list bool;
  trace : list event
}.

Definition set_connects (l : list connect_result) (w : world) : world :=
  World l (sends w) (recvs w) (clock w) (others w) (trace w).
Definition set_sends (l : list (option string)) (w : world) : world :=
  World (connects w) l (recvs w) (clock w) (others w) (trace w).
Definition set_recvs (l : list recv_result) (w : world) : world :=
  World (connects w) (sends w) l (clock w) (others w) (trace w).
Definition set_clock (l : list float) (w : world) : world :=
  World (connects w) (sends w) (recvs w) l (others w) (trace w).
Definition set_others (l : list bool) (w : world) : world :=
  World (connects w) (sends w) (recvs w) (clock w) l (trace w).
Definition log (e : event) (w : world) : world :=
  World (connects w) (sends w) (recvs w) (clock w) (others w) (trace w ++ [e]).

(** ** Computations: state, exceptions, and scripts that run out *)

Inductive outcome (A : Type) : Type :=
| Ret (a : A)
| Exc (msg : string).
Arguments Ret {A} a.
Arguments Exc {A} msg.

Definition M (A : Type) : Type :=
  obd -> world -> option (outcome A * obd * world).

Definition ret {A} (a : A) : M A := fun self w => Some (Ret a, self, w).
Definition raise {A} (msg : string) : M A := fun self w => Some (Exc msg, self, w).
Definition stuck {A} : M A := fun _ _ => None.

Definition bind {A B} (m : M A) (k : A -> M B) : M B :=
  fun self w =>
    match m self w with
    | Some (Ret a, self', w') => k a self' w'
    | Some (Exc msg, self', w') => Some (Exc msg, self', w')
    | None => None
    end.

Notation "x <- m ;; k" := (bind m (fun x => k))
  (at level 100, m at next level, k at level 200, right associativity).
Notation "m ;; k" := (bind m (fun _ => k))
  (at level 100, k at level 200, right associativity).

(** [try: body except Exception as e: handler(str(e))]. *)
Definition try_except {A} (body : M A) (handler : string -> M A) : M A :=
  fun self w =>
    match body self w with
    | Some (Exc msg, self', w') => handler msg self' w'
    | r => r
    end.

Definition get_self : M obd := fun self w => Some (Ret self, self, w).
Definition update (f : obd -> obd) : M unit :=
  fun self w => Some (Ret tt, f self, w).
Definition get_world : M world := fun self w => Some (Ret w, self, w).
Definition emit (e : event) : M unit :=
  fun self w => Some (Ret tt, self, log e w).

(** [socket.socket(...)], [settimeout(TIMEOUT)], [connect((ip, port))]:
    [self.socket] is assigned as soon as the socket object exists. *)
Definition open_socket : M unit :=
  fun self w =>
    match connects w with
    | [] => None
    | Connects :: l =>
        Some (Ret tt, set_socket (Some Sock) self, log EvConnect (set_connects l w))
    | SocketRaises msg :: l =>
        Some (Exc msg, self, set_connects l w)
    | ConnectRaises msg :: l =>
        Some (Exc msg, set_socket (Some Sock) self, log EvConnect (set_connects l w))
    end.

Definition sock_send (data : string) : M unit :=
  fun self w =>
    match sends w with
    | [] => None
    | None :: l => Some (Ret tt, self, log (EvSend data) (set_sends l w))
    | Some msg :: l => Some (Exc msg, self, log (EvSend data) (set_sends l w))
    end.

Definition sock_recv : M string :=
  fun self w =>
    match recvs w with
    | [] => None
    | Chunk data :: l => Some (Ret data, self, set_recvs l w)
    | RecvRaises msg :: l => Some (Exc msg, self, set_recvs l w)
    end.

Definition time_time : M float :=
  fun self w =>
    match clock w with
    | [] => None
    | t :: l => Some (Ret t, self, set_clock l w)
    end.

Definition sock_close : M unit := emit EvClose.

(** ** The framer *)

(** Carriage return and line feed. *)
Definition CR : ascii := "013"%char.
Definition LF : ascii := "010"%char.

(** [response.decode('utf-8', errors='replace')] on 7-bit data. *)
Definition decode_utf8_replace (raw : string) : string := raw.

(** [command.encode()] on 7-bit data. *)
Definition encode (s : string) : string := s.

(** The [while] loop of [send_command]: it reads until the prompt is in
    the buffer, the deadline has passed, or the peer has closed.  Each
    round that reads takes one reading of the clock, so the fuel
    [send_command] gives, one more than the readings left, never runs
    out before the script does. *)
Fixpoint recv_loop (fuel : nat) (start_time : float) (response : string)
  : M string :=
  match fuel with
  | O => stuck
  | S fuel' =>
      if negb (Py.contains ">" response) then
        now <- time_time ;;
        if PrimFloat.ltb (PrimFloat.sub now start_time) TIMEOUT then
          chunk <- sock_recv ;;
          if String.eqb chunk "" then ret response
          else recv_loop fuel' start_time (response ++ chunk)
        else ret response
      else ret response
  end.

(** The end of [send_command]: decoding, cleaning, removal of the echo.
    [command] already carries its carriage return. *)
Definition clean_response (command response : string) : string :=
  let decoded := Py.strip (decode_utf8_replace response) in
  let decoded :=
    Py.strip (Py.replace ">" "" (Py.replace LF " " (Py.replace CR "" decoded))) in
  if Py.startswith decoded (Py.strip command) then
    Py.strip (Py.slice decoded (Some (Py.len (Py.strip command))) None)
  else decoded.

Definition send_command (command : string) : M string :=
  self <- get_self ;;
  match socket self with
  | None => ret "Not connected"
  | Some _ =>
      try_except
        (let command := command ++ String CR "" in
         sock_send (encode command) ;;
         start_time <- time_time ;;
         w <- get_world ;;
         response <- recv_loop (S (List.length (clock w))) start_time "" ;;
         ret (clean_response command response))
        (fun msg => ret ("Error: " ++ msg))
  end.

(** ** The session initialiser *)

(** [sep.join(l)]. *)
Fixpoint join (sep : string) (l : list string) : string :=
  match l with
  | [] => ""
  | [x] => x
  | x :: l' => x ++ sep ++ join sep l'
  end.

(** The truth value of [self.vehicle_profile]: neither [None] nor empty. *)
Definition profile_selected (self : obd) : option string :=
  match vehicle_profile self with
  | Some name => if String.eqb name "" then None else Some name
  | None => None
  end.

(** [VEHICLE_PROFILES[name]]; a missing key raises [KeyError], whose text
    is the key between quotes (for a name that needs no escape). *)
Definition lookup_profile (name : string) : M profile :=
  match VEHICLE_PROFILES !! name with
  | Some p => ret p
  | None => raise ("'" ++ name ++ "'")
  end.

Definition connect_obd : M bool :=
  try_except
    (open_socket ;;
     let responses : list string := [] in
     response <- send_command CMD_RESET ;;
     let responses := (responses ++ [("Reset: " ++ response)%string])%list in
     response <- send_command CMD_VERSION ;;
     let responses := (responses ++ [("Version: " ++ response)%string])%list in
     send_command CMD_ECHO_OFF ;;
     send_command CMD_HEADERS_OFF ;;
     send_command CMD_LINEFEEDS_OFF ;;
     self <- get_self ;;
     responses <-
       match profile_selected self with
       | Some name =>
           p <- lookup_profile name ;;
           response <- send_command (protocol_cmd p) ;;
           (if negb (Py.contains "OK" response) then
              p <- lookup_profile name ;;
              send_command (fallback_cmd p)
            else ret response) ;;
           detected <- send_command "ATDP" ;;
           update (set_protocol_detected (Some detected)) ;;
           ret (responses ++ [("Protocol: " ++ detected)%string])%list
       | None =>
           send_command CMD_AUTO_PROTOCOL ;;
           detected <- send_command "ATDP" ;;
           update (set_protocol_detected (Some detected)) ;;
           ret (responses ++ [("Protocol: " ++ detected)%string])%list
       end ;;
     update (set_is_connected true) ;;
     emit (EvConnected true (join (String LF "") responses)) ;;
     ret true)
    (fun msg =>
       update (set_is_connected false) ;;
       emit (EvConnected false ("Connection error: " ++ msg)) ;;
       self <- get_self ;;
       (match socket self with
        | Some _ => sock_close ;; update (set_socket None)
        | None => ret tt
        end) ;;
       ret false).

Definition disconnect_obd : M unit :=
  update (set_running false) ;;
  self <- get_self ;;
  (match socket self with
   | Some _ => sock_close ;; update (set_socket None)
   | None => ret tt
   end) ;;
  update (set_is_connected false).

(** ** Trouble codes on demand *)

Definition read_dtc : M (list trouble_code) :=
  self <- get_self ;;
  if negb (is_connected self) || negb (bool_decide (is_Some (socket self)))
  then ret []
  else
    response <- send_command CMD_READ_DTC ;;
    let dtc_codes := parse_dtc response in
    emit (EvDtc dtc_codes) ;;
    ret dtc_codes.

Definition clear_dtc : M bool :=
  self <- get_self ;;
  if negb (is_connected self) || negb (bool_decide (is_Some (socket self)))
  then ret false
  else
    response <- send_command CMD_CLEAR_DTC ;;
    ret (Py.contains "OK" response).

(** ** The polling loop *)

(** [d[k] = v]: a key already present keeps its place. *)
Fixpoint dict_set (d : snapshot) (k : string) (v : option pyval) : snapshot :=
  match d with
  | [] => [(k, v)]
  | (k', v') :: d' =>
      if String.eqb k k' then (k, v) :: d' else (k', v') :: dict_set d' k v
  end.

(** [for name, pid in specific_pids.items(): ...]. *)
Fixpoint poll_specific (pids : list (string * string)) (data : snapshot)
  : M snapshot :=
  match pids with
  | [] => ret data
  | (name, pid) :: pids' =>
      response <- send_command pid ;;
      poll_specific pids'
        (dict_set data (Py.replace " " "_" (Py.lower name))
                  (parse_pid_response response pid))
  end.

(** The [try] block of one round of [run]. *)
Definition poll_cycle : M unit :=
  let data : snapshot := [] in
  response <- send_command PID_SPEED ;;
  let data := dict_set data "speed" (parse_pid_response response PID_SPEED) in
  response <- send_command PID_RPM ;;
  let data := dict_set data "rpm" (parse_pid_response response PID_RPM) in
  response <- send_command PID_ENGINE_TEMP ;;
  let data := dict_set data "engine_temp" (parse_pid_response response PID_ENGINE_TEMP) in
  response <- send_command PID_FUEL_LEVEL ;;
  let data := dict_set data "fuel_level" (parse_pid_response response PID_FUEL_LEVEL) in
  response <- send_command PID_INTAKE_PRESSURE ;;
  let data := dict_set data "intake_pressure" (parse_pid_response response PID_INTAKE_PRESSURE) in
  self <- get_self ;;
  data <-
    match profile_selected self with
    | Some name =>
        p <- lookup_profile name ;;
        poll_specific (specific_pids p) data
    | None => ret data
    end ;;
  emit (EvData data) ;;
  emit (EvSleep 0.5%float).

(** Between two rounds another thread may have called [disconnect_obd]:
    the script [others] says so at each test of the loop. *)
Definition other_threads : M unit :=
  fun self w =>
    match others w with
    | [] => None
    | true :: l => disconnect_obd self (set_others l w)
    | false :: l => Some (Ret tt, self, set_others l w)
    end.

(** [while self.running and self.is_connected: try: ... except ...]; the
    result says whether the loop goes on ([break] gives [false]). *)
Definition run_round : M bool :=
  try_except
    (poll_cycle ;; ret true)
    (fun msg =>
       emit (EvPrint ("Error in data polling: " ++ msg)) ;;
       self <- get_self ;;
       if negb (is_connected self) then ret false
       else emit (EvSleep 1%float) ;; ret true).

Fixpoint run_loop (fuel : nat) : M unit :=
  match fuel with
  | O => stuck
  | S fuel' =>
      other_threads ;;
      self <- get_self ;;
      if running self && is_connected self then
        go_on <- run_round ;;
        if go_on then run_loop fuel' else ret tt
      else ret tt
  end.

(** [run]: each test of the loop takes one entry of [others], so the fuel
    never runs out before the script does. *)
Definition run : M unit :=
  update (set_running true) ;;
  w <- get_world ;;
  run_loop (S (List.length (others w))) ;;
  update (set_running false).

(** ** The window: the log of snapshots and the histories

    Of class [OBDApp] the model keeps what [update_dashboard] does to
    [log_data] and to [data_history], and the columns that
    [on_export_clicked] computes; labels, plots and dialogs are objects of
    the graphical library and stay outside. *)

Definition GRAPH_HISTORY : nat := 30.

(** The value of a key of a log entry: the time stamp, a text, or a
    decoded metric. *)
Inductive cell : Type :=
| Stamp (text : string)
| Value (v : option pyval).

(** A log entry: a dictionary, in insertion order. *)
Definition log_entry : Type := list (string * cell).

(** [d[k] = v] on a dictionary of any values. *)
Fixpoint dict_put {V : Type} (d : list (string * V)) (k : string) (v : V)
  : list (string * V) :=
  match d with
  | [] => [(k, v)]
  | (k', v') :: d' =>
      if String.eqb k k' then (k, v) :: d' else (k', v') :: dict_put d' k v
  end.

(** [d[k]], if [k in d]. *)
Fixpoint dict_get {V : Type} (d : list (string * V)) (k : string) : option V :=
  match d with
  | [] => None
  | (k', v) :: d' => if String.eqb k k' then Some v else dict_get d' k
  end.

(** [log_entry = {"timestamp": now}; log_entry.update(data)]; [now] is
    the formatted time of the call. *)
Definition make_log_entry (now : string) (data : snapshot) : log_entry :=
  fold_left (fun entry '(key, value) => dict_put entry key (Value value))
            data [("timestamp", Stamp now)].

(** The inner loop of [on_export_clicked]: the keys of one entry that are
    neither "timestamp" nor a field already are added at the end. *)
Definition add_fieldnames (fieldnames : list string) (entry : log_entry)
  : list string :=
  fold_left
    (fun fieldnames key =>
       if negb (String.eqb key "timestamp")
          && negb (existsb (String.eqb key) fieldnames)
       then (fieldnames ++ [key])%list else fieldnames)
    (map fst entry) fieldnames.

(** The columns of the exported file. *)
Definition export_fieldnames (log_data : list log_entry) : list string :=
  fold_left add_fieldnames log_data ["timestamp"].

(** [deque(maxlen=n).append(x)]: a full deque drops its oldest element. *)
Definition deque_append {A : Type} (maxlen : nat) (d : list A) (x : A)
  : list A :=
  if Nat.ltb (List.length d) maxlen then (d ++ [x])%list
  else if Nat.eqb maxlen 0 then d
  else (tail d ++ [x])%list.

Definition standard_keys : list string :=
  ["speed"; "rpm"; "engine_temp"; "fuel_level"; "intake_pressure"].

(** [self.data_history] as [__init__] makes it: thirty zeros a metric. *)
Definition initial_history : gmap string (list pyval) :=
  list_to_map (map (fun key => (key, repeat (PyInt 0) GRAPH_HISTORY))
                   standard_keys).

(** [self.time_axis = list(range(-GRAPH_HISTORY + 1, 1))]. *)
Definition time_axis : list Z :=
  map (fun i => Z.of_nat i - Z.of_nat GRAPH_HISTORY + 1) (seq 0 GRAPH_HISTORY).

(** One of the five blocks of [update_dashboard] for a standard metric,
    as far as the history goes: [self.metric_labels[key]] and
    [self.data_history[key]] raise [KeyError], here [None], when the key
    is missing. *)
Definition append_standard (labels : list string) (data : snapshot)
    (key : string) (history : gmap string (list pyval))
  : option (gmap string (list pyval)) :=
  match dict_get data key with
  | Some (Some value) =>
      if existsb (String.eqb key) labels then
        match history !! key with
        | Some d => Some (<[key := deque_append GRAPH_HISTORY d value]> history)
        | None => None
        end
      else None
  | _ => Some history
  end.

(** The body of the loop of [update_dashboard] over the profile's
    metrics, as far as the history goes. *)
Definition append_specific (labels : list string)
    (history : gmap string (list pyval)) (item : string * option pyval)
  : gmap string (list pyval) :=
  let '(key, value) := item in
  if negb (existsb (String.eqb key) standard_keys) then
    match value with
    | Some v =>
        if existsb (String.eqb key) labels then
          match history !! key with
          | Some d => <[key := deque_append GRAPH_HISTORY d v]> history
          | None => history
          end
        else history
    | None => history
    end
  else history.

(** What [update_dashboard] makes of [self.data_history]; [labels] are
    the keys of [self.metric_labels]. *)
Definition update_history (labels : list string) (data : snapshot)
    (history : gmap string (list pyval))
  : option (gmap string (list pyval)) :=
  h ← append_standard labels data "speed" history;
  h ← append_standard labels data "rpm" h;
  h ← append_standard labels data "engine_temp" h;
  h ← append_standard labels data "fuel_level" h;
  h ← append_standard labels data "intake_pressure" h;
  Some (fold_left (append_specific labels) data h).

(** The histories are as the plot needs them: the five standard metrics
    are there, and every history has the length of the time axis. *)
Definition history_ok (history : gmap string (list pyval)) : Prop :=
  (forall key, In key standard_keys -> is_Some (history !! key))
  /\ (forall key d, history !! key = Some d ->
       List.length d = List.length time_axis).

(** The data of the window that the handlers below read and write: the
    keys of [self.metric_labels] in insertion order, [self.data_history],
    the items of [self.graph_combo] and [self.log_data].  The placing of
    the widgets in the grid is left to the graphical library. *)
Record window : Type := Window {
  metric_labels : list string;
  data_history : gmap string (list pyval);
  graph_combo : list string;
  log_data : list log_entry
}.

Definition standard_items : list string :=
  ["Speed"; "RPM"; "Engine Temperature"; "Fuel Level"; "Intake Pressure"].

(** The window as [__init__] and [init_ui] leave it. *)
Definition init_window : window :=
  Window standard_keys initial_history standard_items [].

(** [del labels[key]] on the keys of a dictionary. *)
Definition keys_del (key : string) (keys : list string) : list string :=
  List.filter (fun k => negb (String.eqb k key)) keys.

(** [labels[key] = ...] on the keys of a dictionary. *)
Definition keys_set (keys : list string) (key : string) : list string :=
  if existsb (String.eqb key) keys then keys else (keys ++ [key])%list.

(** The body of the loop of [clear_vehicle_specific_metrics]. *)
Definition clear_label (w : window) (key : string) : window :=
  if negb (existsb (String.eqb key) standard_keys) then
    let history :=
      match data_history w !! key with
      | Some _ => delete key (data_history w)
      | None => data_history w
      end in
    let labels :=
      if existsb (String.eqb key) (metric_labels w)
      then keys_del key (metric_labels w) else metric_labels w in
    Window labels history (graph_combo w) (log_data w)
  else w.

(** [clear_vehicle_specific_metrics]: the loop goes over a copy of the
    keys; the selector is then filled again with the standard items. *)
Definition clear_vehicle_specific_metrics (w : window) : window :=
  let w' := fold_left clear_label (metric_labels w) w in
  Window (metric_labels w') (data_history w') standard_items (log_data w').

(** The body of the loop of [setup_vehicle_specific_metrics]. *)
Definition add_metric (w : window) (item : string * string) : window :=
  let '(name, pid) := item in
  let metric_key := Py.replace " " "_" (Py.lower name) in
  Window (keys_set (metric_labels w) metric_key)
         (<[metric_key := repeat (PyInt 0) GRAPH_HISTORY]> (data_history w))
         (graph_combo w ++ [name])%list
         (log_data w).

Definition setup_vehicle_specific_metrics (vehicle_profile : string)
    (w : window) : window :=
  let w := clear_vehicle_specific_metrics w in
  match VEHICLE_PROFILES !! vehicle_profile with
  | Some p => fold_left add_metric (specific_pids p) w
  | None => w
  end.

(** The key that [update_graph] makes of the text of the selector. *)
Definition graph_key (text : string) : string :=
  let current_graph := Py.replace " " "_" (Py.lower text) in
  if String.eqb current_graph "engine_temperature" then "engine_temp"
  else current_graph.

(** The two series that [update_graph] hands to the plot, if the key has
    a history; without one nothing is drawn. *)
Definition update_graph (w : window) (text : string)
  : option (list Z * list pyval) :=
  match data_history w !! graph_key text with
  | Some d => Some (time_axis, d)
  | None => None
  end.

(** [update_dashboard], called at time [now]: the entry of the log, then
    the histories; [None] is the [KeyError] of a missing label or
    history.  The texts of the labels and the plot are left out. *)
Definition update_dashboard (now : string) (data : snapshot) (w : window)
  : option window :=
  let log := (log_data w ++ [make_log_entry now data])%list in
  h ← update_history (metric_labels w) data (data_history w);
  Some (Window (metric_labels w) h (graph_combo w) log).

(** What the handlers keep true of the window. *)
Definition window_ok (w : window) : Prop :=
  NoDup (metric_labels w)
  /\ (forall key, In key standard_keys -> In key (metric_labels w))
  /\ history_ok (data_history w)
  /\ (forall item, In item (graph_combo w) ->
       is_Some (data_history w !! graph_key item)).

(** ** Vocabulary of the statements *)

(** The value of a pair of hexadecimal digits. *)
Definition byte_of (h l : ascii) : option Z :=
  match Py.digit16 h, Py.digit16 l with
  | Some a, Some b => Some (16 * a + b)
  | _, _ => None
  end.

(** The response passes the checks that come before the dispatch: it is
    not empty, holds no negative marker, and holds the signature of the
    identifier once its spaces are removed. *)
Definition accepted (response pid : string) : bool :=
  negb (Py.contains "NO DATA" response)
  && negb (Py.contains "ERROR" response)
  && negb (String.eqb response "")
  && Py.contains (Py.lower (Py.slice pid (Some 2) (Some 4)))
                 (Py.lower (Py.replace " " "" response)).

(** The whole groups of four characters of a string, in order; what is
    left at the end is dropped. *)
Fixpoint groups4 (s : string) : list string :=
  match s with
  | String a (String b (String c (String d rest))) =>
      String a (String b (String c (String d ""))) :: groups4 rest
  | _ => []
  end.

(** The category letter of a group, by its first character. *)
Definition category_letter (c : ascii) : string :=
  if Ascii.eqb c "0" then "P"
  else if Ascii.eqb c "1" then "C"
  else if Ascii.eqb c "2" then "B"
  else if Ascii.eqb c "3" then "U"
  else "".

(** What one group of four characters adds to the list of codes. *)
Definition entry_of (group : string) : list trouble_code :=
  match group with
  | String a number =>
      if String.eqb group "0000" then []
      else
        let full_code := category_letter a ++ number in
        [(full_code, default "Unknown code" (DTC_CODES !! full_code))]
  | EmptyString => []
  end.

(** The bytes handed to the socket for a command. *)
Definition on_wire (command : string) : event :=
  EvSend (command ++ String CR "").

(** A run of exchanges on a link whose state they leave as it is: the
    commands, the world before, the responses, the world after. *)
Inductive exchanges (self : obd)
  : list string -> world -> list string -> world -> Prop :=
| exchanges_nil w : exchanges self [] w [] w
| exchanges_cons command commands w response w' responses w'' :
    send_command command self w = Some (Ret response, self, w') ->
    exchanges self commands w' responses w'' ->
    exchanges self (command :: commands) w (response :: responses) w''.

(** The five commands that open every session. *)
Definition setup_commands : list string :=
  [CMD_RESET; CMD_VERSION; CMD_ECHO_OFF; CMD_HEADERS_OFF; CMD_LINEFEEDS_OFF].

(** The protocol-select command sent first, if the profile is known. *)
Definition select_command (self : obd) : option string :=
  match profile_selected self with
  | Some name => protocol_cmd <$> VEHICLE_PROFILES !! name
  | None => Some CMD_AUTO_PROTOCOL
  end.

(** The protocol-select commands sent after the first, given its response. *)
Definition retry_commands (self : obd) (primary : string) : list string :=
  match profile_selected self with
  | Some name =>
      if Py.contains "OK" primary then []
      else
        match VEHICLE_PROFILES !! name with
        | Some p => [fallback_cmd p]
        | None => []
        end
  | None => []
  end.

(** The standard requests of a polling cycle: key of the snapshot and
    identifier, in the order of the code. *)
Definition standard_requests : list (string * string) :=
  [ ("speed", PID_SPEED); ("rpm", PID_RPM); ("engine_temp", PID_ENGINE_TEMP);
    ("fuel_level", PID_FUEL_LEVEL); ("intake_pressure", PID_INTAKE_PRESSURE) ].

(** The key under which a profile's metric is stored. *)
Definition metric_key (name : string) : string :=
  Py.replace " " "_" (Py.lower name).

(** The requests of one cycle for the selected profile, if it is known. *)
Definition cycle_requests (self : obd) : option (list (string * string)) :=
  match profile_selected self with
  | Some name =>
      (fun p : profile =>
         (standard_requests
          ++ map (fun '(n, pid) => (metric_key n, pid)) (specific_pids p))%list)
      <$> VEHICLE_PROFILES !! name
  | None => Some standard_requests
  end.

(** The snapshot made of the responses to a list of requests. *)
Definition decoded (requests : list (string * string)) (responses : list string)
  : snapshot :=
  zip_with (fun '(key, pid) response => (key, parse_pid_response response pid))
           requests responses.

Definition is_data (e : event) : bool :=
  match e with EvData _ => true | _ => false end.

(** A reply of the adapter in one piece, prompt included. *)
Definition reply (text : string) : recv_result :=
  Chunk (text ++ String CR (String CR ">")).

(** The parts of the world that reading does not touch. *)
Definition same_but_input (w w' : world) : Prop :=
  trace w' = trace w /\ connects w' = connects w /\ others w' = others w
  /\ sends w' = sends w.

(** The bytes accumulated from a run of chunks. *)
Definition accumulated (chunks : list string) : string :=
  fold_right String.append "" chunks.

(** The test of the deadline in the loop of [send_command]. *)
Definition in_time (start_time now : float) : bool :=
  PrimFloat.ltb (PrimFloat.sub now start_time) TIMEOUT.

(** A link about to be opened for the Fiat profile, and an adapter that
    answers every setup command, refuses the first protocol-select command
    with a question mark and accepts the second. *)
Definition fiat_link : obd :=
  OBD None false false (Some "Fiat 500 Series 1") None.

Definition fiat_commands : list string :=
  ["ATZ"; "ATI"; "ATE0"; "ATH0"; "ATL0"; "ATSP4"; "ATSP3"; "ATDP"].

Definition fiat_replies : list recv_result :=
  [ reply "ELM327 v1.5"; reply "ELM327 v1.5"; reply "OK"; reply "OK";
    reply "OK"; reply "?"; reply "OK"; reply "ISO 9141-2" ].

Definition fiat_session : world :=
  World [Connects] (repeat None 8) fiat_replies (repeat 1%float 16) [] [].

(** The same session once the socket is connected and [n] exchanges are
    over. *)
Definition fiat_session_after (n : nat) : world :=
  World [] (repeat None (8 - n)) (drop n fiat_replies)
        (repeat 1%float (16 - 2 * n)) []
        (EvConnect :: map on_wire (take n fiat_commands)).

Definition fiat_log : string :=
  join (String LF "")
    ["Reset: ELM327 v1.5"; "Version: ELM327 v1.5"; "Protocol: ISO 9141-2"].

(** A connected link that polls for the Fiat profile, an adapter that
    answers its seven requests, no fuel level among them, and what the
    cycle emits. *)
Definition fiat_polling : obd :=
  OBD (Some Sock) true true (Some "Fiat 500 Series 1") None.

Definition fiat_requests : list (string * string) :=
  [ ("speed", PID_SPEED); ("rpm", PID_RPM); ("engine_temp", PID_ENGINE_TEMP);
    ("fuel_level", PID_FUEL_LEVEL); ("intake_pressure", PID_INTAKE_PRESSURE);
    ("turbo_pressure", PID_FIAT_TURBO_PRESSURE);
    ("clutch_status", PID_FIAT_CLUTCH_STATUS) ].

Definition fiat_answers : list string :=
  [ "41 0D 3C"; "41 0C 1A F8"; "41 05 7B"; "NO DATA"; "41 0B 20";
    "41 5F 10"; "41 60 01" ].

Definition fiat_cycle : world :=
  World [] (repeat None 7) (map reply fiat_answers) (repeat 1%float 14) [] [].

Definition fiat_cycle_end : world :=
  World [] [] [] [] [] (map on_wire (map snd fiat_requests)).

Definition fiat_snapshot : snapshot :=
  [ ("speed", Some (PyInt 60)); ("rpm", Some (PyFloat 1726%float));
    ("engine_temp", Some (PyInt 83)); ("fuel_level", None);
    ("intake_pressure", Some (PyInt 32)); ("turbo_pressure", Some (PyInt 32));
    ("clutch_status", Some (PyInt 1)) ].

(** The identifiers the decoder has a branch for. *)
Definition known_pids : list string :=
  [ PID_SPEED; PID_RPM; PID_ENGINE_TEMP; PID_FUEL_LEVEL; PID_INTAKE_PRESSURE;
    PID_FIAT_TURBO_PRESSURE; PID_VAG_BOOST_PRESSURE; PID_FIAT_CLUTCH_STATUS;
    PID_TOYOTA_FUEL_CONSUMPTION; PID_TOYOTA_HYBRID_BATTERY; PID_VAG_OIL_TEMP ].






Definition is_status (e : event) : bool :=
  match e with EvConnected _ _ => true | _ => false end.

(** The rounds of the polling loop that end well, for the requests of the
    profile: before each round no other thread steps in, the exchanges of
    the cycle return, and the round leaves its snapshot and its pause in
    the trace.  The snapshots, the world before, the world after. *)
Inductive rounds (self : obd) (requests : list (string * string))
  : list snapshot -> world -> world -> Prop :=
| rounds_nil w : rounds self requests [] w w
| rounds_cons l responses w w1 snapshots w2 :
    others w = false :: l ->
    exchanges self (map snd requests) (set_others l w) responses w1 ->
    rounds self requests snapshots
           (log (EvSleep 0.5%float)
                (log (EvData (decoded requests responses)) w1)) w2 ->
    rounds self requests (decoded requests responses :: snapshots) w w2.

(** The history of a key once a snapshot has been shown: a value that is
    not [None], of a key that has a label, is appended to the history the
    key has. *)
Definition appended (labels : list string) (data : snapshot)
    (history : gmap string (list pyval)) (key : string)
  : option (list pyval) :=
  match dict_get data key with
  | Some (Some v) =>
      if existsb (String.eqb key) labels
      then (fun d => deque_append GRAPH_HISTORY d v) <$> history !! key
      else history !! key
  | _ => history !! key
  end.

(** The windows that the handlers make of the first one. *)
Inductive reachable : window -> Prop :=
| reach_init : reachable init_window
| reach_setup vehicle_profile w :
    reachable w -> reachable (setup_vehicle_specific_metrics vehicle_profile w)
| reach_clear w :
    reachable w -> reachable (clear_vehicle_specific_metrics w)
| reach_update now data w w' :
    reachable w -> update_dashboard now data w = Some w' -> reachable w'.

(** * Properties *)

(** ** Strings *)

Lemma string_length_app (s t : string) :
  String.length (s ++ t) = (String.length s + String.length t)%nat.
Proof. induction s as [|c s IH]; simpl; [reflexivity | now rewrite IH]. Qed.

Lemma substring_0_all (s : string) :
  substring 0 (String.length s) s = s.
Proof. induction s as [|c s IH]; simpl; [reflexivity | now rewrite IH]. Qed.

Lemma substring_0_app (s t : string) :
  substring 0 (String.length s) (s ++ t) = s.
Proof.
  induction s as [|c s IH]; simpl.
  - destruct t; reflexivity.
  - now rewrite IH.
Qed.

Lemma substring_skip (pre s : string) (n : nat) :
  substring (String.length pre) n (pre ++ s) = substring 0 n s.
Proof. induction pre as [|c pre IH]; simpl; [reflexivity | exact IH]. Qed.

(** [(pre + mid + post)[len(pre) : len(pre) + len(mid)]] is [mid]. *)
Lemma slice_middle (pre mid post : string) :
  Py.slice (pre ++ mid ++ post) (Some (Py.len pre))
           (Some (Py.len pre + Py.len mid)) = mid.
Proof.
  unfold Py.slice, Py.clip, Py.len.
  rewrite !string_length_app.
  destruct (Z.ltb_spec (Z.of_nat (String.length pre)) 0); [lia|].
  destruct (Z.ltb_spec (Z.of_nat (String.length pre) + Z.of_nat (String.length mid)) 0); [lia|].
  rewrite Z.min_l by lia. rewrite Z.min_l by lia.
  replace (Z.to_nat (Z.of_nat (String.length pre) + Z.of_nat (String.length mid)
                     - Z.of_nat (String.length pre))) with (String.length mid) by lia.
  rewrite Nat2Z.id, substring_skip. apply substring_0_app.
Qed.

(** [(pre + mid + post)[-(len(mid) + len(post)) : -len(post)]] is [mid],
    for a [post] that is not empty. *)
Lemma slice_from_end (pre mid post : string) :
  post <> "" ->
  Py.slice (pre ++ mid ++ post) (Some (- (Py.len mid + Py.len post)))
           (Some (- Py.len post)) = mid.
Proof.
  intros Hpost.
  assert (0 < String.length post)%nat by (destruct post; [congruence | simpl; lia]).
  unfold Py.slice, Py.clip, Py.len.
  rewrite !string_length_app.
  destruct (Z.ltb_spec (- (Z.of_nat (String.length mid) + Z.of_nat (String.length post))) 0); [|lia].
  destruct (Z.ltb_spec (- Z.of_nat (String.length post)) 0); [|lia].
  rewrite !Z.max_r by lia.
  replace (Z.to_nat (- (Z.of_nat (String.length mid) + Z.of_nat (String.length post))
             + Z.of_nat (String.length pre + (String.length mid + String.length post))))
    with (String.length pre) by lia.
  replace (Z.to_nat _) with (String.length mid) by lia.
  rewrite substring_skip. apply substring_0_app.
Qed.

(** [(pre + suf)[-len(suf):]] is [suf], for a [suf] that is not empty. *)
Lemma slice_suffix (pre suf : string) :
  suf <> "" ->
  Py.slice (pre ++ suf) (Some (- Py.len suf)) None = suf.
Proof.
  intros Hsuf.
  assert (0 < String.length suf)%nat by (destruct suf; [congruence | simpl; lia]).
  unfold Py.slice, Py.clip, Py.len.
  rewrite !string_length_app.
  destruct (Z.ltb_spec (- Z.of_nat (String.length suf)) 0); [|lia].
  rewrite Z.max_r by lia.
  replace (Z.to_nat (- Z.of_nat (String.length suf)
             + Z.of_nat (String.length pre + String.length suf)))
    with (String.length pre) by lia.
  replace (Z.to_nat _) with (String.length suf) by lia.
  rewrite substring_skip. apply substring_0_all.
Qed.

(** ** The integer parser on a pair of hexadecimal digits *)

Ltac each_char c :=
  destruct c as [[] [] [] [] [] [] [] []].

Lemma digit16_plain (c : ascii) (d : Z) :
  Py.digit16 c = Some d ->
  Py.int_space c = false /\ Ascii.eqb c "_" = false
  /\ Ascii.eqb c "x" = false /\ Ascii.eqb c "X" = false.
Proof. each_char c; vm_compute; intros H; try discriminate H; auto. Qed.

(** Evaluates the character tests on the characters that are known. *)
Ltac eval_known_chars :=
  repeat match goal with
    | |- context [Py.int_space (Ascii ?a ?b ?c ?d ?e ?f ?g ?h)] =>
        let v := eval vm_compute in (Py.int_space (Ascii a b c d e f g h)) in
        change (Py.int_space (Ascii a b c d e f g h)) with v
    | |- context [Py.digit16 (Ascii ?a ?b ?c ?d ?e ?f ?g ?h)] =>
        let v := eval vm_compute in (Py.digit16 (Ascii a b c d e f g h)) in
        change (Py.digit16 (Ascii a b c d e f g h)) with v
    end.

Ltac step16 := cbn -[Py.digit16 Py.int_space Z.mul Z.add]; eval_known_chars.

Lemma int16_byte (h l : ascii) (v : Z) :
  byte_of h l = Some v ->
  Py.int16 (String h (String l "")) = Some v.
Proof.
  unfold byte_of.
  destruct (Py.digit16 h) as [a|] eqn:Hh; [|discriminate].
  destruct (Py.digit16 l) as [b|] eqn:Hl; [|discriminate].
  intros [= <-].
  destruct (digit16_plain l b Hl) as (Hsp & Hus & Hx & HX).
  each_char h; vm_compute in Hh; try discriminate Hh; injection Hh as <-;
    unfold Py.int16;
    repeat (progress (step16; rewrite ?Hx, ?HX, ?Hus, ?Hl, ?Hsp));
    f_equal; lia.
Qed.

Lemma string_app_assoc (s t u : string) : (s ++ t) ++ u = s ++ (t ++ u).
Proof. induction s as [|c s IH]; simpl; [reflexivity | now rewrite IH]. Qed.

(** ** The metric decoder *)

(** Evaluates the comparisons of identifiers that are known. *)
Ltac eval_known_pids :=
  repeat match goal with
    | |- context [String.eqb ?a ?b] =>
        let v := eval vm_compute in (String.eqb a b) in
        let E := fresh "E" in
        assert (E : String.eqb a b = v) by (vm_compute; reflexivity);
        rewrite E; clear E
    end;
  cbn [orb andb negb].

Lemma accepted_dispatch (response pid : string) :
  accepted response pid = true ->
  Py.contains "NO DATA" response || Py.contains "ERROR" response
  || String.eqb response "" = false
  /\ Py.contains (Py.lower (Py.slice pid (Some 2) (Some 4)))
                 (Py.lower (Py.replace " " "" response)) = true.
Proof.
  unfold accepted. intros H.
  apply andb_prop in H as [H Hsig]. apply andb_prop in H as [H Hne].
  apply andb_prop in H as [Hnd Herr].
  apply negb_true_iff in Hnd, Herr, Hne.
  now rewrite Hnd, Herr, Hne.
Qed.

Lemma one_byte_payload (pre : string) (h1 h2 l1 l2 : ascii) (lo : Z)
    (formula : Z -> pyval) :
  byte_of l1 l2 = Some lo ->
  one_byte (pre ++ String h1 (String h2 (String l1 (String l2 "")))) formula
  = Some (formula lo).
Proof.
  intros Hlo. unfold one_byte.
  assert (Hlen : (4 <=? Py.len (pre ++ String h1 (String h2 (String l1 (String l2 "")))))
                 = true).
  { unfold Py.len. rewrite string_length_app. simpl. apply Z.leb_le. lia. }
  rewrite Hlen.
  pose proof (slice_suffix (pre ++ String h1 (String h2 ""))
                (String l1 (String l2 "")) ltac:(discriminate)) as E.
  rewrite string_app_assoc in E.
  change (- Py.len (String l1 (String l2 ""))) with (-2) in E.
  simpl append in E at 2.
  simpl. simpl in E. rewrite E.
  now rewrite (int16_byte _ _ _ Hlo).
Qed.

Lemma two_byte_payload (pre : string) (h1 h2 l1 l2 : ascii) (hi lo : Z) :
  (2 <= String.length pre)%nat ->
  byte_of h1 h2 = Some hi ->
  byte_of l1 l2 = Some lo ->
  let response := pre ++ String h1 (String h2 (String l1 (String l2 ""))) in
  (6 <=? Py.len response) = true
  /\ Py.int16 (Py.slice response (Some (-4)) (Some (-2))) = Some hi
  /\ Py.int16 (Py.slice response (Some (-2)) None) = Some lo.
Proof.
  intros Hpre Hhi Hlo response. subst response. repeat split.
  - unfold Py.len. rewrite string_length_app. simpl. apply Z.leb_le. lia.
  - pose proof (slice_from_end pre (String h1 (String h2 ""))
                  (String l1 (String l2 "")) ltac:(discriminate)) as E.
    change (- (Py.len (String h1 (String h2 ""))
               + Py.len (String l1 (String l2 "")))) with (-4) in E.
    change (- Py.len (String l1 (String l2 ""))) with (-2) in E.
    simpl in E. simpl. rewrite E. now apply int16_byte.
  - pose proof (slice_suffix (pre ++ String h1 (String h2 ""))
                  (String l1 (String l2 "")) ltac:(discriminate)) as E.
    rewrite string_app_assoc in E.
    change (- Py.len (String l1 (String l2 ""))) with (-2) in E.
    simpl in E. simpl. rewrite E. now apply int16_byte.
Qed.

(** C1 (amended): a response that passes the marker and signature checks,
    whose text without spaces has at least four characters and ends in two
    hexadecimal digits of value [lo], decodes by the table: speed and
    intake pressure [lo], coolant temperature [lo - 40], fuel level
    [lo * 100 / 255]; with at least six characters and two more digits of
    value [hi] before, engine speed decodes to [(256 * hi + lo) / 4]. *)
Theorem metric_decoder_formulas
    (response pid pre : string) (h1 h2 l1 l2 : ascii) (lo : Z) :
  accepted response pid = true ->
  Py.replace " " "" response
  = pre ++ String h1 (String h2 (String l1 (String l2 ""))) ->
  byte_of l1 l2 = Some lo ->
  (pid = PID_SPEED -> parse_pid_response response pid = Some (PyInt lo))
  /\ (pid = PID_ENGINE_TEMP ->
      parse_pid_response response pid = Some (PyInt (lo - 40)))
  /\ (pid = PID_FUEL_LEVEL ->
      parse_pid_response response pid = Some (PyFloat (truediv (lo * 100) 255)))
  /\ (pid = PID_INTAKE_PRESSURE ->
      parse_pid_response response pid = Some (PyInt lo))
  /\ (forall hi : Z,
        pid = PID_RPM -> (2 <= String.length pre)%nat ->
        byte_of h1 h2 = Some hi ->
        parse_pid_response response pid
        = Some (PyFloat (truediv (256 * hi + lo) 4))).
Proof.
  intros Hacc Hresp Hlo.
  destruct (accepted_dispatch _ _ Hacc) as [Hmark Hsig].
  unfold parse_pid_response. rewrite Hmark, Hsig, Hresp.
  repeat split.
  - intros ->. eval_known_pids. now rewrite (one_byte_payload pre h1 h2 l1 l2 lo _ Hlo).
  - intros ->. eval_known_pids. now rewrite (one_byte_payload pre h1 h2 l1 l2 lo _ Hlo).
  - intros ->. eval_known_pids. now rewrite (one_byte_payload pre h1 h2 l1 l2 lo _ Hlo).
  - intros ->. eval_known_pids. now rewrite (one_byte_payload pre h1 h2 l1 l2 lo _ Hlo).
  - intros hi -> Hpre Hhi. eval_known_pids.
    destruct (two_byte_payload pre h1 h2 l1 l2 hi lo Hpre Hhi Hlo)
      as (Hlen & Ea & Eb).
    cbv zeta in Hlen, Ea, Eb. now rewrite Hlen, Ea, Eb.
Qed.

(** The values of the specification's examples, each by the theorem. *)
Lemma metric_decoder_formulas_witness :
  parse_pid_response "41 0C 1A F8" PID_RPM = Some (PyFloat 1726%float)
  /\ parse_pid_response "41 05 7B" PID_ENGINE_TEMP = Some (PyInt 83)
  /\ parse_pid_response "41 05 00" PID_ENGINE_TEMP = Some (PyInt (-40))
  /\ parse_pid_response "41 0D 00" PID_SPEED = Some (PyInt 0)
  /\ parse_pid_response "41 0D 3C" PID_SPEED = Some (PyInt 60).
Proof.
  refine (conj _ (conj _ (conj _ (conj _ _)))).
  - refine (proj2 (proj2 (proj2 (proj2
      (metric_decoder_formulas "41 0C 1A F8" PID_RPM "410C" "1" "A" "F" "8" 248
         _ _ _)))) 26 _ _ _);
      first [reflexivity | simpl; lia].
  - refine (proj1 (proj2
      (metric_decoder_formulas "41 05 7B" PID_ENGINE_TEMP "41" "0" "5" "7" "B" 123
         _ _ _)) _); reflexivity.
  - refine (proj1 (proj2
      (metric_decoder_formulas "41 05 00" PID_ENGINE_TEMP "41" "0" "5" "0" "0" 0
         _ _ _)) _); reflexivity.
  - refine (proj1
      (metric_decoder_formulas "41 0D 00" PID_SPEED "41" "0" "D" "0" "0" 0
         _ _ _) _); reflexivity.
  - refine (proj1
      (metric_decoder_formulas "41 0D 3C" PID_SPEED "41" "0" "D" "3" "C" 60
         _ _ _) _); reflexivity.
Defined.

(** C1, as stated, fails: the bytes 0x1A, 0xF8 decode to 1726.0 and not to
    1718.0, and a response of two characters that passes both checks and
    ends in two hexadecimal digits decodes to no value. *)
Lemma metric_decoder_counterexample :
  parse_pid_response "41 0C 1A F8" PID_RPM = Some (PyFloat 1726%float)
  /\ parse_pid_response "41 0C 1A F8" PID_RPM <> Some (PyFloat 1718%float)
  /\ accepted "0D" PID_SPEED = true
  /\ byte_of "0" "D" = Some 13
  /\ parse_pid_response "0D" PID_SPEED = None.
Proof.
  refine (conj _ (conj _ (conj _ (conj _ _)))); try (vm_compute; reflexivity).
  vm_compute. intros H. discriminate H.
Qed.

(** An empty response, or one that holds a negative marker, decodes to no
    value, whatever the identifier. *)
Lemma parse_pid_response_marker (response pid : string) :
  response = "" \/ Py.contains "NO DATA" response = true
  \/ Py.contains "ERROR" response = true ->
  parse_pid_response response pid = None.
Proof.
  unfold parse_pid_response.
  intros [-> | [H | H]]; [reflexivity | |]; rewrite H; [reflexivity |].
  now rewrite orb_true_r.
Qed.

(** A response too short for the guard of its branch decodes to no value. *)
Lemma one_byte_short (response : string) (formula : Z -> pyval) :
  Py.len response < 4 -> one_byte response formula = None.
Proof.
  intros H. unfold one_byte.
  destruct (Z.leb_spec 4 (Py.len response)); [lia | reflexivity].
Qed.

(** C6: the payload [-5] holds a character that is no hexadecimal digit,
    and the decoder returns the value -5 for it: the sign is taken by the
    integer parser. *)
Theorem parse_signed_payload :
  Py.digit16 "-" = None
  /\ Py.slice (Py.replace " " "" "41 0D -5") (Some (-2)) None = "-5"
  /\ parse_pid_response "41 0D -5" PID_SPEED = Some (PyInt (-5)).
Proof. refine (conj _ (conj _ _)); vm_compute; reflexivity. Qed.

(** ** The trouble-code decoder *)

Lemma first_char_category (a : ascii) (s : string) :
  first_char_of (String.get 0 (String a s)) = category_letter a.
Proof. each_char a; reflexivity. Qed.

(** One round of the loop on a whole group adds what [entry_of] says. *)
Lemma dtc_step_group (pre rest : string) (a b c d : ascii)
    (codes : list trouble_code) :
  dtc_step (pre ++ String a (String b (String c (String d rest))))
           (Py.len pre) codes
  = (codes ++ entry_of (String a (String b (String c (String d "")))))%list.
Proof.
  unfold dtc_step.
  pose proof (slice_middle pre (String a (String b (String c (String d "")))) rest) as E.
  change (Py.len (String a (String b (String c (String d ""))))) with 4 in E.
  simpl in E. rewrite E.
  unfold entry_of.
  destruct (String.eqb (String a (String b (String c (String d "")))) "0000").
  - cbn [negb]. now rewrite app_nil_r.
  - cbn [negb]. rewrite first_char_category.
    pose proof (slice_middle (String a "") (String b (String c (String d ""))) "") as E'.
    change (Py.len (String a "")) with 1 in E'.
    change (Py.len (String b (String c (String d "")))) with 3 in E'.
    simpl in E'. change (1 + 3) with 4 in E'. rewrite E'. reflexivity.
Qed.

Lemma dtc_loop_groups (fuel : nat) :
  forall (rest pre : string) (codes : list trouble_code),
    (String.length rest <= fuel)%nat ->
    dtc_loop fuel (pre ++ rest) (Py.len pre) codes
    = (codes ++ flat_map entry_of (groups4 rest))%list.
Proof.
  induction fuel as [|fuel IH]; intros rest pre codes Hfuel.
  - destruct rest; [|simpl in Hfuel; lia].
    cbn [dtc_loop groups4 flat_map]. now rewrite app_nil_r.
  - cbn [dtc_loop].
    match goal with
    | |- context [?x <? ?y] => destruct (Z.ltb_spec x y) as [H|H]
    end;
      unfold Py.len in H; rewrite string_length_app in H;
      destruct rest as [|a [|b [|c [|d rest]]]]; simpl in H; try lia;
      try (cbn [groups4 flat_map]; now rewrite app_nil_r).
    rewrite dtc_step_group.
    replace (pre ++ String a (String b (String c (String d rest))))
      with ((pre ++ String a (String b (String c (String d ""))))
            ++ rest)
      by (now rewrite string_app_assoc).
    replace (Py.len pre + 4)
      with (Py.len (pre ++ String a (String b (String c (String d "")))))
      by (unfold Py.len; rewrite string_length_app; simpl; lia).
    rewrite IH by (simpl in Hfuel; lia).
    cbn [groups4 flat_map]. now rewrite app_assoc.
Qed.

(** The decoder reads the text without spaces group by group. *)
Lemma parse_dtc_groups (response : string) :
  Py.contains "NO DATA" response = false ->
  Py.contains "ERROR" response = false ->
  response <> "" ->
  parse_dtc response
  = flat_map entry_of (groups4 (Py.replace " " "" response)).
Proof.
  intros Hnd Herr Hne. unfold parse_dtc. rewrite Hnd, Herr.
  destruct (String.eqb_spec response "") as [->|_]; [congruence|].
  cbn [negb andb].
  exact (dtc_loop_groups _ (Py.replace " " "" response) "" [] (le_n _)).
Qed.

(** A code of three characters is not in the table. *)
Lemma DTC_CODES_three (b c d : ascii) :
  DTC_CODES !! String b (String c (String d "")) = None.
Proof.
  unfold DTC_CODES. apply not_elem_of_list_to_map_1. cbn [fmap list_fmap fst].
  intros H.
  repeat (apply elem_of_cons in H as [H|H]; [discriminate H|]).
  now apply elem_of_nil in H.
Qed.

(** C2: on the group 0133 the decoder yields the four-character code P133,
    which the table does not hold, so the description is the default; the
    table holds the five-character code P0133. *)
Theorem parse_dtc_0133 :
  parse_dtc "0133" = [("P133", "Unknown code")]
  /\ DTC_CODES !! "P0133"
     = Some "O2 Sensor Circuit Slow Response (Bank 1 Sensor 1)".
Proof. split; vm_compute; reflexivity. Qed.

(** C8 (amended): the text without spaces is read in groups of four
    characters; the first character of a group gives the letter, 0 P, 1 C,
    2 B, 3 U; a group with another first character is not skipped: it
    yields its last three characters, with no letter before them and the
    default description. *)
Theorem dtc_category_letters (response : string) (a b c d : ascii) :
  Py.contains "NO DATA" response = false ->
  Py.contains "ERROR" response = false ->
  response <> "" ->
  parse_dtc response = flat_map entry_of (groups4 (Py.replace " " "" response))
  /\ category_letter "0" = "P" /\ category_letter "1" = "C"
  /\ category_letter "2" = "B" /\ category_letter "3" = "U"
  /\ (a <> "0"%char -> a <> "1"%char -> a <> "2"%char -> a <> "3"%char ->
      entry_of (String a (String b (String c (String d ""))))
      = [(String b (String c (String d "")), "Unknown code")]).
Proof.
  intros Hnd Herr Hne.
  split; [now apply parse_dtc_groups|].
  do 4 (split; [reflexivity|]).
  intros H0 H1 H2 H3. unfold entry_of.
  assert (E : String.eqb (String a (String b (String c (String d "")))) "0000" = false).
  { apply String.eqb_neq. intros [= -> _ _ _]. now apply H0. }
  rewrite E. unfold category_letter.
  apply Ascii.eqb_neq in H0, H1, H2, H3. rewrite H0, H1, H2, H3.
  cbn [append]. now rewrite DTC_CODES_three.
Qed.

Lemma dtc_category_letters_witness :
  parse_dtc "41 23 01" = flat_map entry_of (groups4 "412301")
  /\ entry_of "4123" = [("123", "Unknown code")].
Proof.
  pose proof (dtc_category_letters "41 23 01" "4" "1" "2" "3"
                eq_refl eq_refl ltac:(discriminate)) as (H & _ & _ & _ & _ & H').
  split; [exact H|].
  apply H'; discriminate.
Defined.

(** C8, as stated, fails: the group 4123 is not skipped. *)
Lemma dtc_category_counterexample :
  parse_dtc "4123" = [("123", "Unknown code")] /\ parse_dtc "4123" <> [].
Proof. split; vm_compute; [reflexivity | discriminate]. Qed.

(** ** The framer *)

Lemma recv_loop_frame (fuel : nat) :
  forall (start : float) (acc : string) (self self' : obd) (w w' : world)
         (o : outcome string),
    recv_loop fuel start acc self w = Some (o, self', w') ->
    self' = self /\ same_but_input w w'.
Proof.
  induction fuel as [|fuel IH]; intros start acc self self' w w' o H.
  - discriminate H.
  - cbn [recv_loop] in H.
    destruct (negb (Py.contains ">" acc)).
    + unfold bind, time_time in H.
      destruct (clock w) as [|t cl] eqn:Hcl; [discriminate H|].
      destruct (PrimFloat.ltb (PrimFloat.sub t start) TIMEOUT).
      * unfold sock_recv in H. cbn [recvs set_clock] in H.
        destruct (recvs w) as [|[data|msg] rl] eqn:Hrl; [discriminate H| |].
        -- destruct (String.eqb data "").
           ++ injection H as <- <- <-. now repeat split.
           ++ apply IH in H as (-> & Ht & Hc & Ho & Hs).
              now repeat split.
        -- injection H as <- <- <-. now repeat split.
      * injection H as <- <- <-. now repeat split.
    + injection H as <- <- <-. now repeat split.
Qed.

(** Without a socket nothing happens. *)
Lemma send_command_no_socket (command : string) (self : obd) (w : world) :
  socket self = None ->
  send_command command self w = Some (Ret "Not connected", self, w).
Proof. intros H. unfold send_command, bind, get_self. now rewrite H. Qed.

(** An exchange never raises and never changes the object; with a socket
    it hands the command and a carriage return to the socket, once. *)
Lemma send_command_frame (command : string) (self self' : obd) (w w' : world)
    (o : outcome string) :
  socket self <> None ->
  send_command command self w = Some (o, self', w') ->
  self' = self /\ (exists response, o = Ret response)
  /\ trace w' = (trace w ++ [on_wire command])%list
  /\ connects w' = connects w /\ others w' = others w.
Proof.
  intros Hs H. unfold send_command, bind, get_self in H.
  destruct (socket self) as [s|]; [|congruence].
  unfold try_except, bind, sock_send, encode in H.
  destruct (sends w) as [|[msg|] sl] eqn:Hsl; [discriminate H| |].
  - injection H as <- <- <-. repeat split; eauto.
  - unfold time_time in H. cbn [clock log set_sends] in H.
    destruct (clock w) as [|start cl] eqn:Hcl; [discriminate H|].
    unfold get_world in H.
    match type of H with
    | context [recv_loop ?f ?st ?acc ?sf ?wd] =>
        destruct (recv_loop f st acc sf wd) as [[[o1 self1] w1]|] eqn:Hloop;
        [|discriminate H]
    end.
    apply recv_loop_frame in Hloop as (-> & Ht & Hc & Ho & Hsd).
    destruct o1 as [response|msg]; injection H as <- <- <-;
      repeat split; eauto.
Qed.

Lemma contains_char_app (ch : ascii) (s t : string) :
  Py.contains (String ch "") (s ++ t)
  = Py.contains (String ch "") s || Py.contains (String ch "") t.
Proof.
  induction s as [|c s IH].
  - reflexivity.
  - cbn [append Py.contains String.prefix]. rewrite IH.
    assert (P : forall x, String.prefix "" x = true) by (intros []; reflexivity).
    destruct (ascii_dec ch c); rewrite ?P; reflexivity.
Qed.

(** While chunks arrive in time and bring no prompt, the loop gathers
    them. *)
Lemma recv_loop_gathers (start : float) (self : obd) :
  forall (chunks : list string) (times : list float) (acc : string)
         (fuel : nat) (w : world) (cl : list float) (rl : list recv_result),
    List.length times = List.length chunks ->
    (List.length chunks < fuel)%nat ->
    Forall (fun t => in_time start t = true) times ->
    Forall (fun c => c <> "") chunks ->
    Py.contains ">" (acc ++ accumulated chunks) = false ->
    clock w = (times ++ cl)%list ->
    recvs w = (map Chunk chunks ++ rl)%list ->
    recv_loop fuel start acc self w
    = recv_loop (fuel - List.length chunks) start (acc ++ accumulated chunks)
        self (set_recvs rl (set_clock cl w)).
Proof.
  induction chunks as [|c chunks IH];
    intros times acc fuel w cl rl Hlen Hfuel Htimes Hchunks Hprompt Hcl Hrl.
  - destruct times; [|discriminate Hlen]. cbn [app map] in Hcl, Hrl.
    cbn [List.length accumulated fold_right].
    replace (acc ++ "") with acc
      by (clear; induction acc as [|x acc IHa]; simpl; congruence).
    rewrite Nat.sub_0_r. destruct w. cbn in Hcl, Hrl. subst. reflexivity.
  - destruct times as [|t times]; [discriminate Hlen|].
    destruct fuel as [|fuel]; [cbn in Hfuel; lia|].
    cbn [accumulated fold_right] in Hprompt. fold (accumulated chunks) in Hprompt.
    cbn [recv_loop].
    pose proof Hprompt as Hacc. rewrite contains_char_app in Hacc.
    apply orb_false_elim in Hacc as [Hacc _]. rewrite Hacc. cbn [negb].
    unfold bind at 1. unfold time_time. rewrite Hcl. cbn [app].
    apply Forall_cons in Htimes as [Ht Htimes]. unfold in_time in Ht. rewrite Ht.
    unfold bind at 1. unfold sock_recv. cbn [recvs set_clock]. rewrite Hrl.
    cbn [map app].
    apply Forall_cons in Hchunks as [Hc Hchunks].
    destruct (String.eqb_spec c "") as [|_]; [contradiction|].
    rewrite (IH times (acc ++ c) fuel _ cl rl); cbn [List.length] in *;
      try lia; try assumption; try reflexivity.
    + cbn [accumulated fold_right]. fold (accumulated chunks).
      now rewrite string_app_assoc.
    + now rewrite string_app_assoc.
Qed.

(** An exchange on a socket whose [send] succeeds, up to the loop. *)
Lemma send_command_unfold (command : string) (self : obd) (w : world)
    (sl : list (option string)) (start : float) (cl : list float) :
  socket self <> None ->
  sends w = None :: sl ->
  clock w = start :: cl ->
  send_command command self w
  = match recv_loop (S (List.length cl)) start "" self
            (set_clock cl (log (on_wire command) (set_sends sl w))) with
    | Some (Ret response, self', w') =>
        Some (Ret (clean_response (command ++ String CR "") response), self', w')
    | Some (Exc msg, self', w') => Some (Ret ("Error: " ++ msg), self', w')
    | None => None
    end.
Proof.
  intros Hs Hsl Hcl. unfold send_command, bind, get_self.
  destruct (socket self) as [s|]; [|congruence].
  unfold try_except, bind, sock_send, encode. rewrite Hsl.
  unfold time_time. cbn [clock log set_sends]. rewrite Hcl.
  unfold get_world. cbn [clock set_clock]. fold (on_wire command).
  destruct (recv_loop (S (List.length cl)) start "" self
              (set_clock cl (log (on_wire command) (set_sends sl w))))
    as [[[[response|msg] self'] w']|]; reflexivity.
Qed.

(** C3 (amended): on a link with a socket, after chunks that arrive in
    time and bring no prompt, (1) if the clock is then found past the
    deadline, the exchange returns the accumulated bytes, cleaned, and (2)
    if the next [recv] raises, as it does on the socket's own time-out,
    the exchange returns the text "Error: " with the text of the
    exception, and not the accumulated bytes.  Neither raises. *)
Theorem send_command_on_timeout
    (command : string) (self : obd) (w : world) (start : float)
    (times : list float) (chunks : list string)
    (sl : list (option string)) (cl : list float) (rl : list recv_result) :
  socket self <> None ->
  sends w = None :: sl ->
  clock w = (start :: times ++ cl)%list ->
  recvs w = (map Chunk chunks ++ rl)%list ->
  List.length times = List.length chunks ->
  Forall (fun t => in_time start t = true) times ->
  Forall (fun c => c <> "") chunks ->
  Py.contains ">" (accumulated chunks) = false ->
  (forall (late : float) (cl' : list float),
      cl = late :: cl' -> in_time start late = false ->
      send_command command self w
      = Some (Ret (clean_response (command ++ String CR "") (accumulated chunks)),
              self,
              World (connects w) sl rl cl' (others w)
                    (trace w ++ [on_wire command])))
  /\ (forall (t : float) (cl' : list float) (msg : string)
             (rl' : list recv_result),
         cl = t :: cl' -> in_time start t = true ->
         rl = RecvRaises msg :: rl' ->
         send_command command self w
         = Some (Ret ("Error: " ++ msg), self,
                 World (connects w) sl rl' cl' (others w)
                       (trace w ++ [on_wire command])))
  /\ (forall (o : outcome string) (self' : obd) (w' : world),
         send_command command self w = Some (o, self', w') ->
         exists response, o = Ret response).
Proof.
  intros Hs Hsl Hcl Hrl Hlen Htimes Hchunks Hprompt.
  assert (Hgather : forall t cl',
    cl = t :: cl' ->
    send_command command self w
    = match recv_loop (S (S (List.length cl'))) start (accumulated chunks) self
              (World (connects w) sl rl cl (others w)
                     (trace w ++ [on_wire command])) with
      | Some (Ret response, self', w') =>
          Some (Ret (clean_response (command ++ String CR "") response), self', w')
      | Some (Exc msg, self', w') => Some (Ret ("Error: " ++ msg), self', w')
      | None => None
      end).
  { intros t cl' ->.
    rewrite (send_command_unfold command self w sl start (times ++ t :: cl') Hs Hsl Hcl).
    rewrite (recv_loop_gathers start self chunks times "" _ _ (t :: cl') rl Hlen);
      try assumption; try reflexivity.
    - rewrite length_app. cbn [List.length].
      replace (S (List.length times + S (List.length cl')) - List.length chunks)%nat
        with (S (S (List.length cl'))) by lia.
      reflexivity.
    - rewrite length_app. cbn [List.length]. lia. }
  refine (conj _ (conj _ _)).
  - intros late cl' -> Hlate. rewrite (Hgather late cl' eq_refl).
    cbn [recv_loop]. rewrite Hprompt. cbn [negb].
    unfold bind, time_time. cbn [clock]. unfold in_time in Hlate. rewrite Hlate.
    reflexivity.
  - intros t cl' msg rl' -> Ht ->. rewrite (Hgather t cl' eq_refl).
    cbn [recv_loop]. rewrite Hprompt. cbn [negb].
    unfold bind, time_time. cbn [clock]. unfold in_time in Ht. rewrite Ht.
    reflexivity.
  - intros o self' w' H.
    now destruct (send_command_frame _ _ _ _ _ _ Hs H) as (_ & R & _).
Qed.

Lemma send_command_on_timeout_witness :
  send_command "010D" (OBD (Some Sock) true false None None)
    (World [] [None] [Chunk "41 0D"; Chunk " 3C"]
           [1; 1.5; 2; 3.5]%float [] [])
  = Some (Ret "41 0D 3C", OBD (Some Sock) true false None None,
          World [] [] [] [] [] [on_wire "010D"])
  /\ send_command "010D" (OBD (Some Sock) true false None None)
       (World [] [None] [Chunk "41 0D"; RecvRaises "timed out"]
              [1; 1.5; 2]%float [] [])
     = Some (Ret "Error: timed out", OBD (Some Sock) true false None None,
             World [] [] [] [] [] [on_wire "010D"]).
Proof.
  split.
  - refine (proj1 (send_command_on_timeout "010D"
              (OBD (Some Sock) true false None None)
              (World [] [None] [Chunk "41 0D"; Chunk " 3C"]
                     [1; 1.5; 2; 3.5]%float [] [])
              1%float [1.5; 2]%float ["41 0D"; " 3C"] [] [3.5]%float []
              _ _ _ _ _ _ _ _) 3.5%float [] _ _);
      try reflexivity; try discriminate;
      repeat constructor; discriminate.
  - refine (proj1 (proj2 (send_command_on_timeout "010D"
              (OBD (Some Sock) true false None None)
              (World [] [None] [Chunk "41 0D"; RecvRaises "timed out"]
                     [1; 1.5; 2]%float [] [])
              1%float [1.5]%float ["41 0D"] [] [2]%float
              [RecvRaises "timed out"]
              _ _ _ _ _ _ _ _)) 2%float [] "timed out" [] _ _ _);
      try reflexivity; try discriminate;
      repeat constructor; discriminate.
Defined.

(** C3, as stated, fails: when the socket's own time-out ends the wait,
    with some bytes accumulated or with none, the result is an error text
    and not the accumulated bytes. *)
Lemma send_command_timeout_counterexample :
  send_command "010D" (OBD (Some Sock) true false None None)
    (World [] [None] [Chunk "41 0D"; RecvRaises "timed out"]
           [1; 1.25; 1.5]%float [] [])
  = Some (Ret "Error: timed out", OBD (Some Sock) true false None None,
          World [] [] [] [] [] [on_wire "010D"])
  /\ clean_response ("010D" ++ String CR "") "41 0D" = "41 0D"
  /\ send_command "010D" (OBD (Some Sock) true false None None)
       (World [] [None] [RecvRaises "timed out"] [1; 1.25]%float [] [])
     = Some (Ret "Error: timed out", OBD (Some Sock) true false None None,
             World [] [] [] [] [] [on_wire "010D"])
  /\ clean_response ("010D" ++ String CR "") "" = "".
Proof. refine (conj _ (conj _ (conj _ _))); vm_compute; reflexivity. Qed.

(** ** Running a computation step by step *)

Lemma bind_assoc {A B C} (m : M A) (f : A -> M B) (k : B -> M C)
    (self : obd) (w : world) :
  bind (bind m f) k self w = bind m (fun x => bind (f x) k) self w.
Proof.
  unfold bind. destruct (m self w) as [[[[a|msg] self'] w']|]; reflexivity.
Qed.

Lemma bind_result {A B} (m : M A) (k : A -> M B) (self self' : obd)
    (w w' : world) (a : A) :
  m self w = Some (Ret a, self', w') -> bind m k self w = k a self' w'.
Proof. intros H. unfold bind. now rewrite H. Qed.

Lemma bind_ret {A B} (a : A) (k : A -> M B) (self : obd) (w : world) :
  bind (ret a) k self w = k a self w.
Proof. reflexivity. Qed.

Lemma bind_raise {A B} (msg : string) (k : A -> M B) (self : obd) (w : world) :
  bind (raise msg) k self w = Some (Exc msg, self, w).
Proof. reflexivity. Qed.

Lemma bind_get_self {B} (k : obd -> M B) (self : obd) (w : world) :
  bind get_self k self w = k self self w.
Proof. reflexivity. Qed.

Lemma bind_get_world {B} (k : world -> M B) (self : obd) (w : world) :
  bind get_world k self w = k w self w.
Proof. reflexivity. Qed.

Lemma bind_update {B} (f : obd -> obd) (k : unit -> M B) (self : obd)
    (w : world) :
  bind (update f) k self w = k tt (f self) w.
Proof. reflexivity. Qed.

Lemma bind_emit {B} (e : event) (k : unit -> M B) (self : obd) (w : world) :
  bind (emit e) k self w = k tt self (log e w).
Proof. reflexivity. Qed.

(** One step of a computation whose head needs no fact about the world. *)
Ltac mstep :=
  first [ rewrite bind_assoc | rewrite bind_get_self | rewrite bind_get_world
        | rewrite bind_update | rewrite bind_emit | rewrite bind_ret
        | rewrite bind_raise ];
  cbv beta iota zeta.

(** One step whose head is an exchange with a known result. *)
Ltac mexchange H := rewrite (bind_result _ _ _ _ _ _ _ H); cbv beta iota zeta.

Lemma exchanges_cons_inv (self : obd) (command : string)
    (commands : list string) (w w'' : world) (responses : list string) :
  exchanges self (command :: commands) w responses w'' ->
  exists response rest w',
    responses = response :: rest
    /\ send_command command self w = Some (Ret response, self, w')
    /\ exchanges self commands w' rest w''.
Proof. intros H. inversion H; subst. eauto 6. Qed.

Lemma exchanges_nil_inv (self : obd) (w w' : world) (responses : list string) :
  exchanges self [] w responses w' -> responses = [] /\ w' = w.
Proof. intros H. inversion H; subst. auto. Qed.

(** Exchanges on a socket put their commands on the wire, in order, and
    nothing else in the trace. *)
Lemma exchanges_trace (self : obd) (commands : list string) :
  socket self <> None ->
  forall (w w' : world) (responses : list string),
    exchanges self commands w responses w' ->
    trace w' = (trace w ++ map on_wire commands)%list
    /\ List.length responses = List.length commands.
Proof.
  intros Hs. induction commands as [|c commands IH]; intros w w' responses H.
  - apply exchanges_nil_inv in H as [-> ->]. now rewrite app_nil_r.
  - apply exchanges_cons_inv in H as (r & rest & w1 & -> & Hc & H).
    apply (send_command_frame _ _ _ _ _ _ Hs) in Hc as (_ & _ & Ht & _).
    apply IH in H as [H Hl]. rewrite H, Ht. cbn [map List.length].
    now rewrite <- app_assoc, Hl.
Qed.

(** ** The session initialiser *)

(** Once the socket is connected, the session is the run of its
    exchanges, whatever the adapter answers. *)
Lemma connect_obd_succeeds (self : obd) (w w2 w3 w4 : world)
    (l : list connect_result) (select r1 r2 r3 r4 r5 primary detected : string)
    (retried : list string) :
  connects w = Connects :: l ->
  select_command self = Some select ->
  exchanges (set_socket (Some Sock) self) (setup_commands ++ [select])
            (log EvConnect (set_connects l w))
            [r1; r2; r3; r4; r5; primary] w2 ->
  exchanges (set_socket (Some Sock) self) (retry_commands self primary)
            w2 retried w3 ->
  send_command "ATDP" (set_socket (Some Sock) self) w3
  = Some (Ret detected, set_socket (Some Sock) self, w4) ->
  connect_obd self w
  = Some (Ret true,
          set_is_connected true
            (set_protocol_detected (Some detected) (set_socket (Some Sock) self)),
          log (EvConnected true
                 (join (String LF "")
                    ["Reset: " ++ r1; "Version: " ++ r2; "Protocol: " ++ detected]))
              w4).
Proof.
  intros Hconn Hsel Hsetup Hretry Hdp.
  cbn [setup_commands app] in Hsetup.
  apply exchanges_cons_inv in Hsetup as (? & ? & w11 & [= <- <-] & H1 & Hsetup).
  apply exchanges_cons_inv in Hsetup as (? & ? & w12 & [= <- <-] & H2 & Hsetup).
  apply exchanges_cons_inv in Hsetup as (? & ? & w13 & [= <- <-] & H3 & Hsetup).
  apply exchanges_cons_inv in Hsetup as (? & ? & w14 & [= <- <-] & H4 & Hsetup).
  apply exchanges_cons_inv in Hsetup as (? & ? & w15 & [= <- <-] & H5 & Hsetup).
  apply exchanges_cons_inv in Hsetup as (? & ? & w16 & [= <- <-] & H6 & Hsetup).
  apply exchanges_nil_inv in Hsetup as [_ ->].
  unfold connect_obd, try_except.
  assert (Hopen : open_socket self w
                  = Some (Ret tt, set_socket (Some Sock) self,
                          log EvConnect (set_connects l w)))
    by (unfold open_socket; now rewrite Hconn).
  mexchange Hopen. mexchange H1. mexchange H2. mexchange H3. mexchange H4.
  mexchange H5. mstep.
  unfold select_command, retry_commands in *.
  change (profile_selected (set_socket (Some Sock) self))
    with (profile_selected self).
  destruct (profile_selected self) as [name|].
  - unfold lookup_profile.
    destruct (VEHICLE_PROFILES !! name) as [p|]; [|discriminate Hsel].
    injection Hsel as <-.
    repeat mstep. mexchange H6. repeat mstep.
    destruct (Py.contains "OK" primary); cbn [negb]; cbv iota.
    + apply exchanges_nil_inv in Hretry as [_ ->].
      repeat mstep. mexchange Hdp. repeat mstep.
      reflexivity.
    + apply exchanges_cons_inv in Hretry as (rf & ? & w31 & _ & Hf & Hretry).
      apply exchanges_nil_inv in Hretry as [_ ->].
      repeat mstep. mexchange Hf. repeat mstep. mexchange Hdp. repeat mstep.
      reflexivity.
  - injection Hsel as <-.
    apply exchanges_nil_inv in Hretry as [_ ->].
    repeat mstep. mexchange H6. repeat mstep. mexchange Hdp. repeat mstep.
    reflexivity.
Qed.

(** C4 (amended): when the session opens, the log handed over with the
    success signal has three entries and no more: the response to the
    reset, the response to the version query, and the protocol
    description.  The responses to echo off, headers off and line feeds
    off, and to every protocol-select attempt, are sent for and dropped. *)
Theorem session_log_entries (self : obd) (w w2 w3 w4 : world)
    (l : list connect_result) (select r1 r2 r3 r4 r5 primary detected : string)
    (retried : list string) :
  connects w = Connects :: l ->
  select_command self = Some select ->
  exchanges (set_socket (Some Sock) self) (setup_commands ++ [select])
            (log EvConnect (set_connects l w))
            [r1; r2; r3; r4; r5; primary] w2 ->
  exchanges (set_socket (Some Sock) self) (retry_commands self primary)
            w2 retried w3 ->
  send_command "ATDP" (set_socket (Some Sock) self) w3
  = Some (Ret detected, set_socket (Some Sock) self, w4) ->
  exists (self' : obd) (w' : world),
    connect_obd self w = Some (Ret true, self', w')
    /\ last (trace w')
       = Some (EvConnected true
                 (join (String LF "")
                    ["Reset: " ++ r1; "Version: " ++ r2; "Protocol: " ++ detected])).
Proof.
  intros Hconn Hsel Hsetup Hretry Hdp.
  eexists _, _. split.
  - exact (connect_obd_succeeds _ _ _ _ _ _ _ _ _ _ _ _ _ _ _
             Hconn Hsel Hsetup Hretry Hdp).
  - cbn [trace log]. apply last_snoc.
Qed.

(** C7: with a known profile selected, the initialiser sends the five
    setup commands and the profile's first protocol-select command; it
    sends the fallback command once if the response to the first holds no
    "OK", and not at all if it does; then it asks for the protocol in use,
    keeps the answer in [protocol_detected] and in the log, and sends
    nothing more. *)
Theorem protocol_fallback_once (self : obd) (w w2 w3 w4 : world)
    (l : list connect_result) (name : string) (p : profile)
    (r1 r2 r3 r4 r5 primary detected : string) (retried : list string) :
  connects w = Connects :: l ->
  profile_selected self = Some name ->
  VEHICLE_PROFILES !! name = Some p ->
  exchanges (set_socket (Some Sock) self) (setup_commands ++ [protocol_cmd p])
            (log EvConnect (set_connects l w))
            [r1; r2; r3; r4; r5; primary] w2 ->
  exchanges (set_socket (Some Sock) self)
            (if Py.contains "OK" primary then [] else [fallback_cmd p])
            w2 retried w3 ->
  send_command "ATDP" (set_socket (Some Sock) self) w3
  = Some (Ret detected, set_socket (Some Sock) self, w4) ->
  connect_obd self w
  = Some (Ret true,
          set_is_connected true
            (set_protocol_detected (Some detected) (set_socket (Some Sock) self)),
          log (EvConnected true
                 (join (String LF "")
                    ["Reset: " ++ r1; "Version: " ++ r2; "Protocol: " ++ detected]))
              w4)
  /\ trace w4
     = (trace w ++ EvConnect
        :: map on_wire
             (setup_commands ++ [protocol_cmd p]
              ++ (if Py.contains "OK" primary then [] else [fallback_cmd p])
              ++ ["ATDP"]))%list.
Proof.
  intros Hconn Hsel Hp Hsetup Hretry Hdp.
  assert (Hselect : select_command self = Some (protocol_cmd p))
    by (unfold select_command; now rewrite Hsel, Hp).
  assert (Hre : retry_commands self primary
                = if Py.contains "OK" primary then [] else [fallback_cmd p]).
  { unfold retry_commands. rewrite Hsel, Hp. reflexivity. }
  split.
  - apply (connect_obd_succeeds self w w2 w3 w4 l (protocol_cmd p)
             r1 r2 r3 r4 r5 primary detected retried Hconn Hselect Hsetup);
      [now rewrite Hre | exact Hdp].
  - assert (Hs : socket (set_socket (Some Sock) self) <> None) by discriminate.
    apply (exchanges_trace _ _ Hs) in Hsetup as [E2 _].
    apply (exchanges_trace _ _ Hs) in Hretry as [E3 _].
    apply (send_command_frame _ _ _ _ _ _ Hs) in Hdp as (_ & _ & E4 & _).
    rewrite E4, E3, E2. cbn [trace log].
    rewrite !map_app. cbn [map]. rewrite <- !app_assoc. reflexivity.
Qed.

Ltac run_exchanges :=
  repeat (eapply exchanges_cons; [lazy; reflexivity|]); apply exchanges_nil.

Lemma session_log_entries_witness :
  exists (self' : obd) (w' : world),
    connect_obd fiat_link fiat_session = Some (Ret true, self', w')
    /\ last (trace w') = Some (EvConnected true fiat_log).
Proof.
  apply (session_log_entries fiat_link fiat_session
           (fiat_session_after 6) (fiat_session_after 7) (fiat_session_after 8)
           [] CMD_KWP2000 "ELM327 v1.5" "ELM327 v1.5" "OK" "OK" "OK" "?"
           "ISO 9141-2" ["OK"]).
  - reflexivity.
  - vm_compute. reflexivity.
  - run_exchanges.
  - run_exchanges.
  - vm_compute. reflexivity.
Defined.

(** C4, as stated, fails: in this session the responses to echo off,
    headers off and line feeds off are "OK", the response to the first
    protocol-select command is "?" and the response to the fallback is
    "OK"; the log holds neither "OK" nor "?". *)
Lemma session_log_counterexample :
  connect_obd fiat_link fiat_session
  = Some (Ret true,
          OBD (Some Sock) true false (Some "Fiat 500 Series 1")
              (Some "ISO 9141-2"),
          log (EvConnected true fiat_log) (fiat_session_after 8))
  /\ Py.contains "OK" fiat_log = false
  /\ Py.contains "?" fiat_log = false.
Proof. refine (conj _ (conj _ _)); vm_compute; reflexivity. Qed.

Lemma protocol_fallback_once_witness :
  connect_obd fiat_link fiat_session
  = Some (Ret true,
          OBD (Some Sock) true false (Some "Fiat 500 Series 1")
              (Some "ISO 9141-2"),
          log (EvConnected true fiat_log) (fiat_session_after 8))
  /\ trace (fiat_session_after 8)
     = [ EvConnect; on_wire "ATZ"; on_wire "ATI"; on_wire "ATE0";
         on_wire "ATH0"; on_wire "ATL0"; on_wire "ATSP4"; on_wire "ATSP3";
         on_wire "ATDP" ].
Proof.
  apply (protocol_fallback_once fiat_link fiat_session
           (fiat_session_after 6) (fiat_session_after 7) (fiat_session_after 8)
           [] "Fiat 500 Series 1"
           (Profile CMD_KWP2000 CMD_ISO9141
              [ ("Turbo Pressure", PID_FIAT_TURBO_PRESSURE);
                ("Clutch Status", PID_FIAT_CLUTCH_STATUS) ])
           "ELM327 v1.5" "ELM327 v1.5" "OK" "OK" "OK" "?" "ISO 9141-2" ["OK"]).
  - reflexivity.
  - reflexivity.
  - vm_compute. reflexivity.
  - run_exchanges.
  - run_exchanges.
  - vm_compute. reflexivity.
Defined.

(** ** The link when it is not connected, and when the socket fails *)

Lemma read_dtc_not_connected (self : obd) (w : world) :
  is_connected self = false \/ socket self = None ->
  read_dtc self w = Some (Ret [], self, w).
Proof.
  intros H. unfold read_dtc. rewrite bind_get_self.
  destruct H as [-> | ->]; [reflexivity|].
  now destruct (is_connected self).
Qed.

Lemma clear_dtc_not_connected (self : obd) (w : world) :
  is_connected self = false \/ socket self = None ->
  clear_dtc self w = Some (Ret false, self, w).
Proof.
  intros H. unfold clear_dtc. rewrite bind_get_self.
  destruct H as [-> | ->]; [reflexivity|].
  now destruct (is_connected self).
Qed.

(** C10 (amended): without a socket, [send_command] returns the text
    "Not connected" and does nothing, whatever the flag says; when the
    flag is down or there is no socket, [read_dtc] returns the empty list
    and [clear_dtc] returns [False], and they do nothing: the world,
    trace included, is as before. *)
Theorem not_connected_operations (command : string) (self : obd) (w : world) :
  (socket self = None ->
   send_command command self w = Some (Ret "Not connected", self, w))
  /\ (is_connected self = false \/ socket self = None ->
      read_dtc self w = Some (Ret [], self, w)
      /\ clear_dtc self w = Some (Ret false, self, w)).
Proof.
  split.
  - apply send_command_no_socket.
  - intros H. split.
    + now apply read_dtc_not_connected.
    + now apply clear_dtc_not_connected.
Qed.

Lemma not_connected_operations_witness :
  send_command "010D" init_obd fiat_session
  = Some (Ret "Not connected", init_obd, fiat_session)
  /\ read_dtc (OBD (Some Sock) false false None None) fiat_session
     = Some (Ret [], OBD (Some Sock) false false None None, fiat_session)
  /\ clear_dtc (OBD (Some Sock) false false None None) fiat_session
     = Some (Ret false, OBD (Some Sock) false false None None, fiat_session).
Proof.
  split.
  - apply (proj1 (not_connected_operations "010D" init_obd fiat_session)).
    reflexivity.
  - apply (proj2 (not_connected_operations "010D"
                    (OBD (Some Sock) false false None None) fiat_session)).
    left. reflexivity.
Defined.

(** C10, as stated, fails: with the flag down and a socket held, as
    during the setup of a session, [send_command] sends the command and
    returns the adapter's response. *)
Lemma not_connected_counterexample :
  is_connected (OBD (Some Sock) false false None None) = false
  /\ send_command "ATZ" (OBD (Some Sock) false false None None)
       (World [] [None] [reply "ELM327 v1.5"] [1; 1]%float [] [])
     = Some (Ret "ELM327 v1.5", OBD (Some Sock) false false None None,
             World [] [] [] [] [] [on_wire "ATZ"]).
Proof. split; vm_compute; reflexivity. Qed.

(** A failure to open the connection: the link is marked as not
    connected, the failure is signalled, and the socket, if there is one,
    is closed and dropped. *)
Lemma connect_obd_fails (self : obd) (w : world) (r : connect_result)
    (l : list connect_result) (msg : string) :
  connects w = r :: l ->
  r = SocketRaises msg \/ r = ConnectRaises msg ->
  exists (self' : obd) (w' : world),
    connect_obd self w = Some (Ret false, self', w')
    /\ is_connected self' = false /\ socket self' = None
    /\ In (EvConnected false ("Connection error: " ++ msg)) (trace w')
    /\ (r = ConnectRaises msg -> last (trace w') = Some EvClose).
Proof.
  intros Hconn [-> | ->]; unfold connect_obd, try_except, bind at 1, open_socket;
    rewrite Hconn.
  - repeat mstep. cbn [socket set_is_connected].
    destruct (socket self) as [s|] eqn:Hs; unfold sock_close; repeat mstep;
      eexists _, _; (split; [reflexivity|]);
      cbn [is_connected socket set_socket set_is_connected trace log];
      rewrite ?Hs; repeat split; try discriminate;
      rewrite ?in_app_iff; cbn [In]; auto.
  - repeat mstep. cbn [socket set_is_connected set_socket].
    unfold sock_close. repeat mstep.
    eexists _, _. split; [reflexivity|].
    cbn [is_connected socket set_socket set_is_connected trace log].
    repeat split.
    + rewrite !in_app_iff. cbn [In]. auto.
    + intros _. apply last_snoc.
Qed.

(** An exchange whose [send] raises returns the text of the error. *)
Lemma send_command_send_raises (command : string) (self : obd) (w : world)
    (msg : string) (sl : list (option string)) :
  socket self <> None ->
  sends w = Some msg :: sl ->
  send_command command self w
  = Some (Ret ("Error: " ++ msg), self, log (on_wire command) (set_sends sl w)).
Proof.
  intros Hs Hsl. unfold send_command, bind, get_self.
  destruct (socket self) as [s|]; [|congruence].
  unfold try_except, bind, sock_send, encode. now rewrite Hsl.
Qed.

(** C5 (amended): (1) an error raised while the connection is opened
    leaves the link marked as not connected and without a socket, signals
    the failure with its text, and closes the socket if one was made;
    (2) an exchange on a socket never raises and leaves the object as it
    was, flag and socket included, and adds to the trace the command it
    sent and no closing of the socket; (3) when [send] raises, the
    exchange returns "Error: " and the text of the exception. *)
Theorem socket_error_effects (self : obd) (w : world) :
  (forall (r : connect_result) (l : list connect_result) (msg : string),
      connects w = r :: l ->
      r = SocketRaises msg \/ r = ConnectRaises msg ->
      exists (self' : obd) (w' : world),
        connect_obd self w = Some (Ret false, self', w')
        /\ is_connected self' = false /\ socket self' = None
        /\ In (EvConnected false ("Connection error: " ++ msg)) (trace w')
        /\ (r = ConnectRaises msg -> last (trace w') = Some EvClose))
  /\ (forall (command : string) (o : outcome string) (self' : obd) (w' : world),
         socket self <> None ->
         send_command command self w = Some (o, self', w') ->
         self' = self /\ (exists response, o = Ret response)
         /\ trace w' = (trace w ++ [on_wire command])%list)
  /\ (forall (command msg : string) (sl : list (option string)),
         socket self <> None ->
         sends w = Some msg :: sl ->
         send_command command self w
         = Some (Ret ("Error: " ++ msg), self,
                 log (on_wire command) (set_sends sl w))).
Proof.
  refine (conj _ (conj _ _)).
  - intros r l msg. apply connect_obd_fails.
  - intros command o self' w' Hs H.
    destruct (send_command_frame _ _ _ _ _ _ Hs H) as (E & R & T & _).
    auto.
  - intros command msg sl. apply send_command_send_raises.
Qed.

Lemma socket_error_effects_witness :
  (exists (self' : obd) (w' : world),
      connect_obd init_obd
        (World [ConnectRaises "[Errno 111] Connection refused"] [] [] [] [] [])
      = Some (Ret false, self', w')
      /\ is_connected self' = false /\ socket self' = None
      /\ In (EvConnected false
               ("Connection error: " ++ "[Errno 111] Connection refused"))
            (trace w')
      /\ (ConnectRaises "[Errno 111] Connection refused"
          = ConnectRaises "[Errno 111] Connection refused" ->
          last (trace w') = Some EvClose))
  /\ send_command "010D" (OBD (Some Sock) true true None None)
       (World [] [Some "[Errno 32] Broken pipe"] [] [] [] [])
     = Some (Ret ("Error: " ++ "[Errno 32] Broken pipe"),
             OBD (Some Sock) true true None None,
             log (on_wire "010D")
                 (set_sends []
                    (World [] [Some "[Errno 32] Broken pipe"] [] [] [] []))).
Proof.
  split.
  - apply (proj1 (socket_error_effects init_obd
             (World [ConnectRaises "[Errno 111] Connection refused"] [] [] [] [] []))
             (ConnectRaises "[Errno 111] Connection refused") []
             "[Errno 111] Connection refused").
    + reflexivity.
    + right. reflexivity.
  - apply (proj2 (proj2 (socket_error_effects
             (OBD (Some Sock) true true None None)
             (World [] [Some "[Errno 32] Broken pipe"] [] [] [] [])))
             "010D" "[Errno 32] Broken pipe" []).
    + discriminate.
    + reflexivity.
Defined.

(** C5, as stated, fails: after an error of the socket in an exchange, on
    [send] or on [recv], the link is still marked as connected and still
    holds its socket, which nothing has closed. *)
Lemma socket_error_counterexample :
  send_command "010D" (OBD (Some Sock) true true None None)
    (World [] [Some "[Errno 32] Broken pipe"] [] [] [] [])
  = Some (Ret "Error: [Errno 32] Broken pipe",
          OBD (Some Sock) true true None None,
          World [] [] [] [] [] [on_wire "010D"])
  /\ send_command "010D" (OBD (Some Sock) true true None None)
       (World [] [None] [RecvRaises "[Errno 104] Connection reset by peer"]
              [1; 1]%float [] [])
     = Some (Ret "Error: [Errno 104] Connection reset by peer",
             OBD (Some Sock) true true None None,
             World [] [] [] [] [] [on_wire "010D"])
  /\ is_connected (OBD (Some Sock) true true None None) = true
  /\ socket (OBD (Some Sock) true true None None) = Some Sock
  /\ ~ In EvClose [on_wire "010D"].
Proof.
  refine (conj _ (conj _ (conj _ (conj _ _)))); try (vm_compute; reflexivity).
  cbn [In]. intros [H | []]. discriminate H.
Qed.

(** ** The polling loop *)

Lemma profile_known (name : string) (p : profile) :
  VEHICLE_PROFILES !! name = Some p ->
  p = Profile CMD_KWP2000 CMD_ISO9141
        [ ("Turbo Pressure", PID_FIAT_TURBO_PRESSURE);
          ("Clutch Status", PID_FIAT_CLUTCH_STATUS) ]
  \/ p = Profile CMD_CAN_11BIT_500K CMD_AUTO_PROTOCOL
           [ ("Fuel Consumption", PID_TOYOTA_FUEL_CONSUMPTION);
             ("Hybrid Battery", PID_TOYOTA_HYBRID_BATTERY) ]
  \/ p = Profile CMD_CAN_11BIT_500K CMD_KWP1281
           [ ("Boost Pressure", PID_VAG_BOOST_PRESSURE);
             ("Oil Temperature", PID_VAG_OIL_TEMP) ].
Proof.
  unfold VEHICLE_PROFILES. intros H. apply elem_of_list_to_map_2 in H.
  repeat (apply elem_of_cons in H as [H|H]; [injection H as -> ->; auto|]).
  now apply elem_of_nil in H.
Qed.

(** Takes a run of exchanges on known commands apart. *)
Ltac split_exchanges :=
  repeat match goal with
    | H : exchanges _ (_ :: _) _ _ _ |- _ =>
        apply exchanges_cons_inv in H as (? & ? & ? & -> & ? & H)
    | H : exchanges _ [] _ _ _ |- _ =>
        apply exchanges_nil_inv in H as [-> ->]
    end.

(** Runs a computation along the exchanges in the context. *)
Ltac mrun :=
  repeat first
    [ mstep
    | match goal with
      | H : send_command ?c ?s ?w0 = Some (Ret _, _, _)
        |- context [bind (send_command ?c) _ ?s ?w0] => mexchange H
      end ].

Lemma poll_cycle_requests (self : obd) (w w' : world)
    (requests : list (string * string)) (responses : list string) :
  cycle_requests self = Some requests ->
  exchanges self (map snd requests) w responses w' ->
  poll_cycle self w
  = Some (Ret tt, self,
          log (EvSleep 0.5%float)
              (log (EvData (decoded requests responses)) w'))
  /\ ~ In "timestamp" (map fst (decoded requests responses)).
Proof.
  intros Hreq Hex. unfold cycle_requests in Hreq.
  destruct (profile_selected self) as [name|] eqn:Hsel.
  - destruct (VEHICLE_PROFILES !! name) as [p|] eqn:Hp; [|discriminate Hreq].
    injection Hreq as <-.
    destruct (profile_known _ _ Hp) as [-> | [-> | ->]];
      cbn [map app specific_pids standard_requests snd] in Hex;
      split_exchanges;
      unfold poll_cycle; mrun; rewrite Hsel; unfold lookup_profile; rewrite Hp;
      mrun; cbn [specific_pids poll_specific]; mrun;
      (split; [cbv -[parse_pid_response]; reflexivity
              | cbv -[parse_pid_response]; intuition discriminate]).
  - injection Hreq as <-.
    cbn [map standard_requests snd] in Hex. split_exchanges.
    unfold poll_cycle. mrun. rewrite Hsel. mrun.
    split; [cbv -[parse_pid_response]; reflexivity
           | cbv -[parse_pid_response]; intuition discriminate].
Qed.

Lemma no_data_on_wire (commands : list string) :
  List.filter is_data (map on_wire commands) = [].
Proof. induction commands as [|c commands IH]; [reflexivity | exact IH]. Qed.

(** A round of the loop in which no other thread steps in and the cycle
    ends well is that cycle, and the loop goes on. *)
Lemma run_loop_round (fuel : nat) (self : obd) (w0 w1 : world) (l : list bool) :
  others w0 = false :: l ->
  running self = true ->
  is_connected self = true ->
  poll_cycle self (set_others l w0) = Some (Ret tt, self, w1) ->
  run_loop (S fuel) self w0 = run_loop fuel self w1.
Proof.
  intros Ho Hr Hc Hpoll. cbn [run_loop].
  assert (Hother : other_threads self w0 = Some (Ret tt, self, set_others l w0))
    by (unfold other_threads; now rewrite Ho).
  mexchange Hother. mstep. rewrite Hr, Hc. cbn [andb].
  assert (Hround : run_round self (set_others l w0) = Some (Ret true, self, w1)).
  { unfold run_round, try_except.
    rewrite (bind_result _ _ _ _ _ _ _ Hpoll). reflexivity. }
  mexchange Hround. reflexivity.
Qed.

(** C9 (amended): a cycle of the polling loop sends the requests for
    speed, engine speed, coolant temperature, fuel level and intake
    pressure, in this order, then those of the selected profile in the
    order of its table, and nothing else; it emits one snapshot, made of
    the decoded responses under their keys in the same order, and then
    sleeps half a second.  The snapshot has no time stamp.  When no other
    thread steps in, a round of the loop is such a cycle. *)
Theorem polling_cycle (self : obd) (w w' : world)
    (requests : list (string * string)) (responses : list string) :
  socket self <> None ->
  cycle_requests self = Some requests ->
  exchanges self (map snd requests) w responses w' ->
  let snapshot := decoded requests responses in
  let w'' := log (EvSleep 0.5%float) (log (EvData snapshot) w') in
  poll_cycle self w = Some (Ret tt, self, w'')
  /\ trace w'' = (trace w ++ map on_wire (map snd requests)
                          ++ [EvData snapshot; EvSleep 0.5%float])%list
  /\ List.filter is_data (trace w'')
     = (List.filter is_data (trace w) ++ [EvData snapshot])%list
  /\ ~ In "timestamp" (map fst snapshot)
  /\ (exists specific, requests = (standard_requests ++ specific)%list)
  /\ (forall (fuel : nat) (w0 : world) (l : list bool),
         others w0 = false :: l -> w = set_others l w0 ->
         running self = true -> is_connected self = true ->
         run_loop (S fuel) self w0 = run_loop fuel self w'').
Proof.
  intros Hs Hreq Hex snapshot w''.
  destruct (poll_cycle_requests self w w' requests responses Hreq Hex)
    as [Hpoll Hstamp].
  destruct (exchanges_trace self (map snd requests) Hs w w' responses Hex)
    as [Htrace _].
  assert (Ht : trace w'' = (trace w ++ map on_wire (map snd requests)
                            ++ [EvData snapshot; EvSleep 0.5%float])%list).
  { subst w''. cbn [trace log]. rewrite Htrace, <- !app_assoc. reflexivity. }
  refine (conj Hpoll (conj Ht (conj _ (conj Hstamp (conj _ _))))).
  - rewrite Ht, !List.filter_app, no_data_on_wire. reflexivity.
  - unfold cycle_requests in Hreq.
    destruct (profile_selected self);
      [destruct (VEHICLE_PROFILES !! _); [|discriminate Hreq]|];
      injection Hreq as <-; eauto.
  - intros fuel w0 l Ho -> Hr Hc.
    now apply (run_loop_round fuel self w0 w'' l).
Qed.

Lemma polling_cycle_witness :
  poll_cycle fiat_polling fiat_cycle
  = Some (Ret tt, fiat_polling,
          log (EvSleep 0.5%float) (log (EvData fiat_snapshot) fiat_cycle_end))
  /\ List.filter is_data
       (trace (log (EvSleep 0.5%float)
                   (log (EvData fiat_snapshot) fiat_cycle_end)))
     = [EvData fiat_snapshot].
Proof.
  assert (Hs : socket fiat_polling <> None) by discriminate.
  assert (Hreq : cycle_requests fiat_polling = Some fiat_requests)
    by (vm_compute; reflexivity).
  assert (Hex : exchanges fiat_polling (map snd fiat_requests) fiat_cycle
                  fiat_answers fiat_cycle_end)
    by (cbn [map fiat_requests snd]; unfold fiat_answers; run_exchanges).
  destruct (polling_cycle fiat_polling fiat_cycle fiat_cycle_end
              fiat_requests fiat_answers Hs Hreq Hex) as (H1 & _ & H3 & _).
  split; [exact H1 | exact H3].
Defined.

(** C9, as stated, fails: the snapshot a cycle emits holds the decoded
    values under their keys and no time stamp. *)
Lemma polling_cycle_counterexample :
  poll_cycle fiat_polling fiat_cycle
  = Some (Ret tt, fiat_polling,
          log (EvSleep 0.5%float) (log (EvData fiat_snapshot) fiat_cycle_end))
  /\ map fst fiat_snapshot
     = [ "speed"; "rpm"; "engine_temp"; "fuel_level"; "intake_pressure";
         "turbo_pressure"; "clutch_status" ]
  /\ ~ In "timestamp" (map fst fiat_snapshot).
Proof.
  refine (conj _ (conj _ _)); try (vm_compute; reflexivity).
  cbn. intuition discriminate.
Qed.

(** The whole of [run] on the same link: one cycle, then another thread
    disconnects and the loop ends. *)
Example run_one_cycle :
  run fiat_polling
      (World [] (repeat None 7) (map reply fiat_answers) (repeat 1%float 14)
             [false; true] [])
  = Some (Ret tt,
          OBD None false false (Some "Fiat 500 Series 1") None,
          World [] [] [] [] []
            (map on_wire (map snd fiat_requests)
             ++ [EvData fiat_snapshot; EvSleep 0.5%float; EvClose])).
Proof. vm_compute. reflexivity. Qed.

(** * Further properties *)

(** ** The metric decoder *)

(** X1: an empty response, or one that holds "NO DATA" or "ERROR",
    decodes to no value whatever the identifier, known or not. *)
Theorem decoder_rejects_markers (response pid : string) :
  response = "" \/ Py.contains "NO DATA" response = true
  \/ Py.contains "ERROR" response = true ->
  parse_pid_response response pid = None.
Proof.
  unfold parse_pid_response.
  intros [-> | [H | H]]; [reflexivity | |]; rewrite H; [reflexivity |].
  now rewrite orb_true_r.
Qed.

Lemma decoder_rejects_markers_witness :
  parse_pid_response "" PID_SPEED = None
  /\ parse_pid_response "NO DATA" PID_RPM = None
  /\ parse_pid_response "BUS ERROR" "01FF" = None.
Proof.
  refine (conj _ (conj _ _)); apply decoder_rejects_markers.
  - left. reflexivity.
  - right. left. reflexivity.
  - right. right. reflexivity.
Defined.

(** X2: the decoder gives no value for an identifier it has no branch
    for, whatever the response, and for any identifier when the response
    without its spaces does not hold the identifier's last two characters
    (compared in lower case). *)
Theorem decoder_unanswered (response pid : string) :
  ~ In pid known_pids
  \/ Py.contains (Py.lower (Py.slice pid (Some 2) (Some 4)))
                 (Py.lower (Py.replace " " "" response)) = false ->
  parse_pid_response response pid = None.
Proof.
  intros H. unfold parse_pid_response.
  destruct (Py.contains "NO DATA" response || Py.contains "ERROR" response
            || String.eqb response ""); [reflexivity|].
  destruct H as [H | H]; [|now rewrite H].
  destruct (Py.contains _ _); [|reflexivity].
  unfold known_pids in H. cbn [In] in H.
  repeat match goal with
    | |- context [String.eqb pid ?c] =>
        destruct (String.eqb_spec pid c) as [E|_];
          [exfalso; apply H; symmetry in E; tauto|]
    end.
  reflexivity.
Qed.

Lemma decoder_unanswered_witness :
  parse_pid_response "41 0D 3C" "0111" = None
  /\ parse_pid_response "41 0C 1A F8" PID_SPEED = None.
Proof.
  split; apply decoder_unanswered.
  - left. cbn. intuition discriminate.
  - right. reflexivity.
Defined.

(** X3: the branches of the vendor identifiers.  On a response that
    passes the checks, has at least four characters without its spaces and
    ends in two hexadecimal digits of value [lo]: the Fiat turbo and the
    VAG boost pressure are [lo * 2], the Fiat clutch status is [lo], the
    Toyota fuel consumption is [lo / 10], the Toyota hybrid battery is
    [lo * 100 / 255], the VAG oil temperature is [lo - 40]. *)
Theorem vendor_formulas
    (response pid pre : string) (h1 h2 l1 l2 : ascii) (lo : Z) :
  accepted response pid = true ->
  Py.replace " " "" response
  = pre ++ String h1 (String h2 (String l1 (String l2 ""))) ->
  byte_of l1 l2 = Some lo ->
  (pid = PID_FIAT_TURBO_PRESSURE \/ pid = PID_VAG_BOOST_PRESSURE ->
   parse_pid_response response pid = Some (PyInt (lo * 2)))
  /\ (pid = PID_FIAT_CLUTCH_STATUS ->
      parse_pid_response response pid = Some (PyInt lo))
  /\ (pid = PID_TOYOTA_FUEL_CONSUMPTION ->
      parse_pid_response response pid = Some (PyFloat (truediv lo 10)))
  /\ (pid = PID_TOYOTA_HYBRID_BATTERY ->
      parse_pid_response response pid
      = Some (PyFloat (truediv (lo * 100) 255)))
  /\ (pid = PID_VAG_OIL_TEMP ->
      parse_pid_response response pid = Some (PyInt (lo - 40))).
Proof.
  intros Hacc Hresp Hlo.
  destruct (accepted_dispatch _ _ Hacc) as [Hmark Hsig].
  unfold parse_pid_response. rewrite Hmark, Hsig, Hresp.
  refine (conj _ (conj _ (conj _ (conj _ _)))).
  - intros [-> | ->]; eval_known_pids;
      now rewrite (one_byte_payload pre h1 h2 l1 l2 lo _ Hlo).
  - intros ->. eval_known_pids.
    now rewrite (one_byte_payload pre h1 h2 l1 l2 lo _ Hlo).
  - intros ->. eval_known_pids.
    now rewrite (one_byte_payload pre h1 h2 l1 l2 lo _ Hlo).
  - intros ->. eval_known_pids.
    now rewrite (one_byte_payload pre h1 h2 l1 l2 lo _ Hlo).
  - intros ->. eval_known_pids.
    now rewrite (one_byte_payload pre h1 h2 l1 l2 lo _ Hlo).
Qed.

Lemma vendor_formulas_witness :
  parse_pid_response "41 A6 64" PID_VAG_BOOST_PRESSURE = Some (PyInt 200)
  /\ parse_pid_response "41 5E 4B" PID_TOYOTA_FUEL_CONSUMPTION
     = Some (PyFloat 7.5%float)
  /\ parse_pid_response "41 5C 82" PID_VAG_OIL_TEMP = Some (PyInt 90).
Proof.
  refine (conj _ (conj _ _)).
  - refine (proj1 (vendor_formulas "41 A6 64" PID_VAG_BOOST_PRESSURE "41"
                     "A" "6" "6" "4" 100 _ _ _) _);
      first [reflexivity | right; reflexivity].
  - refine (proj1 (proj2 (proj2 (vendor_formulas "41 5E 4B"
                     PID_TOYOTA_FUEL_CONSUMPTION "41" "5" "E" "4" "B" 75 _ _ _))) _);
      reflexivity.
  - refine (proj2 (proj2 (proj2 (proj2 (vendor_formulas "41 5C 82"
                     PID_VAG_OIL_TEMP "41" "5" "C" "8" "2" 130 _ _ _)))) _);
      reflexivity.
Defined.

Lemma digit16_range (c : ascii) (d : Z) :
  Py.digit16 c = Some d -> 0 <= d <= 15.
Proof. each_char c; vm_compute; intros [= <-]; split; discriminate. Qed.

Lemma byte_of_range (h l : ascii) (v : Z) :
  byte_of h l = Some v -> 0 <= v <= 255.
Proof.
  unfold byte_of.
  destruct (Py.digit16 h) as [a|] eqn:Hh; [|discriminate].
  destruct (Py.digit16 l) as [b|] eqn:Hl; [|discriminate].
  intros [= <-]. apply digit16_range in Hh, Hl. lia.
Qed.

(** X4: the ranges of the integer metrics.  On a response that passes the
    checks, has at least four characters without its spaces and ends in
    two hexadecimal digits, the value [v] decoded is between 0 and 255 for
    speed, intake pressure and clutch status, between -40 and 215 for the
    two temperatures, and an even number between 0 and 510 for the two
    vendor pressures. *)
Theorem integer_metric_ranges
    (response pid pre : string) (h1 h2 l1 l2 : ascii) (lo : Z) (v : pyval) :
  accepted response pid = true ->
  Py.replace " " "" response
  = pre ++ String h1 (String h2 (String l1 (String l2 ""))) ->
  byte_of l1 l2 = Some lo ->
  parse_pid_response response pid = Some v ->
  (pid = PID_SPEED \/ pid = PID_INTAKE_PRESSURE \/ pid = PID_FIAT_CLUTCH_STATUS ->
   exists z, v = PyInt z /\ 0 <= z <= 255)
  /\ (pid = PID_ENGINE_TEMP \/ pid = PID_VAG_OIL_TEMP ->
      exists z, v = PyInt z /\ -40 <= z <= 215)
  /\ (pid = PID_FIAT_TURBO_PRESSURE \/ pid = PID_VAG_BOOST_PRESSURE ->
      exists z, v = PyInt z /\ 0 <= z <= 510 /\ Z.even z = true).
Proof.
  intros Hacc Hresp Hlo Hv.
  pose proof (byte_of_range _ _ _ Hlo) as Hr.
  destruct (accepted_dispatch _ _ Hacc) as [Hmark Hsig].
  unfold parse_pid_response in Hv. rewrite Hmark, Hsig, Hresp in Hv.
  refine (conj _ (conj _ _)).
  - intros [-> | [-> | ->]]; revert Hv; eval_known_pids;
      rewrite (one_byte_payload pre h1 h2 l1 l2 lo _ Hlo);
      intros [= <-]; eauto.
  - intros [-> | ->]; revert Hv; eval_known_pids;
      rewrite (one_byte_payload pre h1 h2 l1 l2 lo _ Hlo);
      intros [= <-]; eexists; (split; [reflexivity | lia]).
  - intros [-> | ->]; revert Hv; eval_known_pids;
      rewrite (one_byte_payload pre h1 h2 l1 l2 lo _ Hlo);
      intros [= <-]; eexists; (split; [reflexivity|]); (split; [lia|]);
      rewrite Z.even_mul; apply orb_true_r.
Qed.

Lemma integer_metric_ranges_witness :
  exists z, PyInt 215 = PyInt z /\ -40 <= z <= 215.
Proof.
  refine (proj1 (proj2 (integer_metric_ranges "41 05 FF" PID_ENGINE_TEMP "41"
                   "0" "5" "F" "F" 255 (PyInt 215) _ _ _ _)) _);
    first [reflexivity | left; reflexivity].
Defined.










(** ** The trouble-code decoder *)

Lemma DTC_CODES_key_length (key description : string) :
  DTC_CODES !! key = Some description -> String.length key = 5%nat.
Proof.
  unfold DTC_CODES. intros H. apply elem_of_list_to_map_2 in H.
  repeat (apply elem_of_cons in H as [H|H]; [now injection H as -> _|]).
  now apply elem_of_nil in H.
Qed.

Lemma groups4_length (s group : string) :
  In group (groups4 s) -> String.length group = 4%nat.
Proof.
  remember (String.length s) as n eqn:Hn. revert s Hn.
  induction n as [n IH] using lt_wf_ind. intros s -> H.
  destruct s as [|a [|b [|c [|d rest]]]]; try contradiction.
  cbn [groups4 In] in H. destruct H as [<- | H]; [reflexivity|].
  apply (IH (String.length rest)) with (s := rest); [simpl; lia | reflexivity | exact H].
Qed.

Lemma groups4_count (s : string) :
  (4 * List.length (groups4 s) <= String.length s)%nat.
Proof.
  remember (String.length s) as n eqn:Hn. revert s Hn.
  induction n as [n IH] using lt_wf_ind. intros s ->.
  destruct s as [|a [|b [|c [|d rest]]]]; cbn [groups4 List.length]; try lia.
  pose proof (IH (String.length rest) ltac:(simpl; lia) rest eq_refl).
  cbn [String.length]. lia.
Qed.

Lemma entry_of_shape (group code description : string) :
  String.length group = 4%nat ->
  In (code, description) (entry_of group) ->
  description = "Unknown code"
  /\ (String.length code = 3%nat \/ String.length code = 4%nat)
  /\ DTC_CODES !! code = None.
Proof.
  intros Hlen H.
  destruct group as [|a [|b [|c [|d [|]]]]]; try discriminate Hlen.
  unfold entry_of in H.
  destruct (String.eqb (String a (String b (String c (String d "")))) "0000");
    [destruct H|].
  cbn [In] in H. destruct H as [H | []].
  assert (Hcode : String.length (category_letter a ++ String b (String c (String d "")))
                  = 3%nat
                  \/ String.length (category_letter a ++ String b (String c (String d "")))
                     = 4%nat).
  { unfold category_letter.
    repeat match goal with |- context [Ascii.eqb a ?x] => destruct (Ascii.eqb a x) end;
      cbn [append String.length]; auto. }
  assert (Hnone : DTC_CODES !! (category_letter a ++ String b (String c (String d "")))
                  = None).
  { destruct (DTC_CODES !! _) as [x|] eqn:E; [|reflexivity].
    apply DTC_CODES_key_length in E. destruct Hcode as [Hc | Hc]; lia. }
  rewrite Hnone in H. injection H as <- <-. auto.
Qed.

(** X7: no trouble code that [read_dtc] decodes is a key of the table of
    descriptions: every code decoded has three or four characters, and
    its description is the default "Unknown code". *)
Theorem dtc_descriptions_default (response code description : string) :
  In (code, description) (parse_dtc response) ->
  description = "Unknown code"
  /\ (String.length code = 3%nat \/ String.length code = 4%nat)
  /\ DTC_CODES !! code = None.
Proof.
  intros H.
  destruct (Py.contains "NO DATA" response) eqn:Hnd;
    [unfold parse_dtc in H; rewrite Hnd in H; contradiction|].
  destruct (Py.contains "ERROR" response) eqn:Herr;
    [unfold parse_dtc in H; rewrite Hnd, Herr in H; contradiction|].
  destruct (String.eqb_spec response "") as [->|Hne]; [contradiction|].
  rewrite (parse_dtc_groups response Hnd Herr Hne) in H.
  apply in_flat_map in H as (group & Hg & H).
  apply groups4_length in Hg. now apply (entry_of_shape group).
Qed.

Lemma dtc_descriptions_default_witness :
  "Unknown code" = "Unknown code"
  /\ (String.length "P133" = 3%nat \/ String.length "P133" = 4%nat)
  /\ DTC_CODES !! "P133" = None.
Proof.
  apply (dtc_descriptions_default "01 33 03 00" "P133" "Unknown code").
  vm_compute. left. reflexivity.
Defined.

(** X8: [read_dtc] decodes at most one code for every four characters of
    the response without its spaces; a response of fewer than four such
    characters gives no code. *)
Theorem dtc_count_bound (response : string) :
  (4 * List.length (parse_dtc response)
   <= String.length (Py.replace " " "" response))%nat.
Proof.
  destruct (Py.contains "NO DATA" response) eqn:Hnd;
    [unfold parse_dtc; rewrite Hnd; cbn [negb andb List.length]; lia|].
  destruct (Py.contains "ERROR" response) eqn:Herr;
    [unfold parse_dtc; rewrite Hnd, Herr; cbn [negb andb List.length]; lia|].
  destruct (String.eqb_spec response "") as [->|Hne];
    [change (parse_dtc "") with (@nil trouble_code); cbn [List.length]; lia|].
  rewrite (parse_dtc_groups response Hnd Herr Hne).
  pose proof (groups4_count (Py.replace " " "" response)) as Hc.
  assert (Hle : forall gs, (List.length (flat_map entry_of gs) <= List.length gs)%nat).
  { induction gs as [|g gs IH]; [cbn [flat_map List.length]; lia|].
    cbn [flat_map List.length]. rewrite length_app.
    assert (List.length (entry_of g) <= 1)%nat; [|lia].
    unfold entry_of. destruct g as [|a number]; [cbn [List.length]; lia|].
    destruct (String.eqb _ _); cbn [List.length]; lia. }
  specialize (Hle (groups4 (Py.replace " " "" response))). lia.
Qed.

(** X9: an error of the socket is read as trouble codes.  On a connected
    link whose [send] raises, [read_dtc] decodes the text "Error: ..." of
    the failed exchange: unless the text holds "NO DATA" or "ERROR", the
    list it emits and returns is not empty and starts with the code "rro"
    taken from the word "Error". *)
Theorem read_dtc_decodes_error_text (self : obd) (w : world) (msg : string)
    (sl : list (option string)) :
  is_connected self = true ->
  socket self <> None ->
  sends w = Some msg :: sl ->
  Py.contains "NO DATA" ("Error: " ++ msg) = false ->
  Py.contains "ERROR" ("Error: " ++ msg) = false ->
  exists rest : list trouble_code,
    read_dtc self w
    = Some (Ret (("rro", "Unknown code") :: rest), self,
            log (EvDtc (("rro", "Unknown code") :: rest))
                (log (on_wire CMD_READ_DTC) (set_sends sl w))).
Proof.
  intros Hc Hs Hsl Hnd Herr.
  exists (flat_map entry_of (groups4 ("r:" ++ Py.replace " " "" msg))).
  assert (Hparse : parse_dtc ("Error: " ++ msg)
                   = ("rro", "Unknown code")
                     :: flat_map entry_of (groups4 ("r:" ++ Py.replace " " "" msg))).
  { rewrite (parse_dtc_groups _ Hnd Herr ltac:(discriminate)).
    cbn [append Py.replace Ascii.eqb Bool.eqb groups4 flat_map].
    unfold entry_of at 1. cbn [String.eqb Ascii.eqb Bool.eqb category_letter append].
    now rewrite DTC_CODES_three. }
  unfold read_dtc. mstep. rewrite Hc.
  destruct (socket self) as [s|] eqn:Hsock; [|congruence].
  cbn [negb orb]. rewrite bool_decide_eq_true_2 by eauto. cbn [negb].
  assert (Hsend := send_command_send_raises CMD_READ_DTC self w msg sl
                     ltac:(congruence) Hsl).
  mexchange Hsend. rewrite Hparse. repeat mstep. reflexivity.
Qed.

Lemma read_dtc_decodes_error_text_witness :
  exists rest : list trouble_code,
    read_dtc (OBD (Some Sock) true true None None)
      (World [] [Some "[Errno 32] Broken pipe"] [] [] [] [])
    = Some (Ret (("rro", "Unknown code") :: rest),
            OBD (Some Sock) true true None None,
            log (EvDtc (("rro", "Unknown code") :: rest))
                (log (on_wire CMD_READ_DTC)
                   (set_sends []
                      (World [] [Some "[Errno 32] Broken pipe"] [] [] [] [])))).
Proof.
  apply (read_dtc_decodes_error_text (OBD (Some Sock) true true None None)
           (World [] [Some "[Errno 32] Broken pipe"] [] [] [] [])
           "[Errno 32] Broken pipe" []);
    first [reflexivity | discriminate].
Defined.

(** ** The framer *)

(** An exchange whose first chunks arrive in time and bring no prompt, up
    to the round after them. *)
Lemma send_command_gathers
    (command : string) (self : obd) (w : world) (start t : float)
    (times : list float) (chunks : list string)
    (sl : list (option string)) (cl : list float) (rl : list recv_result) :
  socket self <> None ->
  sends w = None :: sl ->
  clock w = (start :: times ++ t :: cl)%list ->
  recvs w = (map Chunk chunks ++ rl)%list ->
  List.length times = List.length chunks ->
  Forall (fun t => in_time start t = true) times ->
  Forall (fun c => c <> "") chunks ->
  Py.contains ">" (accumulated chunks) = false ->
  send_command command self w
  = match recv_loop (S (S (List.length cl))) start (accumulated chunks) self
            (World (connects w) sl rl (t :: cl) (others w)
                   (trace w ++ [on_wire command])) with
    | Some (Ret response, self', w') =>
        Some (Ret (clean_response (command ++ String CR "") response), self', w')
    | Some (Exc msg, self', w') => Some (Ret ("Error: " ++ msg), self', w')
    | None => None
    end.
Proof.
  intros Hs Hsl Hcl Hrl Hlen Htimes Hchunks Hprompt.
  rewrite (send_command_unfold command self w sl start (times ++ t :: cl) Hs Hsl Hcl).
  rewrite (recv_loop_gathers start self chunks times "" _ _ (t :: cl) rl Hlen);
    try assumption; try reflexivity.
  - rewrite length_app. cbn [List.length].
    replace (S (List.length times + S (List.length cl)) - List.length chunks)%nat
      with (S (S (List.length cl))) by lia.
    reflexivity.
  - rewrite length_app. cbn [List.length]. lia.
Qed.

(** X10: the reply that ends in a prompt.  On a link with a socket, when
    chunks arrive in time without a prompt and the next chunk, in time
    too, brings the prompt, the exchange returns all the bytes received,
    cleaned; it reads neither the socket nor the clock again. *)
Theorem send_command_prompt
    (command : string) (self : obd) (w : world) (start t : float)
    (times : list float) (chunks : list string) (last_chunk : string)
    (sl : list (option string)) (cl : list float) (rl : list recv_result) :
  socket self <> None ->
  sends w = None :: sl ->
  clock w = (start :: times ++ t :: cl)%list ->
  recvs w = (map Chunk chunks ++ Chunk last_chunk :: rl)%list ->
  List.length times = List.length chunks ->
  Forall (fun t => in_time start t = true) times ->
  in_time start t = true ->
  Forall (fun c => c <> "") chunks ->
  Py.contains ">" (accumulated chunks) = false ->
  Py.contains ">" last_chunk = true ->
  send_command command self w
  = Some (Ret (clean_response (command ++ String CR "")
                 (accumulated chunks ++ last_chunk)),
          self,
          World (connects w) sl rl cl (others w)
                (trace w ++ [on_wire command])).
Proof.
  intros Hs Hsl Hcl Hrl Hlen Htimes Ht Hchunks Hno Hlast.
  rewrite (send_command_gathers command self w start t times chunks sl cl
             (Chunk last_chunk :: rl) Hs Hsl Hcl Hrl Hlen Htimes Hchunks Hno).
  cbn [recv_loop]. rewrite Hno. cbn [negb].
  unfold bind at 1. unfold time_time. cbn [clock].
  unfold in_time in Ht. rewrite Ht.
  unfold bind at 1. unfold sock_recv. cbn [recvs set_clock].
  destruct (String.eqb_spec last_chunk "") as [E|_];
    [rewrite E in Hlast; discriminate Hlast|].
  assert (Hp : Py.contains ">" (accumulated chunks ++ last_chunk) = true)
    by (rewrite contains_char_app, Hlast; apply orb_true_r).
  rewrite Hp. reflexivity.
Qed.

Lemma send_command_prompt_witness :
  send_command "010D" (OBD (Some Sock) true false None None)
    (World [] [None]
           [Chunk ("010D" ++ String CR "41 0D"); Chunk (" 3C" ++ String CR ">")]
           [1; 1.5; 1.75]%float [] [])
  = Some (Ret "41 0D 3C", OBD (Some Sock) true false None None,
          World [] [] [] [] [] [on_wire "010D"]).
Proof.
  apply (send_command_prompt "010D" (OBD (Some Sock) true false None None)
           (World [] [None]
              [Chunk ("010D" ++ String CR "41 0D"); Chunk (" 3C" ++ String CR ">")]
              [1; 1.5; 1.75]%float [] [])
           1%float 1.75%float [1.5]%float
           ["010D" ++ String CR "41 0D"] (" 3C" ++ String CR ">") [] [] []);
    try reflexivity; try discriminate; repeat constructor; discriminate.
Defined.

(** X11: the peer that closes.  On a link with a socket, when chunks
    arrive in time without a prompt and the next [recv], in time too,
    returns no bytes, the exchange returns the bytes received so far,
    cleaned, and not an error. *)
Theorem send_command_peer_closed
    (command : string) (self : obd) (w : world) (start t : float)
    (times : list float) (chunks : list string)
    (sl : list (option string)) (cl : list float) (rl : list recv_result) :
  socket self <> None ->
  sends w = None :: sl ->
  clock w = (start :: times ++ t :: cl)%list ->
  recvs w = (map Chunk chunks ++ Chunk "" :: rl)%list ->
  List.length times = List.length chunks ->
  Forall (fun t => in_time start t = true) times ->
  in_time start t = true ->
  Forall (fun c => c <> "") chunks ->
  Py.contains ">" (accumulated chunks) = false ->
  send_command command self w
  = Some (Ret (clean_response (command ++ String CR "") (accumulated chunks)),
          self,
          World (connects w) sl rl cl (others w)
                (trace w ++ [on_wire command])).
Proof.
  intros Hs Hsl Hcl Hrl Hlen Htimes Ht Hchunks Hno.
  rewrite (send_command_gathers command self w start t times chunks sl cl
             (Chunk "" :: rl) Hs Hsl Hcl Hrl Hlen Htimes Hchunks Hno).
  cbn [recv_loop]. rewrite Hno. cbn [negb].
  unfold bind at 1. unfold time_time. cbn [clock].
  unfold in_time in Ht. rewrite Ht. reflexivity.
Qed.

Lemma send_command_peer_closed_witness :
  send_command "010D" (OBD (Some Sock) true false None None)
    (World [] [None] [Chunk "41 0D 3C"; Chunk ""] [1; 1.5; 1.75]%float [] [])
  = Some (Ret "41 0D 3C", OBD (Some Sock) true false None None,
          World [] [] [] [] [] [on_wire "010D"]).
Proof.
  apply (send_command_peer_closed "010D" (OBD (Some Sock) true false None None)
           (World [] [None] [Chunk "41 0D 3C"; Chunk ""]
              [1; 1.5; 1.75]%float [] [])
           1%float 1.75%float [1.5]%float ["41 0D 3C"] [] [] []);
    try reflexivity; try discriminate; repeat constructor; discriminate.
Defined.


Lemma has_char_empty (ch : ascii) : Py.contains (String ch "") "" = false.
Proof. reflexivity. Qed.












(** Once the clock is past the deadline after some tests in time, the
    loop ends by then, if the socket has answered each [recv]. *)
Lemma recv_loop_ends (start late : float) (self : obd) (cl : list float) :
  in_time start late = false ->
  forall (times : list float) (acc : string) (fuel : nat) (w : world),
    clock w = (times ++ late :: cl)%list ->
    Forall (fun t => in_time start t = true) times ->
    (List.length times <= List.length (recvs w))%nat ->
    (List.length times < fuel)%nat ->
    exists (o : outcome string) (w' : world),
      recv_loop fuel start acc self w = Some (o, self, w')
      /\ (List.length cl <= List.length (clock w'))%nat
      /\ (List.length (recvs w) <= List.length (recvs w') + List.length times)%nat.
Proof.
  intros Hlate. induction times as [|t times IH];
    intros acc fuel w Hcl Htimes Hrecvs Hfuel;
    (destruct fuel as [|fuel]; [cbn in Hfuel; lia|]); cbn [recv_loop].
  - destruct (negb (Py.contains ">" acc)).
    + unfold bind, time_time. rewrite Hcl. cbn [app].
      unfold in_time in Hlate. rewrite Hlate.
      eexists _, _. split; [reflexivity|]. cbn [clock recvs set_clock List.length]. lia.
    + eexists _, _. split; [reflexivity|]. rewrite Hcl. cbn [app List.length]. lia.
  - cbn [List.length] in *. apply Forall_cons in Htimes as [Ht Htimes].
    destruct (negb (Py.contains ">" acc)).
    + unfold bind at 1. unfold time_time. rewrite Hcl. cbn [app].
      unfold in_time in Ht. rewrite Ht.
      unfold bind at 1. unfold sock_recv. cbn [recvs set_clock].
      destruct (recvs w) as [|[data|msg] rl] eqn:Hrl; [cbn in Hrecvs; lia| |].
      * destruct (String.eqb data "").
        -- eexists _, _. split; [reflexivity|].
           cbn [clock recvs set_clock set_recvs List.length].
           rewrite length_app. cbn [List.length]. lia.
        -- destruct (IH (acc ++ data) fuel
                       (set_recvs rl (set_clock (times ++ late :: cl) w)))
             as (o & w' & E & Hc & Hr);
             [reflexivity | assumption | cbn in *; lia | lia |].
           exists o, w'. split; [exact E|]. cbn in Hr. cbn [List.length]. lia.
      * eexists _, _. split; [reflexivity|].
        cbn [clock recvs set_clock set_recvs List.length].
        rewrite length_app. cbn [List.length]. lia.
    + eexists _, _. split; [reflexivity|]. rewrite Hcl.
      rewrite length_app. cbn [List.length]. lia.
Qed.

(** X13: the wait of an exchange is bounded by the clock.  On a link with
    a socket, if the clock is past the deadline at the test that follows
    [k] tests in time, and the socket answers the [recv] calls made, the
    exchange returns a string after at most [k] calls of [recv], and it
    does not read the clock beyond that test. *)
Theorem send_command_bounded_wait
    (command : string) (self : obd) (w : world) (start late : float)
    (times : list float) (outcome_of_send : option string)
    (sl : list (option string)) (cl : list float) :
  socket self <> None ->
  sends w = outcome_of_send :: sl ->
  clock w = (start :: times ++ late :: cl)%list ->
  Forall (fun t => in_time start t = true) times ->
  in_time start late = false ->
  (List.length times <= List.length (recvs w))%nat ->
  exists (response : string) (w' : world),
    send_command command self w = Some (Ret response, self, w')
    /\ (List.length cl <= List.length (clock w'))%nat
    /\ (List.length (recvs w) <= List.length (recvs w') + List.length times)%nat.
Proof.
  intros Hs Hsl Hcl Htimes Hlate Hrecvs.
  destruct outcome_of_send as [msg|].
  - rewrite (send_command_send_raises command self w msg sl Hs Hsl).
    eexists _, _. split; [reflexivity|].
    cbn [clock recvs log set_sends]. rewrite Hcl. cbn [List.length].
    rewrite length_app. cbn [List.length]. lia.
  - rewrite (send_command_unfold command self w sl start _ Hs Hsl Hcl).
    destruct (recv_loop_ends start late self cl Hlate times ""
                (S (List.length (times ++ late :: cl)))
                (set_clock (times ++ late :: cl)
                   (log (on_wire command) (set_sends sl w))))
      as (o & w' & E & Hc & Hr);
      [reflexivity | assumption | exact Hrecvs
      | rewrite length_app; cbn [List.length]; lia |].
    rewrite E. cbn in Hr.
    destruct o as [response|msg]; eexists _, _; (split; [reflexivity|]); lia.
Qed.

Lemma send_command_bounded_wait_witness :
  exists (response : string) (w' : world),
    send_command "010D" (OBD (Some Sock) true false None None)
      (World [] [None] [Chunk "41"; Chunk " 0D"; Chunk " 3C"]
             [1; 1.5; 2; 3.5; 4]%float [] [])
    = Some (Ret response, OBD (Some Sock) true false None None, w')
    /\ (List.length [4%float] <= List.length (clock w'))%nat
    /\ (List.length [Chunk "41"; Chunk " 0D"; Chunk " 3C"]
        <= List.length (recvs w') + List.length [1.5; 2]%float)%nat.
Proof.
  apply (send_command_bounded_wait "010D" (OBD (Some Sock) true false None None)
           (World [] [None] [Chunk "41"; Chunk " 0D"; Chunk " 3C"]
                  [1; 1.5; 2; 3.5; 4]%float [] [])
           1%float 3.5%float [1.5; 2]%float None [] [4%float]);
    try reflexivity; try discriminate.
  - repeat constructor.
  - cbn. lia.
Defined.

(** ** The session initialiser *)

Lemma exchanges_app_inv (self : obd) (first second : list string) :
  forall (w w'' : world) (responses : list string),
    exchanges self (first ++ second) w responses w'' ->
    exists (r1 r2 : list string) (w' : world),
      responses = (r1 ++ r2)%list
      /\ exchanges self first w r1 w' /\ exchanges self second w' r2 w''.
Proof.
  induction first as [|c first IH]; intros w w'' responses H.
  - exists [], responses, w. repeat split; [constructor | exact H].
  - cbn [app] in H.
    apply exchanges_cons_inv in H as (r & rest & w1 & -> & Hc & H).
    apply IH in H as (r1 & r2 & w' & -> & H1 & H2).
    exists (r :: r1), r2, w'. repeat split; [econstructor; eassumption | exact H2].
Qed.

(** X14: with no profile selected, the initialiser sends the five setup
    commands, the automatic protocol selection and the query of the
    protocol in use, these seven and no more; it keeps the answer to the
    last in [protocol_detected] and in the log, and reports success. *)
Theorem session_without_profile (self : obd) (w w2 : world)
    (l : list connect_result) (r1 r2 r3 r4 r5 r6 detected : string) :
  profile_selected self = None ->
  connects w = Connects :: l ->
  exchanges (set_socket (Some Sock) self)
            (setup_commands ++ [CMD_AUTO_PROTOCOL; "ATDP"])
            (log EvConnect (set_connects l w))
            [r1; r2; r3; r4; r5; r6; detected] w2 ->
  connect_obd self w
  = Some (Ret true,
          set_is_connected true
            (set_protocol_detected (Some detected) (set_socket (Some Sock) self)),
          log (EvConnected true
                 (join (String LF "")
                    ["Reset: " ++ r1; "Version: " ++ r2; "Protocol: " ++ detected]))
              w2)
  /\ trace w2
     = (trace w ++ EvConnect
        :: map on_wire (setup_commands ++ [CMD_AUTO_PROTOCOL; "ATDP"]))%list.
Proof.
  intros Hsel Hconn Hex.
  assert (Hs : socket (set_socket (Some Sock) self) <> None) by discriminate.
  split.
  - change (setup_commands ++ [CMD_AUTO_PROTOCOL; "ATDP"])%list
      with ((setup_commands ++ [CMD_AUTO_PROTOCOL]) ++ ["ATDP"])%list in Hex.
    apply exchanges_app_inv in Hex as (first & second & w1 & E & H1 & H2).
    apply exchanges_cons_inv in H2 as (d & ? & w3 & -> & Hd & H2).
    apply exchanges_nil_inv in H2 as [-> Ew]. subst w3.
    destruct (exchanges_trace _ _ Hs _ _ _ H1) as [_ Hlen].
    destruct first as [|a1 [|a2 [|a3 [|a4 [|a5 [|a6 [|]]]]]]]; try discriminate Hlen.
    injection E as <- <- <- <- <- <- <-.
    apply (connect_obd_succeeds self w w1 w1 w2 l CMD_AUTO_PROTOCOL
             r1 r2 r3 r4 r5 r6 detected []); try assumption.
    + unfold select_command. now rewrite Hsel.
    + unfold retry_commands. rewrite Hsel. constructor.
  - destruct (exchanges_trace _ _ Hs _ _ _ Hex) as [E _].
    rewrite E. cbn [trace log]. now rewrite <- app_assoc.
Qed.

Lemma session_without_profile_witness :
  connect_obd init_obd
    (World [Connects] (repeat None 7)
       [ reply "ELM327 v1.5"; reply "ELM327 v1.5"; reply "OK"; reply "OK";
         reply "OK"; reply "OK"; reply "AUTO, ISO 15765-4 (CAN 11/500)" ]
       (repeat 1%float 14) [] [])
  = Some (Ret true,
          OBD (Some Sock) true false None (Some "AUTO, ISO 15765-4 (CAN 11/500)"),
          log (EvConnected true
                 (join (String LF "")
                    ["Reset: ELM327 v1.5"; "Version: ELM327 v1.5";
                     "Protocol: AUTO, ISO 15765-4 (CAN 11/500)"]))
              (World [] [] [] [] []
                 (EvConnect
                  :: map on_wire (setup_commands ++ [CMD_AUTO_PROTOCOL; "ATDP"])))).
Proof.
  refine (proj1 (session_without_profile init_obd _ _ [] "ELM327 v1.5"
                   "ELM327 v1.5" "OK" "OK" "OK" "OK"
                   "AUTO, ISO 15765-4 (CAN 11/500)" _ _ _)).
  - reflexivity.
  - reflexivity.
  - cbn [setup_commands app]. run_exchanges.
Defined.

(** X15: a profile that the table does not hold.  With such a profile
    selected, the initialiser opens the socket and sends the five setup
    commands; the lookup of the profile then fails, and the session ends
    as a failed connection: failure is signalled with the text of the
    error, the socket is closed and dropped, the link is marked as not
    connected, and no protocol command is sent. *)
Theorem session_unknown_profile (self : obd) (w w2 : world)
    (l : list connect_result) (name : string) (responses : list string) :
  profile_selected self = Some name ->
  VEHICLE_PROFILES !! name = None ->
  connects w = Connects :: l ->
  exchanges (set_socket (Some Sock) self) setup_commands
            (log EvConnect (set_connects l w)) responses w2 ->
  exists msg : string,
    connect_obd self w
    = Some (Ret false,
            set_socket None (set_is_connected false (set_socket (Some Sock) self)),
            log EvClose (log (EvConnected false ("Connection error: " ++ msg)) w2))
    /\ trace w2 = (trace w ++ EvConnect :: map on_wire setup_commands)%list.
Proof.
  intros Hsel Hp Hconn Hex.
  assert (Hs : socket (set_socket (Some Sock) self) <> None) by discriminate.
  exists ("'" ++ name ++ "'"). split.
  - unfold setup_commands in Hex. split_exchanges.
    unfold connect_obd, try_except.
    assert (Hopen : open_socket self w
                    = Some (Ret tt, set_socket (Some Sock) self,
                            log EvConnect (set_connects l w)))
      by (unfold open_socket; now rewrite Hconn).
    mexchange Hopen. mrun.
    change (profile_selected (set_socket (Some Sock) self))
      with (profile_selected self).
    rewrite Hsel. unfold lookup_profile. rewrite Hp. mrun.
    cbn [socket set_socket set_is_connected]. unfold sock_close. mrun.
    reflexivity.
  - destruct (exchanges_trace _ _ Hs _ _ _ Hex) as [E _].
    rewrite E. cbn [trace log]. now rewrite <- app_assoc.
Qed.

Lemma session_unknown_profile_witness :
  exists msg : string,
    connect_obd (OBD None false false (Some "Auto Detect") None)
      (World [Connects] (repeat None 5)
         [ reply "ELM327 v1.5"; reply "ELM327 v1.5"; reply "OK"; reply "OK";
           reply "OK" ]
         (repeat 1%float 10) [] [])
    = Some (Ret false,
            set_socket None
              (set_is_connected false
                 (set_socket (Some Sock)
                    (OBD None false false (Some "Auto Detect") None))),
            log EvClose
              (log (EvConnected false ("Connection error: " ++ msg))
                 (World [] [] [] [] [] (EvConnect :: map on_wire setup_commands))))
    /\ trace (World [] [] [] [] [] (EvConnect :: map on_wire setup_commands))
       = (trace (World [Connects] (repeat None 5)
                   [ reply "ELM327 v1.5"; reply "ELM327 v1.5"; reply "OK";
                     reply "OK"; reply "OK" ]
                   (repeat 1%float 10) [] [])
          ++ EvConnect :: map on_wire setup_commands)%list.
Proof.
  apply (session_unknown_profile (OBD None false false (Some "Auto Detect") None)
           _ _ [] "Auto Detect"
           ["ELM327 v1.5"; "ELM327 v1.5"; "OK"; "OK"; "OK"]).
  - reflexivity.
  - vm_compute. reflexivity.
  - reflexivity.
  - unfold setup_commands. run_exchanges.
Defined.

Lemma bind_none {A B} (m : M A) (k : A -> M B) (self : obd) (w : world) :
  m self w = None -> bind m k self w = None.
Proof. intros H. unfold bind. now rewrite H. Qed.

(** Takes the exchange at the head of the computation in the goal apart:
    either the script runs out, or the exchange returns a response and
    leaves its command in the trace. *)
Ltac minvert_exchange Hs :=
  match goal with
  | |- context [bind (send_command ?c) ?k ?s ?w0] =>
      let E := fresh "E" in
      let T := fresh "T" in
      let o := fresh "o" in
      let s1 := fresh "s" in
      let w1 := fresh "w" in
      let r := fresh "r" in
      destruct (send_command c s w0) as [[[o s1] w1]|] eqn:E;
      [ pose proof (send_command_frame _ _ _ _ _ _ Hs E) as (-> & [r ->] & T & _);
        rewrite (bind_result _ _ _ _ _ _ _ E); cbv beta iota zeta
      | rewrite (bind_none _ _ _ _ E); intros ?; discriminate ]
  end.

Ltac trace_back :=
  cbn [trace log set_connects];
  repeat match goal with
    | T : trace ?x = (trace _ ++ _)%list |- context [trace ?x] =>
        rewrite T; cbn [trace log set_connects]
    end;
  rewrite ?List.filter_app; cbn [List.filter is_status on_wire];
  rewrite ?app_nil_r.

(** X16: what a call of [connect_obd] leaves.  Whenever it returns, it
    returns a truth value and raises nothing; the link's flag is that
    value; the link holds a socket if the value is true and none if it is
    false; and the call has emitted one connection signal, which carries
    the same value. *)
Theorem connect_obd_outcome (self self' : obd) (w w' : world)
    (o : outcome bool) :
  connect_obd self w = Some (o, self', w') ->
  exists (b : bool) (msg : string),
    o = Ret b
    /\ is_connected self' = b
    /\ socket self' = (if b then Some Sock else None)
    /\ List.filter is_status (trace w')
       = (List.filter is_status (trace w) ++ [EvConnected b msg])%list.
Proof.
  assert (Hs : forall s : obd, socket (set_socket (Some Sock) s) <> None)
    by discriminate.
  unfold connect_obd, try_except. unfold bind at 1. unfold open_socket.
  destruct (connects w) as [|[|msg|msg] l] eqn:Hconn.
  - discriminate.
  - (* the socket is connected *)
    repeat minvert_exchange (Hs self).
    mstep.
    change (profile_selected (set_socket (Some Sock) self))
      with (profile_selected self).
    destruct (profile_selected self) as [name|].
    + unfold lookup_profile.
      destruct (VEHICLE_PROFILES !! name) as [p|].
      * repeat mstep. minvert_exchange (Hs self). repeat mstep.
        destruct (negb (Py.contains "OK" r4));
          repeat first [mstep | minvert_exchange (Hs self)];
          unfold ret; cbv beta iota;
          intros [= <- <- <-]; exists true; eexists;
          (split; [reflexivity|]); (split; [reflexivity|]);
          (split; [reflexivity|]); trace_back; reflexivity.
      * repeat mstep. cbn [socket set_socket set_is_connected].
        unfold sock_close. repeat mstep. unfold ret; cbv beta iota.
        intros [= <- <- <-]. exists false. eexists.
        (split; [reflexivity|]); (split; [reflexivity|]);
        (split; [reflexivity|]). trace_back. reflexivity.
    + repeat first [mstep | minvert_exchange (Hs self)].
      unfold ret; cbv beta iota.
      intros [= <- <- <-]. exists true. eexists.
      (split; [reflexivity|]); (split; [reflexivity|]);
      (split; [reflexivity|]). trace_back. reflexivity.
  - (* socket.socket raises *)
    repeat mstep. cbn [socket set_is_connected].
    destruct (socket self) as [s|] eqn:Hsock; unfold sock_close; repeat mstep;
      unfold ret; cbv beta iota;
      intros [= <- <- <-]; exists false; eexists;
      (split; [reflexivity|]);
      cbn [is_connected socket set_socket set_is_connected]; rewrite ?Hsock;
      (split; [reflexivity|]); (split; [reflexivity|]);
      trace_back; reflexivity.
  - (* connect raises *)
    repeat mstep. cbn [socket set_is_connected set_socket].
    unfold sock_close. repeat mstep. unfold ret; cbv beta iota.
    intros [= <- <- <-]. exists false. eexists.
    (split; [reflexivity|]); (split; [reflexivity|]);
    (split; [reflexivity|]). trace_back. reflexivity.
Qed.

Lemma connect_obd_outcome_witness :
  exists (b : bool) (msg : string),
    Ret true = Ret b
    /\ is_connected (OBD (Some Sock) true false (Some "Fiat 500 Series 1")
                         (Some "ISO 9141-2")) = b
    /\ socket (OBD (Some Sock) true false (Some "Fiat 500 Series 1")
                   (Some "ISO 9141-2"))
       = (if b then Some Sock else None)
    /\ List.filter is_status
         (trace (log (EvConnected true fiat_log) (fiat_session_after 8)))
       = (List.filter is_status (trace fiat_session) ++ [EvConnected b msg])%list.
Proof.
  apply (connect_obd_outcome fiat_link _ fiat_session _ (Ret true)).
  vm_compute. reflexivity.
Defined.

(** X17: disconnecting.  [disconnect_obd] always returns; it leaves the
    link without a socket, marked as not connected and not running; it
    closes the socket once if there was one and does nothing else.  After
    it, a second [disconnect_obd] changes nothing and closes nothing,
    [send_command] returns "Not connected", and [read_dtc] and
    [clear_dtc] return the empty list and [False], all without a byte on
    the wire. *)
Theorem disconnect_obd_final (self : obd) (w : world) (command : string) :
  exists (self' : obd) (w' : world),
    disconnect_obd self w = Some (Ret tt, self', w')
    /\ socket self' = None /\ is_connected self' = false
    /\ running self' = false
    /\ trace w' = (trace w ++ match socket self with
                              | Some _ => [EvClose]
                              | None => []
                              end)%list
    /\ disconnect_obd self' w' = Some (Ret tt, self', w')
    /\ send_command command self' w' = Some (Ret "Not connected", self', w')
    /\ read_dtc self' w' = Some (Ret [], self', w')
    /\ clear_dtc self' w' = Some (Ret false, self', w').
Proof.
  unfold disconnect_obd at 1.
  repeat mstep. cbn [socket set_running].
  destruct (socket self) as [s|] eqn:Hsock; unfold sock_close; repeat mstep;
    eexists _, _; (split; [reflexivity|]);
    cbn [socket is_connected running set_socket set_is_connected set_running
         trace log]; rewrite ?Hsock, ?app_nil_r;
    refine (conj eq_refl (conj eq_refl (conj eq_refl (conj eq_refl
              (conj _ (conj _ (conj _ _)))))));
    try (apply send_command_no_socket; cbn; now rewrite ?Hsock);
    try (apply read_dtc_not_connected; now left);
    try (apply clear_dtc_not_connected; now left).
  - unfold disconnect_obd. repeat mstep. reflexivity.
  - unfold disconnect_obd. repeat mstep.
    cbn [socket set_running set_is_connected]. rewrite Hsock.
    repeat mstep. reflexivity.
Qed.

(** ** The polling loop *)

Lemma exchanges_others (self : obd) (commands : list string) :
  socket self <> None ->
  forall (w w' : world) (responses : list string),
    exchanges self commands w responses w' -> others w' = others w.
Proof.
  intros Hs. induction commands as [|c commands IH]; intros w w' responses H.
  - now apply exchanges_nil_inv in H as [_ ->].
  - apply exchanges_cons_inv in H as (r & rest & w1 & -> & Hc & H).
    apply (send_command_frame _ _ _ _ _ _ Hs) in Hc as (_ & _ & _ & _ & Ho).
    apply IH in H. congruence.
Qed.

(** X18: the loop on a link that is not connected.  If the link is not
    marked as connected when [run] starts, and no other thread steps in,
    [run] returns at once: it sends nothing and emits nothing, and leaves
    the link not running. *)
Theorem run_not_connected (self : obd) (w : world) (l : list bool) :
  is_connected self = false ->
  others w = false :: l ->
  run self w
  = Some (Ret tt, set_running false (set_running true self), set_others l w)
  /\ trace (set_others l w) = trace w.
Proof.
  intros Hc Ho. split; [|reflexivity].
  unfold run. repeat mstep. rewrite Ho. cbn [List.length run_loop].
  assert (Hother : other_threads (set_running true self) w
                   = Some (Ret tt, set_running true self, set_others l w))
    by (unfold other_threads; now rewrite Ho).
  repeat mstep. mexchange Hother. repeat mstep.
  cbn [running is_connected set_running]. rewrite Hc. cbn [andb].
  repeat mstep. reflexivity.
Qed.

Lemma run_not_connected_witness :
  run init_obd (World [] [] [] [] [false] [])
  = Some (Ret tt, set_running false (set_running true init_obd),
          set_others [] (World [] [] [] [] [false] []))
  /\ trace (set_others [] (World [] [] [] [] [false] []))
     = trace (World [] [] [] [] [false] []).
Proof.
  apply (run_not_connected init_obd (World [] [] [] [] [false] []) []);
    reflexivity.
Defined.

(** The loop along rounds that end well. *)
Lemma run_loop_rounds (self : obd) (requests : list (string * string)) :
  cycle_requests self = Some requests ->
  running self = true ->
  is_connected self = true ->
  socket self <> None ->
  forall (snapshots : list snapshot) (w w1 : world),
    rounds self requests snapshots w w1 ->
    (forall fuel : nat,
        run_loop (List.length snapshots + fuel) self w = run_loop fuel self w1)
    /\ List.filter is_data (trace w1)
       = (List.filter is_data (trace w) ++ map EvData snapshots)%list
    /\ List.length (others w)
       = (List.length snapshots + List.length (others w1))%nat.
Proof.
  intros Hreq Hr Hc Hs snapshots w w1 H.
  induction H as [w | l responses w w1 snapshots w2 Ho Hex Hrounds IH].
  - repeat split. cbn [map]. now rewrite app_nil_r.
  - destruct IH as (IHloop & IHdata & IHothers).
    destruct (poll_cycle_requests self _ _ _ _ Hreq Hex) as [Hpoll _].
    destruct (exchanges_trace self _ Hs _ _ _ Hex) as [Htrace _].
    pose proof (exchanges_others self _ Hs _ _ _ Hex) as Hothers.
    refine (conj _ (conj _ _)).
    + intros fuel. cbn [List.length Nat.add].
      rewrite (run_loop_round _ self w _ l Ho Hr Hc Hpoll). apply IHloop.
    + rewrite IHdata. cbn [trace log]. rewrite Htrace.
      rewrite !List.filter_app, no_data_on_wire. cbn [List.filter is_data map trace set_others].
      rewrite app_nil_r, <- !app_assoc. reflexivity.
    + cbn [others log set_others] in IHothers, Hothers.
      rewrite Hothers in IHothers. rewrite Ho. cbn [List.length]. lia.
Qed.

(** X19: the loop until another thread disconnects.  On a connected link
    with a socket, if the rounds end well, once for each snapshot of the
    list, and another thread then calls [disconnect_obd], [run] returns:
    it has emitted these snapshots, one for each round and in order, and
    no other; after the disconnection it sends nothing; and it leaves the
    link not running, not connected and without a socket. *)
Theorem run_until_disconnected (self : obd) (w w1 : world)
    (requests : list (string * string)) (snapshots : list snapshot)
    (l : list bool) :
  is_connected self = true ->
  socket self <> None ->
  cycle_requests self = Some requests ->
  rounds (set_running true self) requests snapshots w w1 ->
  others w1 = true :: l ->
  exists (self' : obd) (w' : world),
    run self w = Some (Ret tt, self', w')
    /\ running self' = false /\ is_connected self' = false
    /\ socket self' = None
    /\ trace w' = (trace w1 ++ [EvClose])%list
    /\ List.filter is_data (trace w')
       = (List.filter is_data (trace w) ++ map EvData snapshots)%list.
Proof.
  intros Hc Hs Hreq Hrounds Ho.
  destruct (run_loop_rounds (set_running true self) requests Hreq eq_refl Hc Hs
              snapshots w w1 Hrounds) as (Hloop & Hdata & Hothers).
  destruct (socket self) as [s|] eqn:Hsock; [|congruence].
  eexists _, _. split.
  - unfold run. repeat mstep. rewrite Hothers, Ho. cbn [List.length].
    rewrite <- Nat.add_succ_r. unfold bind at 1. rewrite Hloop.
    cbn [run_loop].
    assert (Hother : other_threads (set_running true self) w1
                     = disconnect_obd (set_running true self) (set_others l w1))
      by (unfold other_threads; now rewrite Ho).
    unfold bind at 1. rewrite Hother. unfold disconnect_obd. repeat mstep.
    cbn [socket set_running]. rewrite Hsock. unfold sock_close. repeat mstep.
    cbn [running is_connected set_running set_socket set_is_connected andb].
    repeat mstep. reflexivity.
  - cbn [running is_connected socket set_running set_socket set_is_connected
         trace log set_others].
    refine (conj eq_refl (conj eq_refl (conj eq_refl (conj eq_refl _)))).
    rewrite List.filter_app, Hdata. cbn [List.filter is_data].
    now rewrite app_nil_r.
Qed.

Lemma run_until_disconnected_witness :
  exists (self' : obd) (w' : world),
    run fiat_polling
        (World [] (repeat None 7) (map reply fiat_answers) (repeat 1%float 14)
               [false; true] [])
    = Some (Ret tt, self', w')
    /\ running self' = false /\ is_connected self' = false
    /\ socket self' = None
    /\ trace w'
       = (trace (log (EvSleep 0.5%float) (log (EvData fiat_snapshot)
                   (World [] [] [] [] [true]
                      (map on_wire (map snd fiat_requests)))))
          ++ [EvClose])%list
    /\ List.filter is_data (trace w')
       = (List.filter is_data
            (trace (World [] (repeat None 7) (map reply fiat_answers)
                      (repeat 1%float 14) [false; true] []))
          ++ map EvData [decoded fiat_requests fiat_answers])%list.
Proof.
  apply (run_until_disconnected fiat_polling _ _ fiat_requests
           [decoded fiat_requests fiat_answers] []).
  - reflexivity.
  - discriminate.
  - vm_compute. reflexivity.
  - eapply (rounds_cons _ _ [true] fiat_answers);
      [reflexivity
      | cbn [map fiat_requests snd]; unfold fiat_answers; run_exchanges
      | apply rounds_nil].
  - reflexivity.
Defined.

(** X20: polling with a profile that the table does not hold.  A round
    of the loop then sends the five standard requests, finds no profile,
    and emits no snapshot: it prints the error, sleeps one second, and
    the loop goes on. *)
Theorem polling_unknown_profile (self : obd) (w w' : world) (name : string)
    (responses : list string) :
  profile_selected self = Some name ->
  VEHICLE_PROFILES !! name = None ->
  is_connected self = true ->
  socket self <> None ->
  exchanges self (map snd standard_requests) w responses w' ->
  exists text : string,
    run_round self w
    = Some (Ret true, self, log (EvSleep 1%float) (log (EvPrint text) w'))
    /\ List.filter is_data
         (trace (log (EvSleep 1%float) (log (EvPrint text) w')))
       = List.filter is_data (trace w)
    /\ trace w' = (trace w ++ map on_wire (map snd standard_requests))%list.
Proof.
  intros Hsel Hp Hc Hs Hex.
  destruct (exchanges_trace self _ Hs _ _ _ Hex) as [Htrace _].
  eexists. refine (conj _ (conj _ Htrace)).
  - cbn [map standard_requests snd] in Hex. split_exchanges.
    unfold run_round, try_except, poll_cycle. mrun.
    rewrite Hsel. unfold lookup_profile. rewrite Hp. mrun.
    rewrite Hc. cbn [negb]. mrun. reflexivity.
  - cbn [trace log]. rewrite Htrace, !List.filter_app, no_data_on_wire.
    cbn [List.filter is_data]. now rewrite !app_nil_r.
Qed.

Lemma polling_unknown_profile_witness :
  exists text : string,
    run_round (OBD (Some Sock) true true (Some "Auto Detect") None)
      (World [] (repeat None 5) (map reply (take 5 fiat_answers))
             (repeat 1%float 10) [] [])
    = Some (Ret true, OBD (Some Sock) true true (Some "Auto Detect") None,
            log (EvSleep 1%float)
              (log (EvPrint text)
                 (World [] [] [] [] []
                    (map on_wire (map snd standard_requests)))))
    /\ List.filter is_data
         (trace (log (EvSleep 1%float)
                   (log (EvPrint text)
                      (World [] [] [] [] []
                         (map on_wire (map snd standard_requests))))))
       = List.filter is_data
           (trace (World [] (repeat None 5) (map reply (take 5 fiat_answers))
                     (repeat 1%float 10) [] []))
    /\ trace (World [] [] [] [] [] (map on_wire (map snd standard_requests)))
       = (trace (World [] (repeat None 5) (map reply (take 5 fiat_answers))
                   (repeat 1%float 10) [] [])
          ++ map on_wire (map snd standard_requests))%list.
Proof.
  apply (polling_unknown_profile
           (OBD (Some Sock) true true (Some "Auto Detect") None) _ _
           "Auto Detect" (take 5 fiat_answers)).
  - reflexivity.
  - vm_compute. reflexivity.
  - reflexivity.
  - discriminate.
  - cbn [map standard_requests snd]. cbv [take fiat_answers]. run_exchanges.
Defined.

(** ** The window *)

Lemma existsb_eqb_In (key : string) (l : list string) :
  existsb (String.eqb key) l = true <-> In key l.
Proof.
  rewrite existsb_exists. split.
  - intros (x & Hx & E). apply String.eqb_eq in E. now subst.
  - intros H. exists key. split; [exact H | apply String.eqb_refl].
Qed.

Lemma NoDup_snoc (x : string) (l : list string) :
  NoDup l -> ~ In x l -> NoDup (l ++ [x]).
Proof.
  intros Hl Hx. apply NoDup_app. repeat split.
  - exact Hl.
  - intros y Hy Hin. apply list_elem_of_In in Hy.
    apply list_elem_of_In in Hin. cbn [In] in Hin.
    destruct Hin as [<- | []]. contradiction.
  - apply NoDup_singleton.
Qed.

(** What the inner loop of the export keeps and adds, for any keys. *)
Lemma add_keys_facts (keys : list string) :
  forall fieldnames : list string,
    let fields :=
      fold_left
        (fun fieldnames key =>
           if negb (String.eqb key "timestamp")
              && negb (existsb (String.eqb key) fieldnames)
           then (fieldnames ++ [key])%list else fieldnames)
        keys fieldnames in
    (exists added, fields = (fieldnames ++ added)%list)
    /\ (NoDup fieldnames -> NoDup fields)
    /\ (forall x, In x fields -> In x fieldnames \/ In x keys)
    /\ (In "timestamp" fieldnames -> forall key, In key keys -> In key fields).
Proof.
  induction keys as [|k keys IH]; intros fieldnames; cbn [fold_left].
  - refine (conj _ (conj _ (conj _ _))); auto.
    + exists []. now rewrite app_nil_r.
    + intros _ key [].
  - set (next := if negb (String.eqb k "timestamp")
                    && negb (existsb (String.eqb k) fieldnames)
                 then (fieldnames ++ [k])%list else fieldnames).
    destruct (IH next) as ((added & Hadd) & Hnd & Hin & Hts).
    assert (Hnext : (exists a, next = (fieldnames ++ a)%list)
                    /\ (NoDup fieldnames -> NoDup next)
                    /\ (forall x, In x next -> In x fieldnames \/ x = k)
                    /\ (In "timestamp" fieldnames -> In k next)).
    { subst next. destruct (String.eqb_spec k "timestamp") as [->|Hk];
        cbn [negb andb].
      - refine (conj _ (conj _ (conj _ _))); auto.
        exists []. now rewrite app_nil_r.
      - destruct (existsb (String.eqb k) fieldnames) eqn:E; cbn [negb].
        + apply existsb_eqb_In in E.
          refine (conj _ (conj _ (conj _ _))); auto.
          exists []. now rewrite app_nil_r.
        + assert (Hnot : ~ In k fieldnames).
          { intros H. apply existsb_eqb_In in H. congruence. }
          refine (conj _ (conj _ (conj _ _))).
          * now exists [k].
          * intros H. now apply NoDup_snoc.
          * intros x H. apply in_app_iff in H as [H | [<- | []]]; auto.
          * intros _. apply in_app_iff. right. now left. }
    destruct Hnext as ((a & Ha) & Hnd' & Hin' & Hts').
    refine (conj _ (conj _ (conj _ _))).
    + exists (a ++ added)%list. now rewrite Hadd, Ha, app_assoc.
    + auto.
    + intros x H. apply Hin in H as [H | H]; [|right; now right].
      apply Hin' in H as [H | ->]; [now left | right; now left].
    + intros H key [<- | Hkey].
      * rewrite Hadd. apply in_app_iff. left. now apply Hts'.
      * apply Hts; [|exact Hkey]. rewrite Ha. apply in_app_iff. now left.
Qed.

Lemma export_fieldnames_facts (log_data : list log_entry) :
  forall fieldnames : list string,
    let fields := fold_left add_fieldnames log_data fieldnames in
    (exists added, fields = (fieldnames ++ added)%list)
    /\ (NoDup fieldnames -> NoDup fields)
    /\ (forall x, In x fields ->
        In x fieldnames
        \/ exists entry, In entry log_data /\ In x (map fst entry))
    /\ (In "timestamp" fieldnames ->
        forall entry key, In entry log_data -> In key (map fst entry) ->
                          In key fields).
Proof.
  induction log_data as [|e log_data IH]; intros fieldnames; cbn [fold_left].
  - refine (conj _ (conj _ (conj _ _))); auto.
    + exists []. now rewrite app_nil_r.
    + intros _ entry key [].
  - destruct (add_keys_facts (map fst e) fieldnames)
      as ((a & Ha) & Hnd' & Hin' & Hts').
    fold (add_fieldnames fieldnames e) in Ha, Hnd', Hin', Hts'.
    destruct (IH (add_fieldnames fieldnames e)) as ((added & Hadd) & Hnd & Hin & Hts).
    refine (conj _ (conj _ (conj _ _))).
    + exists (a ++ added)%list. now rewrite Hadd, Ha, app_assoc.
    + auto.
    + intros x H. apply Hin in H as [H | (entry & He & Hx)].
      * apply Hin' in H as [H | H]; [now left|].
        right. exists e. split; [now left | exact H].
      * right. exists entry. split; [now right | exact Hx].
    + intros H entry key [<- | He] Hkey.
      * rewrite Hadd. apply in_app_iff. left. now apply Hts'.
      * apply (Hts ltac:(rewrite Ha; apply in_app_iff; now left) entry key He Hkey).
Qed.

(** X21: the columns of the export.  Whatever the log holds, the field
    names computed for the file start with "timestamp", hold no name
    twice, hold every key of every entry (so that no entry has a key
    without a column), and hold nothing but "timestamp" and keys of
    entries. *)
Theorem export_columns (log_data : list log_entry) :
  (exists rest, export_fieldnames log_data = "timestamp" :: rest)
  /\ NoDup (export_fieldnames log_data)
  /\ (forall entry key,
         In entry log_data -> In key (map fst entry) ->
         In key (export_fieldnames log_data))
  /\ (forall field,
         In field (export_fieldnames log_data) ->
         field = "timestamp"
         \/ exists entry, In entry log_data /\ In field (map fst entry)).
Proof.
  destruct (export_fieldnames_facts log_data ["timestamp"])
    as ((added & Hadd) & Hnd & Hin & Hts).
  fold (export_fieldnames log_data) in Hadd, Hnd, Hin, Hts.
  refine (conj _ (conj _ (conj _ _))).
  - exists added. exact Hadd.
  - apply Hnd, NoDup_singleton.
  - apply Hts. now left.
  - intros field H. apply Hin in H as [[<- | []] | H]; auto.
Qed.

Lemma dict_put_fresh {V : Type} (d : list (string * V)) (k : string) (v : V) :
  ~ In k (map fst d) -> dict_put d k v = (d ++ [(k, v)])%list.
Proof.
  induction d as [|[k' v'] d IH]; intros H; [reflexivity|].
  cbn [dict_put map fst In] in *.
  destruct (String.eqb_spec k k') as [->|_]; [exfalso; auto|].
  rewrite IH by auto. reflexivity.
Qed.

Lemma fold_put_keys (data : snapshot) :
  forall entry : log_entry,
    NoDup (map fst data) ->
    (forall k, In k (map fst data) -> ~ In k (map fst entry)) ->
    map fst (fold_left (fun entry '(key, value) => dict_put entry key (Value value))
                       data entry)
    = (map fst entry ++ map fst data)%list.
Proof.
  induction data as [|[k v] data IH]; intros entry Hnd Hfresh;
    cbn [fold_left map fst].
  - now rewrite app_nil_r.
  - apply NoDup_cons in Hnd as [Hk Hnd].
    rewrite dict_put_fresh by (apply Hfresh; now left).
    rewrite IH; [rewrite map_app, <- app_assoc; reflexivity | exact Hnd |].
    intros k' Hk' Hin. rewrite map_app in Hin.
    apply in_app_iff in Hin as [Hin | [<- | []]].
    + apply (Hfresh k'); [now right | exact Hin].
    + apply Hk. now apply list_elem_of_In.
Qed.

(** A log entry made of a snapshot whose keys are all different and not
    "timestamp": the time stamp, then the keys of the snapshot. *)
Lemma make_log_entry_keys (now : string) (data : snapshot) :
  NoDup (map fst data) -> ~ In "timestamp" (map fst data) ->
  map fst (make_log_entry now data) = "timestamp" :: map fst data.
Proof.
  intros Hnd Hts. unfold make_log_entry. rewrite fold_put_keys; [reflexivity | exact Hnd |].
  intros k Hk [<- | []]. contradiction.
Qed.

Lemma decoded_keys (requests : list (string * string)) :
  forall responses : list string,
    List.length responses = List.length requests ->
    map fst (decoded requests responses) = map fst requests.
Proof.
  unfold decoded.
  induction requests as [|[key pid] requests IH]; intros [|r responses] H;
    try discriminate H; [reflexivity|].
  cbn [zip_with map fst]. f_equal. apply IH. now injection H.
Qed.

(** Keys that are new, all different and not "timestamp" are added in
    order; keys that are fields already, or "timestamp", add nothing. *)
Lemma add_keys_new (keys : list string) :
  forall fieldnames : list string,
    NoDup keys -> ~ In "timestamp" keys ->
    (forall k, In k keys -> ~ In k fieldnames) ->
    fold_left
      (fun fieldnames key =>
         if negb (String.eqb key "timestamp")
            && negb (existsb (String.eqb key) fieldnames)
         then (fieldnames ++ [key])%list else fieldnames)
      keys fieldnames
    = (fieldnames ++ keys)%list.
Proof.
  induction keys as [|k keys IH]; intros fieldnames Hnd Hts Hfresh;
    cbn [fold_left].
  - now rewrite app_nil_r.
  - apply NoDup_cons in Hnd as [Hk Hnd].
    destruct (String.eqb_spec k "timestamp") as [->|_];
      [exfalso; apply Hts; now left|].
    destruct (existsb (String.eqb k) fieldnames) eqn:E.
    + apply existsb_eqb_In in E. exfalso. apply (Hfresh k); [now left | exact E].
    + cbn [negb andb]. rewrite IH; [now rewrite <- app_assoc | exact Hnd | |].
      * intros H. apply Hts. now right.
      * intros k' Hk' Hin. apply in_app_iff in Hin as [Hin | [<- | []]].
        -- apply (Hfresh k'); [now right | exact Hin].
        -- apply Hk. now apply list_elem_of_In.
Qed.

Lemma add_keys_old (keys : list string) :
  forall fieldnames : list string,
    (forall k, In k keys -> k = "timestamp" \/ In k fieldnames) ->
    fold_left
      (fun fieldnames key =>
         if negb (String.eqb key "timestamp")
            && negb (existsb (String.eqb key) fieldnames)
         then (fieldnames ++ [key])%list else fieldnames)
      keys fieldnames
    = fieldnames.
Proof.
  induction keys as [|k keys IH]; intros fieldnames Hold; cbn [fold_left];
    [reflexivity|].
  assert (E : negb (String.eqb k "timestamp")
              && negb (existsb (String.eqb k) fieldnames) = false).
  { destruct (Hold k ltac:(now left)) as [-> | Hin]; [reflexivity|].
    apply existsb_eqb_In in Hin. rewrite Hin. apply andb_false_r. }
  rewrite E. apply IH. intros k' Hk'. apply Hold. now right.
Qed.

(** X22: from the polling cycle to the columns of the export.  When
    every entry of a log that is not empty was made by [update_dashboard]
    from the snapshot of a cycle with the same requests, whose keys are
    all different and not "timestamp", the columns of the export are
    "timestamp" and then the keys of the requests, in the order in which
    the cycle asks for them. *)
Theorem export_of_polled_log (requests : list (string * string))
    (samples : list (string * list string)) :
  NoDup (map fst requests) ->
  ~ In "timestamp" (map fst requests) ->
  samples <> [] ->
  (forall now responses,
      In (now, responses) samples ->
      List.length responses = List.length requests) ->
  export_fieldnames
    (map (fun '(now, responses) =>
            make_log_entry now (decoded requests responses)) samples)
  = "timestamp" :: map fst requests.
Proof.
  intros Hnd Hts Hne Hlen.
  assert (Hkeys : forall now responses,
             In (now, responses) samples ->
             map fst (make_log_entry now (decoded requests responses))
             = "timestamp" :: map fst requests).
  { intros now responses H.
    pose proof (decoded_keys requests responses (Hlen now responses H)) as E.
    rewrite make_log_entry_keys; rewrite E; [reflexivity | exact Hnd | exact Hts]. }
  assert (Hrest : forall entries : list (string * list string),
             (forall now responses, In (now, responses) entries ->
                map fst (make_log_entry now (decoded requests responses))
                = "timestamp" :: map fst requests) ->
             fold_left add_fieldnames
               (map (fun '(now, responses) =>
                       make_log_entry now (decoded requests responses)) entries)
               ("timestamp" :: map fst requests)
             = "timestamp" :: map fst requests).
  { induction entries as [|[n r] entries IH]; intros H; [reflexivity|].
    cbn [map fold_left]. unfold add_fieldnames at 2.
    rewrite (H n r) by now left.
    rewrite add_keys_old; [apply IH; intros; apply H; now right|].
    intros k [<- | Hk]; [now left | right; now right]. }
  destruct samples as [|[now responses] samples]; [congruence|].
  unfold export_fieldnames. cbn [map fold_left]. unfold add_fieldnames at 2.
  rewrite (Hkeys now responses) by now left.
  cbn [fold_left String.eqb Ascii.eqb Bool.eqb negb andb].
  rewrite add_keys_new; try assumption;
    [|intros k Hk [<- | []]; contradiction].
  cbn [app].
  apply Hrest. intros now' responses' H. apply Hkeys. now right.
Qed.

Lemma export_of_polled_log_witness :
  export_fieldnames
    (map (fun '(now, responses) =>
            make_log_entry now (decoded fiat_requests responses))
         [ ("2024-05-01 10:00:00", fiat_answers);
           ("2024-05-01 10:00:01", fiat_answers) ])
  = "timestamp" :: map fst fiat_requests.
Proof.
  apply (export_of_polled_log fiat_requests
           [ ("2024-05-01 10:00:00", fiat_answers);
             ("2024-05-01 10:00:01", fiat_answers) ]).
  - apply (bool_decide_unpack _). vm_compute. exact I.
  - cbn. intuition discriminate.
  - discriminate.
  - intros now responses [[= <- <-] | [[= <- <-] | []]]; reflexivity.
Defined.

(** ** The histories and the window *)

Lemma time_axis_length : List.length time_axis = GRAPH_HISTORY.
Proof. reflexivity. Qed.

Lemma deque_append_length {A : Type} (maxlen : nat) (d : list A) (x : A) :
  List.length d = maxlen -> List.length (deque_append maxlen d x) = maxlen.
Proof.
  intros H. unfold deque_append.
  destruct (Nat.ltb_spec (List.length d) maxlen) as [Hlt|_]; [lia|].
  destruct (Nat.eqb_spec maxlen 0) as [E|Hne]; [exact H|].
  rewrite length_app. destruct d as [|a d]; cbn [List.length tail] in *; lia.
Qed.

Lemma history_ok_insert (history : gmap string (list pyval)) (key : string)
    (d : list pyval) :
  history_ok history -> List.length d = List.length time_axis ->
  history_ok (<[key := d]> history).
Proof.
  intros [Hstd Hlen] Hd. split.
  - intros k Hk. apply lookup_insert_is_Some.
    destruct (decide (key = k)); [now left | right; split; auto].
  - intros k d' H.
    apply lookup_insert_Some in H as [[_ <-] | [_ H]];
      [exact Hd | exact (Hlen k d' H)].
Qed.

Lemma initial_history_ok : history_ok initial_history.
Proof.
  split.
  - intros key Hk. cbn [standard_keys In] in Hk.
    destruct Hk as [<- | [<- | [<- | [<- | [<- | []]]]]];
      exists (repeat (PyInt 0) GRAPH_HISTORY); vm_compute; reflexivity.
  - intros key d H. unfold initial_history in H.
    apply elem_of_list_to_map_2 in H. apply list_elem_of_In in H.
    apply in_map_iff in H as (k & [= _ <-] & _). reflexivity.
Qed.

Lemma std_differs (key k : string) :
  existsb (String.eqb key) standard_keys = false -> In k standard_keys ->
  key <> k.
Proof.
  intros Hkey Hk ->. apply existsb_eqb_In in Hk. congruence.
Qed.

Lemma append_standard_keeps (labels : list string) (data : snapshot)
    (key : string) (history : gmap string (list pyval)) :
  history_ok history -> In key labels -> In key standard_keys ->
  exists h, append_standard labels data key history = Some h
            /\ history_ok h
            /\ (forall k, is_Some (history !! k) -> is_Some (h !! k)).
Proof.
  intros Hok Hlabel Hkey. unfold append_standard.
  destruct (dict_get data key) as [[v|]|];
    [| exists history; auto | exists history; auto].
  apply existsb_eqb_In in Hlabel. rewrite Hlabel.
  destruct (proj1 Hok key Hkey) as [d Hd]. rewrite Hd.
  eexists. split; [reflexivity|]. split.
  - apply history_ok_insert; [exact Hok|].
    rewrite time_axis_length. apply deque_append_length.
    rewrite (proj2 Hok key d Hd). apply time_axis_length.
  - intros k Hk. apply lookup_insert_is_Some.
    destruct (decide (key = k)); [now left | right; split; auto].
Qed.

Lemma append_specific_keeps (labels : list string)
    (history : gmap string (list pyval)) (item : string * option pyval) :
  history_ok history ->
  history_ok (append_specific labels history item)
  /\ (forall k, is_Some (history !! k) ->
                is_Some (append_specific labels history item !! k)).
Proof.
  intros Hok. destruct item as [key [v|]]; unfold append_specific;
    destruct (negb (existsb (String.eqb key) standard_keys)); auto.
  destruct (existsb (String.eqb key) labels); auto.
  destruct (history !! key) as [d|] eqn:Hd; auto. split.
  - apply history_ok_insert; [exact Hok|].
    rewrite time_axis_length. apply deque_append_length.
    rewrite (proj2 Hok key d Hd). apply time_axis_length.
  - intros k Hk. apply lookup_insert_is_Some.
    destruct (decide (key = k)); [now left | right; split; auto].
Qed.

Lemma fold_specific_keeps (labels : list string) (data : snapshot) :
  forall history : gmap string (list pyval),
    history_ok history ->
    history_ok (fold_left (append_specific labels) data history)
    /\ (forall k, is_Some (history !! k) ->
                  is_Some (fold_left (append_specific labels) data history !! k)).
Proof.
  induction data as [|item data IH]; intros history Hok; cbn [fold_left]; auto.
  destruct (append_specific_keeps labels history item Hok) as [Hok1 Hsome1].
  destruct (IH _ Hok1) as [Hok2 Hsome2]. auto.
Qed.

Lemma update_history_keeps (labels : list string) (data : snapshot)
    (history : gmap string (list pyval)) :
  history_ok history ->
  (forall key, In key standard_keys -> In key labels) ->
  exists h, update_history labels data history = Some h
            /\ history_ok h
            /\ (forall k, is_Some (history !! k) -> is_Some (h !! k)).
Proof.
  intros Hok Hlabels. unfold update_history.
  assert (Hstd : forall key, In key standard_keys -> In key standard_keys)
    by auto.
  cbn [standard_keys In] in Hlabels, Hstd.
  destruct (append_standard_keeps labels data "speed" history Hok)
    as (h1 & -> & Hok1 & Hs1); [apply Hlabels; tauto | apply Hstd; tauto|].
  cbn [mbind option_bind].
  destruct (append_standard_keeps labels data "rpm" h1 Hok1)
    as (h2 & -> & Hok2 & Hs2); [apply Hlabels; tauto | apply Hstd; tauto|].
  cbn [mbind option_bind].
  destruct (append_standard_keeps labels data "engine_temp" h2 Hok2)
    as (h3 & -> & Hok3 & Hs3); [apply Hlabels; tauto | apply Hstd; tauto|].
  cbn [mbind option_bind].
  destruct (append_standard_keeps labels data "fuel_level" h3 Hok3)
    as (h4 & -> & Hok4 & Hs4); [apply Hlabels; tauto | apply Hstd; tauto|].
  cbn [mbind option_bind].
  destruct (append_standard_keeps labels data "intake_pressure" h4 Hok4)
    as (h5 & -> & Hok5 & Hs5); [apply Hlabels; tauto | apply Hstd; tauto|].
  cbn [mbind option_bind].
  destruct (fold_specific_keeps labels data h5 Hok5) as [Hok6 Hs6].
  eexists. split; [reflexivity|]. split; [exact Hok6 | auto 10].
Qed.

Lemma keys_del_keeps (key k : string) (keys : list string) :
  k <> key -> In k keys -> In k (keys_del key keys).
Proof.
  intros Hne Hin. apply List.filter_In. split; [exact Hin|].
  now apply negb_true_iff, String.eqb_neq.
Qed.

Lemma keys_del_NoDup (key : string) (keys : list string) :
  NoDup keys -> NoDup (keys_del key keys).
Proof.
  intros H. apply NoDup_ListNoDup. apply List.NoDup_filter.
  now apply NoDup_ListNoDup.
Qed.

Lemma keys_set_In (keys : list string) (key k : string) :
  In k keys -> In k (keys_set keys key).
Proof.
  intros H. unfold keys_set.
  destruct (existsb (String.eqb key) keys); [exact H|].
  apply in_or_app. now left.
Qed.

Lemma keys_set_has (keys : list string) (key : string) :
  In key (keys_set keys key).
Proof.
  unfold keys_set. destruct (existsb (String.eqb key) keys) eqn:E.
  - now apply existsb_eqb_In.
  - apply in_or_app. right. now left.
Qed.

Lemma keys_set_NoDup (keys : list string) (key : string) :
  NoDup keys -> NoDup (keys_set keys key).
Proof.
  intros H. unfold keys_set.
  destruct (existsb (String.eqb key) keys) eqn:E; [exact H|].
  apply NoDup_snoc; [exact H|]. intros Hin.
  apply existsb_eqb_In in Hin. congruence.
Qed.

Lemma clear_label_keeps (w : window) (key : string) :
  NoDup (metric_labels w) ->
  (forall k, In k standard_keys -> In k (metric_labels w)) ->
  history_ok (data_history w) ->
  NoDup (metric_labels (clear_label w key))
  /\ (forall k, In k standard_keys -> In k (metric_labels (clear_label w key)))
  /\ history_ok (data_history (clear_label w key)).
Proof.
  intros Hnd Hstd Hok. unfold clear_label.
  destruct (existsb (String.eqb key) standard_keys) eqn:Hkey;
    cbn [negb]; [auto|].
  cbn [metric_labels data_history]. split; [|split].
  - destruct (existsb (String.eqb key) (metric_labels w));
      [now apply keys_del_NoDup | exact Hnd].
  - intros k Hk.
    destruct (existsb (String.eqb key) (metric_labels w)); [|now apply Hstd].
    apply keys_del_keeps; [|now apply Hstd].
    intros ->. apply existsb_eqb_In in Hk. congruence.
  - destruct (data_history w !! key) as [d|] eqn:Hd; [|exact Hok].
    destruct Hok as [Hhas Hlen]. split.
    + intros k Hk. rewrite lookup_delete_ne; [now apply Hhas|].
      now apply std_differs.
    + intros k d' H. apply lookup_delete_Some in H as [_ H].
      exact (Hlen k d' H).
Qed.

Lemma clear_loop_keeps (keys : list string) :
  forall w : window,
    NoDup (metric_labels w) ->
    (forall k, In k standard_keys -> In k (metric_labels w)) ->
    history_ok (data_history w) ->
    NoDup (metric_labels (fold_left clear_label keys w))
    /\ (forall k, In k standard_keys ->
                  In k (metric_labels (fold_left clear_label keys w)))
    /\ history_ok (data_history (fold_left clear_label keys w)).
Proof.
  induction keys as [|key keys IH]; intros w Hnd Hstd Hok; cbn [fold_left];
    [auto|].
  destruct (clear_label_keeps w key Hnd Hstd Hok) as (H1 & H2 & H3).
  now apply IH.
Qed.

Lemma graph_key_standard (item : string) :
  In item standard_items -> In (graph_key item) standard_keys.
Proof.
  intros H. cbn [standard_items In] in H.
  destruct H as [<- | [<- | [<- | [<- | [<- | []]]]]]; vm_compute; tauto.
Qed.

Lemma init_window_ok : window_ok init_window.
Proof.
  unfold window_ok, init_window. cbn [metric_labels data_history graph_combo].
  split; [apply (bool_decide_unpack _); vm_compute; exact I|].
  split; [auto|]. split; [apply initial_history_ok|].
  intros item H. apply initial_history_ok. now apply graph_key_standard.
Qed.

Lemma clear_window_ok (w : window) :
  window_ok w -> window_ok (clear_vehicle_specific_metrics w).
Proof.
  intros (Hnd & Hstd & Hok & _).
  destruct (clear_loop_keeps (metric_labels w) w Hnd Hstd Hok)
    as (H1 & H2 & H3).
  unfold window_ok, clear_vehicle_specific_metrics.
  cbn [metric_labels data_history graph_combo].
  split; [exact H1|]. split; [exact H2|]. split; [exact H3|].
  intros item H. apply H3. now apply graph_key_standard.
Qed.

Lemma add_metric_ok (w : window) (item : string * string) :
  window_ok w -> window_ok (add_metric w item).
Proof.
  intros (Hnd & Hstd & Hok & Hcombo). destruct item as [name pid].
  unfold window_ok, add_metric. cbn [metric_labels data_history graph_combo].
  split; [now apply keys_set_NoDup|].
  split; [intros k Hk; apply keys_set_In; now apply Hstd|].
  assert (Hok' : history_ok
                   (<[Py.replace " " "_" (Py.lower name)
                      := repeat (PyInt 0) GRAPH_HISTORY]> (data_history w)))
    by (apply history_ok_insert; [exact Hok | reflexivity]).
  split; [exact Hok'|].
  intros item Hin. apply in_app_iff in Hin as [Hin | [<- | []]].
  - apply lookup_insert_is_Some.
    destruct (decide (Py.replace " " "_" (Py.lower name) = graph_key item));
      [now left | right; split; auto].
  - unfold graph_key.
    destruct (String.eqb (Py.replace " " "_" (Py.lower name))
                         "engine_temperature").
    + apply Hok'. cbn [standard_keys In]. tauto.
    + apply lookup_insert_is_Some. now left.
Qed.

Lemma add_metrics_ok (items : list (string * string)) :
  forall w : window, window_ok w -> window_ok (fold_left add_metric items w).
Proof.
  induction items as [|item items IH]; intros w H; cbn [fold_left];
    [exact H|].
  apply IH. now apply add_metric_ok.
Qed.

Lemma setup_window_ok (vehicle_profile : string) (w : window) :
  window_ok w -> window_ok (setup_vehicle_specific_metrics vehicle_profile w).
Proof.
  intros H. unfold setup_vehicle_specific_metrics.
  apply clear_window_ok in H.
  destruct (VEHICLE_PROFILES !! vehicle_profile) as [p|]; [|exact H].
  now apply add_metrics_ok.
Qed.

Lemma update_dashboard_ok (now : string) (data : snapshot) (w : window) :
  window_ok w ->
  exists w', update_dashboard now data w = Some w' /\ window_ok w'.
Proof.
  intros (Hnd & Hstd & Hok & Hcombo). unfold update_dashboard.
  destruct (update_history_keeps (metric_labels w) data (data_history w)
              Hok Hstd) as (h & -> & Hok' & Hsome).
  cbn [mbind option_bind]. eexists. split; [reflexivity|].
  unfold window_ok. cbn [metric_labels data_history graph_combo].
  repeat split; try assumption; try apply Hok'.
  intros item Hin. apply Hsome. now apply Hcombo.
Qed.

(** X23: the window never runs out of step.  In every window that the
    handlers make of the first one, the standard metrics have a label and
    a history, so [update_dashboard] shows any snapshot without a
    [KeyError]; and every item of the selector has a history as long as
    the time axis, so [update_graph] always has two series of the same
    length to plot. *)
Theorem window_invariant (w : window) :
  reachable w ->
  window_ok w
  /\ (forall now data, is_Some (update_dashboard now data w))
  /\ (forall item, In item (graph_combo w) ->
       exists d, update_graph w item = Some (time_axis, d)
                 /\ List.length d = List.length time_axis).
Proof.
  intros Hreach.
  assert (Hok : window_ok w).
  { induction Hreach as [|vp w _ IH|w _ IH|now data w w' _ IH Hupd].
    - apply init_window_ok.
    - now apply setup_window_ok.
    - now apply clear_window_ok.
    - destruct (update_dashboard_ok now data w IH) as (w1 & E & Hw1).
      congruence. }
  split; [exact Hok|]. split.
  - intros now data.
    destruct (update_dashboard_ok now data w Hok) as (w' & -> & _). eauto.
  - intros item Hin. destruct Hok as (_ & _ & Hhist & Hcombo).
    destruct (Hcombo item Hin) as [d Hd]. exists d. unfold update_graph.
    rewrite Hd. split; [reflexivity|]. exact (proj2 Hhist _ d Hd).
Qed.

Lemma window_invariant_witness :
  let w := setup_vehicle_specific_metrics "Fiat 500 Series 1" init_window in
  window_ok w
  /\ (forall now data, is_Some (update_dashboard now data w))
  /\ (forall item, In item (graph_combo w) ->
       exists d, update_graph w item = Some (time_axis, d)
                 /\ List.length d = List.length time_axis).
Proof.
  apply (window_invariant
           (setup_vehicle_specific_metrics "Fiat 500 Series 1" init_window)).
  apply reach_setup, reach_init.
Defined.

(** ** What [update_dashboard] appends *)

Lemma dict_get_None {V : Type} (d : list (string * V)) (k : string) :
  ~ In k (map fst d) -> dict_get d k = None.
Proof.
  induction d as [|[k' v] d IH]; intros H; [reflexivity|].
  cbn [dict_get map fst In] in *.
  destruct (String.eqb_spec k k') as [->|_]; [exfalso; auto | auto].
Qed.

Lemma append_standard_lookup (labels : list string) (data : snapshot)
    (key : string) (history h : gmap string (list pyval)) :
  append_standard labels data key history = Some h ->
  forall k, h !! k = if String.eqb k key
                     then appended labels data history key
                     else history !! k.
Proof.
  unfold append_standard, appended. intros H k.
  destruct (dict_get data key) as [[v|]|];
    [| injection H as <-; now destruct (String.eqb_spec k key) as [->|_]
     | injection H as <-; now destruct (String.eqb_spec k key) as [->|_] ].
  destruct (existsb (String.eqb key) labels); [|discriminate H].
  destruct (history !! key) as [d|] eqn:Hd; [|discriminate H].
  injection H as <-.
  destruct (String.eqb_spec k key) as [->|Hne].
  - apply lookup_insert_Some. now left.
  - rewrite lookup_insert_ne by congruence. reflexivity.
Qed.

Lemma append_specific_lookup (labels : list string)
    (history : gmap string (list pyval)) (key : string) (value : option pyval)
    (k : string) :
  append_specific labels history (key, value) !! k
  = if String.eqb k key && negb (existsb (String.eqb key) standard_keys)
    then match value with
         | Some v =>
             if existsb (String.eqb key) labels
             then (fun d => deque_append GRAPH_HISTORY d v) <$> history !! key
             else history !! key
         | None => history !! key
         end
    else history !! k.
Proof.
  unfold append_specific.
  destruct (existsb (String.eqb key) standard_keys); cbn [negb];
    [now rewrite andb_false_r|].
  rewrite andb_true_r.
  destruct value as [v|];
    [|now destruct (String.eqb_spec k key) as [->|_]].
  destruct (existsb (String.eqb key) labels);
    [|now destruct (String.eqb_spec k key) as [->|_]].
  destruct (history !! key) as [d|] eqn:Hd.
  - destruct (String.eqb_spec k key) as [->|Hne].
    + apply lookup_insert_Some. now left.
    + rewrite lookup_insert_ne by congruence. reflexivity.
  - destruct (String.eqb_spec k key) as [->|_]; [now rewrite Hd | reflexivity].
Qed.

Lemma fold_specific_lookup (labels : list string) (data : snapshot) :
  forall (history : gmap string (list pyval)) (key : string),
    NoDup (map fst data) ->
    fold_left (append_specific labels) data history !! key
    = if existsb (String.eqb key) standard_keys then history !! key
      else appended labels data history key.
Proof.
  induction data as [|[k value] data IH]; intros history key Hnd;
    cbn [fold_left].
  - unfold appended. cbn [dict_get]. now destruct (existsb _ standard_keys).
  - cbn [map fst] in Hnd. apply NoDup_cons in Hnd as [Hk Hnd].
    rewrite (IH _ key Hnd). unfold appended. cbn [dict_get].
    rewrite (append_specific_lookup labels history k value key).
    destruct (existsb (String.eqb key) standard_keys) eqn:Hstd.
    + destruct (String.eqb_spec key k) as [->|_]; [|reflexivity].
      rewrite Hstd. reflexivity.
    + destruct (String.eqb_spec key k) as [->|_]; [|reflexivity].
      rewrite Hstd. cbn [negb andb].
      rewrite dict_get_None; [reflexivity|].
      intros Hin. apply Hk. now apply list_elem_of_In.
Qed.

(** Which of the literal keys a key is. *)
Ltac known_key :=
  repeat match goal with
         | |- context [String.eqb ?a ?b] =>
             let v := eval vm_compute in (String.eqb a b) in
             lazymatch v with
             | true => change (String.eqb a b) with true
             | false => change (String.eqb a b) with false
             end
         end.

(** X24: what [update_dashboard] does to the histories.  When the keys
    of the snapshot are all different and no label or history is missing
    for a standard metric that has a value, the history of every key
    afterwards is: with the value appended, the oldest one dropped, when
    the snapshot has a value that is not [None] for the key and the key
    has a label; unchanged otherwise.  Each value is appended once, to the
    history of its own key. *)
Theorem update_history_appends (labels : list string) (data : snapshot)
    (history history' : gmap string (list pyval)) :
  NoDup (map fst data) ->
  update_history labels data history = Some history' ->
  forall key, history' !! key = appended labels data history key.
Proof.
  intros Hnd H key. unfold update_history in H.
  apply bind_Some in H as (h1 & E1 & H).
  apply bind_Some in H as (h2 & E2 & H).
  apply bind_Some in H as (h3 & E3 & H).
  apply bind_Some in H as (h4 & E4 & H).
  apply bind_Some in H as (h5 & E5 & H).
  injection H as <-.
  pose proof (append_standard_lookup _ _ _ _ _ E1) as L1.
  pose proof (append_standard_lookup _ _ _ _ _ E2) as L2.
  pose proof (append_standard_lookup _ _ _ _ _ E3) as L3.
  pose proof (append_standard_lookup _ _ _ _ _ E4) as L4.
  pose proof (append_standard_lookup _ _ _ _ _ E5) as L5.
  assert (Hext : forall h k, h !! k = history !! k ->
                             appended labels data h k
                             = appended labels data history k).
  { intros h k E. unfold appended. now rewrite E. }
  rewrite fold_specific_lookup by exact Hnd.
  destruct (String.eqb_spec key "speed") as [->|N1].
  { known_key. cbn [existsb standard_keys orb].
    known_key. cbn [orb].
    rewrite L5, L4, L3, L2, L1. known_key. reflexivity. }
  destruct (String.eqb_spec key "rpm") as [->|N2].
  { known_key. cbn [existsb standard_keys orb]. known_key. cbn [orb].
    rewrite L5, L4, L3, L2. known_key. apply Hext.
    rewrite L1. known_key. reflexivity. }
  destruct (String.eqb_spec key "engine_temp") as [->|N3].
  { known_key. cbn [existsb standard_keys orb]. known_key. cbn [orb].
    rewrite L5, L4, L3. known_key. apply Hext.
    rewrite L2, L1. known_key. reflexivity. }
  destruct (String.eqb_spec key "fuel_level") as [->|N4].
  { known_key. cbn [existsb standard_keys orb]. known_key. cbn [orb].
    rewrite L5, L4. known_key. apply Hext.
    rewrite L3, L2, L1. known_key. reflexivity. }
  destruct (String.eqb_spec key "intake_pressure") as [->|N5].
  { known_key. cbn [existsb standard_keys orb]. known_key. cbn [orb].
    rewrite L5. known_key. apply Hext.
    rewrite L4, L3, L2, L1. known_key. reflexivity. }
  apply String.eqb_neq in N1, N2, N3, N4, N5.
  cbn [existsb standard_keys]. rewrite N1, N2, N3, N4, N5. cbn [orb].
  apply Hext. rewrite L5, L4, L3, L2, L1, N1, N2, N3, N4, N5. reflexivity.
Qed.

Lemma update_history_appends_witness :
  let w := setup_vehicle_specific_metrics "Fiat 500 Series 1" init_window in
  let data := decoded fiat_requests fiat_answers in
  default ∅ (update_history (metric_labels w) data (data_history w)) !! "rpm"
  = appended (metric_labels w) data (data_history w) "rpm".
Proof.
  apply (update_history_appends
           (metric_labels
              (setup_vehicle_specific_metrics "Fiat 500 Series 1" init_window))
           (decoded fiat_requests fiat_answers)
           (data_history
              (setup_vehicle_specific_metrics "Fiat 500 Series 1" init_window))).
  - apply (bool_decide_unpack _). vm_compute. exact I.
  - vm_compute. reflexivity.
Defined.

(** ** Setting up and clearing the metrics of a profile *)

Lemma add_metric_keeps (w : window) (item : string * string)
    (name : string) :
  In (metric_key name) (metric_labels w)
  /\ data_history w !! metric_key name = Some (repeat (PyInt 0) GRAPH_HISTORY)
  /\ In name (graph_combo w) ->
  In (metric_key name) (metric_labels (add_metric w item))
  /\ data_history (add_metric w item) !! metric_key name
     = Some (repeat (PyInt 0) GRAPH_HISTORY)
  /\ In name (graph_combo (add_metric w item)).
Proof.
  intros (Hl & Hh & Hc). destruct item as [name' pid].
  unfold add_metric. cbn [metric_labels data_history graph_combo].
  split; [now apply keys_set_In|]. split; [|apply in_or_app; now left].
  apply lookup_insert_Some.
  destruct (decide (Py.replace " " "_" (Py.lower name') = metric_key name));
    [now left | now right].
Qed.

Lemma add_metric_adds (w : window) (name pid : string) :
  In (metric_key name) (metric_labels (add_metric w (name, pid)))
  /\ data_history (add_metric w (name, pid)) !! metric_key name
     = Some (repeat (PyInt 0) GRAPH_HISTORY)
  /\ In name (graph_combo (add_metric w (name, pid))).
Proof.
  unfold add_metric, metric_key.
  cbn [metric_labels data_history graph_combo].
  split; [apply keys_set_has|]. split.
  - apply lookup_insert_Some. now left.
  - apply in_or_app. right. now left.
Qed.

Lemma add_metrics_adds (items : list (string * string)) (name pid : string) :
  forall w : window,
    In (name, pid) items ->
    In (metric_key name) (metric_labels (fold_left add_metric items w))
    /\ data_history (fold_left add_metric items w) !! metric_key name
       = Some (repeat (PyInt 0) GRAPH_HISTORY)
    /\ In name (graph_combo (fold_left add_metric items w)).
Proof.
  assert (Hkeep : forall items w,
             In (metric_key name) (metric_labels w)
             /\ data_history w !! metric_key name
                = Some (repeat (PyInt 0) GRAPH_HISTORY)
             /\ In name (graph_combo w) ->
             In (metric_key name) (metric_labels (fold_left add_metric items w))
             /\ data_history (fold_left add_metric items w) !! metric_key name
                = Some (repeat (PyInt 0) GRAPH_HISTORY)
             /\ In name (graph_combo (fold_left add_metric items w))).
  { intros l. induction l as [|item l IH]; intros w H; cbn [fold_left];
      [exact H|].
    apply IH. now apply add_metric_keeps. }
  induction items as [|item items IH]; intros w Hin; [destruct Hin|].
  cbn [fold_left]. destruct Hin as [-> | Hin].
  - apply Hkeep. apply add_metric_adds.
  - now apply IH.
Qed.

(** X25: the metrics of a profile after [setup_vehicle_specific_metrics].
    For a profile of the table, every metric of the profile then has a
    label and a history of thirty zeros under the very key that [run]
    stores its value under, and its name is an item of the selector,
    whatever the window was before. *)
Theorem setup_profile_metrics (vehicle_profile : string) (p : profile)
    (w : window) (name pid : string) :
  VEHICLE_PROFILES !! vehicle_profile = Some p ->
  In (name, pid) (specific_pids p) ->
  let w' := setup_vehicle_specific_metrics vehicle_profile w in
  In (metric_key name) (metric_labels w')
  /\ data_history w' !! metric_key name = Some (repeat (PyInt 0) GRAPH_HISTORY)
  /\ In name (graph_combo w').
Proof.
  intros Hp Hin. unfold setup_vehicle_specific_metrics. rewrite Hp.
  cbv zeta. now apply (add_metrics_adds (specific_pids p) name pid).
Qed.

Lemma setup_profile_metrics_witness :
  let w' := setup_vehicle_specific_metrics "Fiat 500 Series 1" init_window in
  In (metric_key "Turbo Pressure") (metric_labels w')
  /\ data_history w' !! metric_key "Turbo Pressure"
     = Some (repeat (PyInt 0) GRAPH_HISTORY)
  /\ In "Turbo Pressure" (graph_combo w').
Proof.
  apply (setup_profile_metrics "Fiat 500 Series 1"
           (Profile CMD_KWP2000 CMD_ISO9141
              [ ("Turbo Pressure", PID_FIAT_TURBO_PRESSURE);
                ("Clutch Status", PID_FIAT_CLUTCH_STATUS) ])
           init_window "Turbo Pressure" PID_FIAT_TURBO_PRESSURE).
  - vm_compute. reflexivity.
  - left. reflexivity.
Defined.

Lemma filter_all {A : Type} (f : A -> bool) (l : list A) :
  (forall x, In x l -> f x = true) -> List.filter f l = l.
Proof.
  induction l as [|a l IH]; intros H; [reflexivity|].
  cbn [List.filter]. rewrite (H a) by now left.
  f_equal. apply IH. intros x Hx. apply H. now right.
Qed.

Lemma filter_twice {A : Type} (f g : A -> bool) (l : list A) :
  List.filter f (List.filter g l) = List.filter (fun x => g x && f x) l.
Proof.
  induction l as [|a l IH]; [reflexivity|]. cbn [List.filter].
  destruct (g a); cbn [andb List.filter]; [|exact IH].
  destruct (f a); now rewrite IH.
Qed.

Lemma clear_label_labels (w : window) (key : string) :
  metric_labels (clear_label w key)
  = List.filter
      (fun k => existsb (String.eqb key) standard_keys
                || negb (String.eqb k key))
      (metric_labels w).
Proof.
  unfold clear_label.
  destruct (existsb (String.eqb key) standard_keys); cbn [negb orb].
  - symmetry. now apply filter_all.
  - cbn [metric_labels].
    destruct (existsb (String.eqb key) (metric_labels w)) eqn:E;
      [reflexivity|].
    symmetry. apply filter_all. intros k Hk.
    apply negb_true_iff, String.eqb_neq. intros ->.
    apply existsb_eqb_In in Hk. congruence.
Qed.

Lemma clear_label_history (w : window) (key k : string) :
  data_history (clear_label w key) !! k
  = if negb (existsb (String.eqb key) standard_keys) && String.eqb k key
    then None else data_history w !! k.
Proof.
  unfold clear_label.
  destruct (existsb (String.eqb key) standard_keys); cbn [negb andb];
    [reflexivity|].
  cbn [data_history].
  destruct (data_history w !! key) as [d|] eqn:Hd.
  - destruct (String.eqb_spec k key) as [->|Hne].
    + apply lookup_delete_None. now left.
    + rewrite lookup_delete_ne by congruence. reflexivity.
  - destruct (String.eqb_spec k key) as [->|_]; [exact Hd | reflexivity].
Qed.

Lemma clear_label_rest (w : window) (key : string) :
  graph_combo (clear_label w key) = graph_combo w
  /\ log_data (clear_label w key) = log_data w.
Proof.
  unfold clear_label.
  now destruct (negb (existsb (String.eqb key) standard_keys)).
Qed.

Lemma clear_loop_spec (keys : list string) :
  forall w : window,
    metric_labels (fold_left clear_label keys w)
    = List.filter
        (fun k => existsb (String.eqb k) standard_keys
                  || negb (existsb (String.eqb k) keys))
        (metric_labels w)
    /\ (forall k,
          data_history (fold_left clear_label keys w) !! k
          = if negb (existsb (String.eqb k) standard_keys)
               && existsb (String.eqb k) keys
            then None else data_history w !! k)
    /\ log_data (fold_left clear_label keys w) = log_data w.
Proof.
  induction keys as [|key keys IH]; intros w; cbn [fold_left existsb].
  - split; [|split; [|reflexivity]].
    + symmetry. apply filter_all. intros k _. apply orb_true_r.
    + intros k. now rewrite andb_false_r.
  - destruct (IH (clear_label w key)) as (Hl & Hh & Hlog).
    split; [|split].
    + rewrite Hl, clear_label_labels, filter_twice.
      apply List.filter_ext_in. intros k _.
      destruct (String.eqb_spec k key) as [->|Hne]; cbn [negb orb andb].
      * now destruct (existsb (String.eqb key) standard_keys).
      * rewrite orb_true_r. reflexivity.
    + intros k. rewrite Hh, clear_label_history.
      destruct (String.eqb_spec k key) as [->|Hne]; cbn [orb].
      * destruct (existsb (String.eqb key) standard_keys); cbn [negb andb];
          [reflexivity|].
        now destruct (existsb (String.eqb key) keys).
      * now rewrite andb_false_r.
    + rewrite Hlog. apply clear_label_rest.
Qed.

(** X26: what [clear_vehicle_specific_metrics] leaves.  Of the labels
    the standard ones remain, in their order; the history of every key
    that had a label and is not a standard one is gone, every other
    history is as it was; the selector holds the five standard items; the
    log is not touched. *)
Theorem clear_leaves_standard (w : window) :
  let w' := clear_vehicle_specific_metrics w in
  metric_labels w'
  = List.filter (fun k => existsb (String.eqb k) standard_keys)
                (metric_labels w)
  /\ (forall k,
        data_history w' !! k
        = if negb (existsb (String.eqb k) standard_keys)
             && existsb (String.eqb k) (metric_labels w)
          then None else data_history w !! k)
  /\ graph_combo w' = standard_items
  /\ log_data w' = log_data w.
Proof.
  cbv zeta. unfold clear_vehicle_specific_metrics.
  cbn [metric_labels data_history graph_combo log_data].
  destruct (clear_loop_spec (metric_labels w) w) as (Hl & Hh & Hlog).
  split; [|split; [exact Hh | split; [reflexivity | exact Hlog]]].
  rewrite Hl. apply List.filter_ext_in. intros k Hk.
  apply existsb_eqb_In in Hk. rewrite Hk. cbn [negb]. apply orb_false_r.
Qed.
